(** * SnapTradeIntegration: port allocator, dev supervisor, response normalizer

  A shallow embedding of the JavaScript sources

  - [findFreePorts.js]            (module [FindFreePorts])
  - the dev supervisor script     (module [StartDev])
  - the holdings helper           (module [Holdings])
  - the admin panel extractors    (module [AdminPanel])
  - [backend/server.js]           (module [Server])

  together with the properties the specification states about them. *)

From Stdlib Require Import ZArith QArith List String Ascii Bool Lia DecimalString.
From stdpp Require Import gmap strings.
Import ListNotations.
Open Scope string_scope.
Open Scope list_scope.
Open Scope Z_scope.
Set Warnings "-register-all".

(** ** JavaScript values and the operators the sources use *)

Module Js.

(** JSON-shaped values plus [undefined].  Numbers are rationals: the
    sources below only ever test a number for truthiness. *)
Inductive value : Type :=
| VUndefined
| VNull
| VBool (b : bool)
| VNum (n : Q)
| VStr (s : string)
| VArr (items : list value)
| VObj (fields : list (string * value)).

(** Abrupt completion: the only exception these sources can raise on
    JSON input is the TypeError of reading a property of [null] or
    [undefined]. *)
Inductive completion (A : Type) : Type :=
| Normal (a : A)
| Throw (msg : string).
Arguments Normal {A} a.
Arguments Throw {A} msg.

Definition bind {A B} (c : completion A) (k : A -> completion B) : completion B :=
  match c with
  | Normal a => k a
  | Throw m => Throw m
  end.

Notation "'let*' x ':=' c 'in' k" := (bind c (fun x => k))
  (at level 10, x name, c at level 100, k at level 200).

(** ToBoolean. *)
Definition truthy (v : value) : bool :=
  match v with
  | VUndefined | VNull => false
  | VBool b => b
  | VNum n => negb (Qeq_bool n 0)
  | VStr s => negb (String.eqb s "")
  | VArr _ | VObj _ => true
  end.

(** Own-property lookup in an object literal (first binding wins; a
    parsed JSON object has no duplicate keys). *)
Fixpoint lookup_field (k : string) (fields : list (string * value)) : value :=
  match fields with
  | [] => VUndefined
  | (k', v) :: rest => if String.eqb k k' then v else lookup_field k rest
  end.

(** [v.k] for a key [k] that is neither an array index nor the name of
    a built-in prototype property ([length], [constructor], ...), which
    holds for every key the sources below read.  Primitives and arrays
    then answer [undefined]; [null] and [undefined] throw. *)
Definition get (v : value) (k : string) : completion value :=
  match v with
  | VUndefined => Throw ("Cannot read properties of undefined (reading '" +:+ k +:+ "')")
  | VNull => Throw ("Cannot read properties of null (reading '" +:+ k +:+ "')")
  | VObj fields => Normal (lookup_field k fields)
  | _ => Normal VUndefined
  end.

(** [v?.k]: [undefined] on [null] and [undefined], [v.k] otherwise. *)
Definition opt_get (v : value) (k : string) : value :=
  match v with
  | VObj fields => lookup_field k fields
  | _ => VUndefined
  end.

(** [a || b], with [b] evaluated only when [a] is falsy. *)
Definition or_else (a b : completion value) : completion value :=
  let* va := a in if truthy va then Normal va else b.

Definition isArray (v : value) : bool :=
  match v with
  | VArr _ => true
  | _ => false
  end.

(** [typeof v === "object"]. *)
Definition typeof_object (v : value) : bool :=
  match v with
  | VNull | VArr _ | VObj _ => true
  | _ => false
  end.

(** White space stripped by [String.prototype.trim], restricted to the
    ASCII range of the byte strings used here. *)
Definition is_space (c : ascii) : bool :=
  let n := nat_of_ascii c in
  ((9 <=? n) && (n <=? 13))%nat || (n =? 32)%nat.

Fixpoint trim_start (s : string) : string :=
  match s with
  | EmptyString => EmptyString
  | String c rest => if is_space c then trim_start rest else s
  end.

(** Drops trailing white space: a character is kept when something
    non-blank follows it or it is itself non-blank. *)
Fixpoint trim_end (s : string) : string :=
  match s with
  | EmptyString => EmptyString
  | String c rest =>
      match trim_end rest with
      | EmptyString => if is_space c then EmptyString else String c EmptyString
      | kept => String c kept
      end
  end.

Definition trim (s : string) : string := trim_end (trim_start s).

(** [s.split(sep)] for a one-character separator. *)
Fixpoint split_on (sep : ascii) (s : string) : list string :=
  match s with
  | EmptyString => [EmptyString]
  | String c rest =>
      if Ascii.eqb c sep then EmptyString :: split_on sep rest
      else match split_on sep rest with
           | piece :: pieces => String c piece :: pieces
           | [] => [String c EmptyString]
           end
  end.

(** [s.split(/\s+/)]: [in_gap] tells that the previous character was
    white space. *)
Fixpoint split_spaces_from (in_gap : bool) (s : string) : list string :=
  match s with
  | EmptyString => [EmptyString]
  | String c rest =>
      if is_space c then
        if in_gap then split_spaces_from true rest
        else EmptyString :: split_spaces_from true rest
      else match split_spaces_from false rest with
           | piece :: pieces => String c piece :: pieces
           | [] => [String c EmptyString]
           end
  end.

Definition split_spaces (s : string) : list string := split_spaces_from false s.

(** [hay.includes(needle)]. *)
Fixpoint includes (needle hay : string) : bool :=
  String.prefix needle hay ||
  match hay with
  | EmptyString => false
  | String _ rest => includes needle rest
  end.

(** [new RegExp(lit + "\\s").test(s)] for a literal [lit] without
    pattern characters: [lit] occurs somewhere, followed by white
    space. *)
Fixpoint followed_by_space (lit s : string) : bool :=
  match lit, s with
  | EmptyString, String c _ => is_space c
  | String a lit', String c s' => Ascii.eqb a c && followed_by_space lit' s'
  | _, EmptyString => false
  end.

Fixpoint test_literal_space (lit s : string) : bool :=
  followed_by_space lit s ||
  match s with
  | EmptyString => false
  | String _ rest => test_literal_space lit rest
  end.

(** [parts[parts.length - 1]] as a string ([undefined] cannot arise:
    [split] never returns an empty array). *)
Definition last_part (parts : list string) : string := List.last parts EmptyString.

Definition nonempty (s : string) : bool := negb (String.eqb s "").

(** [chunks.join("")]. *)
Definition join (chunks : list string) : string := fold_right append "" chunks.

End Js.

Import Js.
Infix "?." := opt_get (at level 25, left associativity).
Infix "<||>" := or_else (at level 55, right associativity).

(** ** The holdings helper: [normalizeHoldingsResponse] *)

Module Holdings.

Definition empty_result : value :=
  VObj [("accounts", VArr []); ("positions", VArr [])].

(** The [||] chain that resolves [positions], in source order. *)
Definition resolve_positions (data : value) : completion value :=
  Normal (data ?. "data" ?. "positions") <||>
  Normal (data ?. "data" ?. "holdings") <||>
  Normal (data ?. "data" ?. "results") <||>
  Normal (data ?. "data") <||>
  get data "holdings" <||>
  get data "positions" <||>
  get data "accountHoldings" <||>
  get data "results" <||>
  Normal data <||>
  Normal (VArr []).

Definition normalizeHoldingsResponse (data : value) : completion value :=
  if negb (truthy data) then Normal empty_result
  else
    let* accounts :=
      get data "accounts" <||> get data "brokerageAccounts" <||> Normal (VArr []) in
    let* positions := resolve_positions data in
    Normal (VObj [("accounts", accounts);
                  ("positions", if isArray positions then positions else VArr []);
                  ("raw", data)]).

(** Reading a field of the returned object. *)
Definition field (k : string) (result : value) : value := result ?. k.

(** The candidates of [resolve_positions] as an ordered list of paths,
    for the first-match reading of the chain. *)
Definition nested_candidates (data : value) : list value :=
  [data ?. "data" ?. "positions"; data ?. "data" ?. "holdings";
   data ?. "data" ?. "results"; data ?. "data"].

Definition flat_candidates (data : value) : list value :=
  [data ?. "holdings"; data ?. "positions";
   data ?. "accountHoldings"; data ?. "results"].

Fixpoint first_truthy (candidates : list value) (default : value) : value :=
  match candidates with
  | [] => default
  | c :: rest => if truthy c then c else first_truthy rest default
  end.

Definition as_sequence (v : value) : value :=
  if isArray v then v else VArr [].

(** The resolution order as the specification words it: flat fields
    first, the variants under the [data] wrapper second. *)
Definition positions_flat_first (data : value) : value :=
  as_sequence
    (first_truthy (flat_candidates data ++ nested_candidates data ++ [data]) (VArr [])).

(** The resolution order of the source: wrapper variants first. *)
Definition positions_nested_first (data : value) : value :=
  as_sequence
    (first_truthy (nested_candidates data ++ flat_candidates data ++ [data]) (VArr [])).

(** The contract of the normalizer as the specification states it for
    an input [x]. *)
Definition total_with_raw (x : value) : Prop :=
  exists result,
    normalizeHoldingsResponse x = Normal result /\
    isArray (field "accounts" result) = true /\
    isArray (field "positions" result) = true /\
    field "raw" result = x.

(** No recognizable structure: no accounts under either name, and no
    sequence as the payload itself or under any of the paths that
    [resolve_positions] consults.  A payload none of whose recognised
    fields is present is of this kind. *)
Definition unstructured (x : value) : bool :=
  negb (truthy (x ?. "accounts")) && negb (truthy (x ?. "brokerageAccounts")) &&
  forallb (fun c => negb (isArray c)) (nested_candidates x ++ flat_candidates x ++ [x]).

(** A payload whose [accounts] field is text. *)
Definition text_accounts : value := VObj [("accounts", VStr "n/a")].

End Holdings.

(** ** The admin panel extractors: [firstString], [formatTicker] *)

Module AdminPanel.

(** [typeof v === "string" && v.trim()], giving the trimmed text. *)
Definition usable_string (v : value) : option string :=
  match v with
  | VStr s => if String.eqb (trim s) "" then None else Some (trim s)
  | _ => None
  end.

(** The secondary lookup inside a structured candidate. *)
Definition nested_lookup (c : value) : completion value :=
  get c "symbol" <||> get c "ticker" <||> get c "code" <||> get c "name" <||> get c "id".

Fixpoint firstString (candidates : list value) : completion string :=
  match candidates with
  | [] => Normal ""
  | c :: rest =>
      match usable_string c with
      | Some s => Normal s
      | None =>
          if truthy c && typeof_object c then
            let* nested := nested_lookup c in
            match usable_string nested with
            | Some s => Normal s
            | None => firstString rest
            end
          else firstString rest
      end
  end.

Definition ticker_candidates (position : value) : completion (list value) :=
  let* last :=
    match position ?. "symbol" with
    | VStr _ => get position "symbol"
    | _ => Normal (VStr "")
    end in
  Normal
    [position ?. "ticker";
     position ?. "symbol" ?. "symbol";
     position ?. "symbol" ?. "ticker";
     position ?. "symbol" ?. "symbol" ?. "symbol";
     position ?. "symbol" ?. "symbol" ?. "ticker";
     position ?. "universalSymbol" ?. "symbol";
     position ?. "universalSymbol" ?. "ticker";
     position ?. "universal_symbol" ?. "symbol";
     position ?. "universal_symbol" ?. "ticker";
     position ?. "instrument" ?. "symbol";
     position ?. "instrument" ?. "ticker";
     position ?. "security" ?. "symbol";
     position ?. "security" ?. "ticker";
     position ?. "instrument" ?. "universalSymbol" ?. "symbol";
     position ?. "instrument" ?. "universal_symbol" ?. "symbol";
     last].

Definition formatTicker (position : value) : completion string :=
  let* candidates := ticker_candidates position in
  firstString candidates.

(** The record of the triple-nested case. *)
Definition tsla_position : value :=
  VObj [("symbol", VObj [("symbol", VObj [("symbol", VStr "TSLA")])])].

End AdminPanel.

(** ** Asynchronous programs over the host's services *)

Module Async.

Inductive color : Type := reset | bright | red | green | blue | cyan | yellow.

(** What the handlers of a spawned helper command observe: an [error]
    event, or [close] with the exit code after the [data] chunks of its
    standard output. *)
Inductive exit_report : Type :=
| SpawnError
| Closed (code : Z) (chunks : list string).

(** The options of [child_process.spawn]; [env] lists the variables set
    on top of [process.env]. *)
Record spawn_options : Type := {
  cwd : option string;
  env : list (string * string);
  stdio : option string;
  shell : bool
}.

Definition no_options : spawn_options :=
  {| cwd := None; env := []; stdio := None; shell := false |}.

(** One entry of [os.networkInterfaces()]. *)
Record iface : Type := { address : string; family : string; internal : bool }.

(** Services of the host.  The first group answers at once; the second
    group ([Listen] onwards) suspends the caller until the answer
    arrives. *)
Inductive request : Type -> Type :=
| Log (prefix message : string) (c : color) : request unit
| Spawn (cmd : string) (args : list string) (opts : spawn_options) : request Z
| Kill (pid : Z) (signal : string) : request unit
| OnSignal (signal : string) : request unit
| NetworkInterfaces : request (list (string * list iface))
| Listen (port : Z) (host : string) : request bool
| HttpGet (url : string) : request bool
| Timeout (ms : Z) : request unit
| Wait (pid : Z) : request exit_report.

Definition suspends {X} (r : request X) : bool :=
  match r with
  | Listen _ _ | HttpGet _ | Timeout _ | Wait _ => true
  | _ => false
  end.

(** Observable events: each request with its answer, and the exit. *)
Inductive event : Type :=
| ELog (prefix message : string) (c : color)
| ESpawn (cmd : string) (args : list string) (opts : spawn_options) (pid : Z)
| EKill (pid : Z) (signal : string)
| EOnSignal (signal : string)
| ENetworkInterfaces
| EListen (port : Z) (host : string) (free : bool)
| EGet (url : string) (ok : bool)
| ETimeout (ms : Z)
| EWait (pid : Z) (report : exit_report)
| EExit (code : Z).

Definition event_of {X} (r : request X) : X -> event :=
  match r in request X return X -> event with
  | Log p m c => fun _ => ELog p m c
  | Spawn cmd args opts => fun pid => ESpawn cmd args opts pid
  | Kill pid sig => fun _ => EKill pid sig
  | OnSignal sig => fun _ => EOnSignal sig
  | NetworkInterfaces => fun _ => ENetworkInterfaces
  | Listen port host => fun free => EListen port host free
  | HttpGet url => fun ok => EGet url ok
  | Timeout ms => fun _ => ETimeout ms
  | Wait pid => fun report => EWait pid report
  end.

(** A program: returns, asks the host and continues with the answer,
    calls [process.exit], or throws. *)
Inductive Async (A : Type) : Type :=
| Ret (a : A)
| Do {X : Type} (r : request X) (k : X -> Async A)
| Exit (code : Z)
| Raise (msg : string).
Arguments Ret {A} a.
Arguments Do {A X} r k.
Arguments Exit {A} code.
Arguments Raise {A} msg.

Fixpoint bind {A B} (t : Async A) (k : A -> Async B) : Async B :=
  match t with
  | Ret a => k a
  | Do r c => Do r (fun x => bind (c x) k)
  | Exit code => Exit code
  | Raise msg => Raise msg
  end.

(** [promise.catch(handler)] / [try { t } catch (e) { handler e }]. *)
Fixpoint catch {A} (t : Async A) (handler : string -> Async A) : Async A :=
  match t with
  | Ret a => Ret a
  | Do r c => Do r (fun x => catch (c x) handler)
  | Exit code => Exit code
  | Raise msg => handler msg
  end.

#[export] Instance Async_ret : MRet Async := fun A a => Ret a.
#[export] Instance Async_bind : MBind Async := fun A B k t => bind t k.

Definition call {X} (r : request X) : Async X := Do r Ret.

Inductive outcome (A : Type) : Type :=
| Returned (a : A)
| Exited (code : Z)
| Threw (msg : string).
Arguments Returned {A} a.
Arguments Exited {A} code.
Arguments Threw {A} msg.

(** The environment: it answers a request knowing everything that has
    happened so far. *)
Definition oracle : Type := forall X, list event -> request X -> X.

(** Runs [t] to completion after history [h]; gives the outcome and the
    events [t] added. *)
Fixpoint run {A} (answer : oracle) (t : Async A) (h : list event)
    : outcome A * list event :=
  match t with
  | Ret a => (Returned a, [])
  | Do r k =>
      let x := answer _ h r in
      let e := event_of r x in
      let '(o, evs) := run answer (k x) (h ++ [e]) in
      (o, e :: evs)
  | Exit code => (Exited code, [EExit code])
  | Raise msg => (Threw msg, [])
  end.

(** [String(n)] for an integer. *)
Definition str (n : Z) : string := NilZero.string_of_int (Z.to_int n).

(** Every event a program can cause satisfies [P]. *)
Inductive only (P : event -> Prop) {A : Type} : Async A -> Prop :=
| only_Ret (a : A) : only P (Ret a)
| only_Do {X} (r : request X) (k : X -> Async A) :
    (forall x, P (event_of r x)) -> (forall x, only P (k x)) -> only P (Do r k)
| only_Exit (code : Z) : P (EExit code) -> only P (Exit code)
| only_Raise (msg : string) : only P (Raise msg).

(** Every value a program can return satisfies [Q]. *)
Inductive returns {A : Type} (Q : A -> Prop) : Async A -> Prop :=
| returns_Ret (a : A) : Q a -> returns Q (Ret a)
| returns_Do {X} (r : request X) (k : X -> Async A) :
    (forall x, returns Q (k x)) -> returns Q (Do r k)
| returns_Exit (code : Z) : returns Q (Exit code)
| returns_Raise (msg : string) : returns Q (Raise msg).

End Async.

Import Async.

(** ** The port allocator: [findFreePorts.js] *)

Module FindFreePorts.

(** One bind probe.  [listen] takes the ports 0..65535 ([valid_port]);
    for any other port it throws a RangeError before a socket is made,
    so the statements below that say when the allocator throws are
    about probes of valid ports. *)
Definition isPortFree (port : Z) (host : string) : Async bool :=
  call (Listen port host).

Definition valid_port (p : Z) : bool := (0 <=? p) && (p <=? 65535).

(** The argument object of [findFreePort]; [None] is [undefined]. *)
Record port_query : Type := {
  preferred : option Z;
  host : option string;
  rangeStart : option Z;
  rangeEnd : option Z
}.

(** The [for] loop of [findFreePort] with [n] iterations left. *)
Fixpoint scan (n : nat) (port : Z) (host : string) (exhausted : Async Z) : Async Z :=
  match n with
  | O => exhausted
  | S n' =>
      ok ← isPortFree port host;
      if ok : bool then Ret port else scan n' (port + 1) host exhausted
  end.

Definition findFreePort (q : port_query) : Async Z :=
  let host := default "127.0.0.1" (host q) in
  let search :=
    let start := default 3000 (rangeStart q) in
    let end_ := default 3999 (rangeEnd q) in
    scan (Z.to_nat (end_ - start + 1)) start host
      (Raise ("No free port found in range " +:+ str start +:+ "-" +:+ str end_)) in
  match preferred q with
  | Some p =>
      if p =? 0 then search
      else ok ← isPortFree p host; if ok : bool then Ret p else search
  | None => search
  end.

(** The [options] object of [findFreePorts]. *)
Record options : Type := {
  opt_host : option string;
  preferredBackendPort : option Z;
  preferredFrontendPort : option Z;
  backendRangeStart : option Z;
  backendRangeEnd : option Z;
  frontendRangeStart : option Z;
  frontendRangeEnd : option Z
}.

Definition no_opts : options :=
  {| opt_host := None; preferredBackendPort := None; preferredFrontendPort := None;
     backendRangeStart := None; backendRangeEnd := None;
     frontendRangeStart := None; frontendRangeEnd := None |}.

(** The destructuring defaults. *)
Definition host_of (o : options) : string := default "127.0.0.1" (opt_host o).
Definition backend_preferred (o : options) : Z := default 3005 (preferredBackendPort o).
Definition frontend_preferred (o : options) : Z := default 3000 (preferredFrontendPort o).
Definition backend_start (o : options) : Z := default 3001 (backendRangeStart o).
Definition backend_end (o : options) : Z := default 3999 (backendRangeEnd o).
Definition frontend_start (o : options) : Z := default 3000 (frontendRangeStart o).
Definition frontend_end (o : options) : Z := default 4999 (frontendRangeEnd o).

Definition findFreePorts (o : options) : Async (Z * Z) :=
  backendPort ← findFreePort
    {| preferred := Some (backend_preferred o); host := Some (host_of o);
       rangeStart := Some (backend_start o); rangeEnd := Some (backend_end o) |};
  frontendPort ← findFreePort
    {| preferred := Some (frontend_preferred o); host := Some (host_of o);
       rangeStart := Some (frontend_start o); rangeEnd := Some (frontend_end o) |};
  if frontendPort =? backendPort then
    frontendPort' ← findFreePort
      {| preferred := None; host := Some (host_of o);
         rangeStart := Some (Z.max (frontend_start o) (backendPort + 1));
         rangeEnd := Some (frontend_end o) |};
    Ret (backendPort, frontendPort')
  else Ret (backendPort, frontendPort).

(** What the scan loop finds when port status is given by [free]. *)
Fixpoint first_free (free : Z -> bool) (n : nat) (port : Z) : option Z :=
  match n with
  | O => None
  | S n' => if free port then Some port else first_free free n' (port + 1)
  end.

(** The outcome of the range scan of [findFreePort] under [free]. *)
Definition search_outcome (free : Z -> bool) (q : port_query) : outcome Z :=
  let start := default 3000 (rangeStart q) in
  let end_ := default 3999 (rangeEnd q) in
  match first_free free (Z.to_nat (end_ - start + 1)) start with
  | Some p => Returned p
  | None => Threw ("No free port found in range " +:+ str start +:+ "-" +:+ str end_)
  end.

(** [if (preferred)] fails, or the probe of the preferred port does. *)
Definition unusable (free : Z -> bool) (p : Z) : bool := (p =? 0) || negb (free p).

(** The model of C1 and C6: whether a port is free does not change while
    the allocator runs. *)
Definition fixed_ports (answer : oracle) (free : Z -> bool) : Prop :=
  forall h port host, answer bool h (Listen port host) = free port.

(** [p] is the lowest port of [lo..hi] that is free and is not [skip]. *)
Definition lowest_free (free : Z -> bool) (lo hi : Z) (skip : option Z) (p : Z) : Prop :=
  lo <= p <= hi /\ free p = true /\ Some p <> skip /\
  forall q, lo <= q < p -> Some q <> skip -> free q = false.

(** The outcome of [findFreePort] when port status is given by [free]. *)
Definition pick (free : Z -> bool) (q : port_query) : outcome Z :=
  match preferred q with
  | Some p => if unusable free p then search_outcome free q else Returned p
  | None => search_outcome free q
  end.

(** The three argument objects [findFreePorts] builds. *)
Definition backend_query (o : options) : port_query :=
  {| preferred := Some (backend_preferred o); host := Some (host_of o);
     rangeStart := Some (backend_start o); rangeEnd := Some (backend_end o) |}.

Definition frontend_query (o : options) : port_query :=
  {| preferred := Some (frontend_preferred o); host := Some (host_of o);
     rangeStart := Some (frontend_start o); rangeEnd := Some (frontend_end o) |}.

Definition rescan_query (o : options) (backendPort : Z) : port_query :=
  {| preferred := None; host := Some (host_of o);
     rangeStart := Some (Z.max (frontend_start o) (backendPort + 1));
     rangeEnd := Some (frontend_end o) |}.

(** Sequencing of outcomes. *)
Definition through {A B} (o : outcome A) (k : A -> outcome B) : outcome B :=
  match o with
  | Returned a => k a
  | Exited code => Exited code
  | Threw msg => Threw msg
  end.

(** The outcome of [findFreePorts] when port status is given by [free]. *)
Definition allocation (free : Z -> bool) (o : options) : outcome (Z * Z) :=
  through (pick free (backend_query o)) (fun b =>
  through (pick free (frontend_query o)) (fun f1 =>
  if f1 =? b then through (pick free (rescan_query o b)) (fun f => Returned (b, f))
  else Returned (b, f1))).

(** Options whose two preferred ports coincide. *)
Definition colliding_options : options :=
  {| opt_host := None; preferredBackendPort := Some 3005;
     preferredFrontendPort := Some 3005;
     backendRangeStart := None; backendRangeEnd := None;
     frontendRangeStart := None; frontendRangeEnd := None |}.

(** A host on which ports 3000, 3001 and 3005 are taken. *)
Definition busy_low_ports (port : Z) : bool :=
  negb ((port =? 3000) || (port =? 3001) || (port =? 3005)).

End FindFreePorts.

(** ** The dev supervisor: [killProcessOnPort], [waitForBackend],
       [startServices], [shutdown] *)

Module StartDev.

(** [process.platform === "win32"], or any other platform. *)
Inductive platform_t : Type := Posix | Win32.

(** The handle returned by [spawn]. *)
Record child : Type := { pid : Z; killed : bool }.

(** What the signal handlers registered by [startServices] close over. *)
Record supervisor : Type := {
  backend : child;
  frontend : child;
  BACKEND_PORT : Z;
  FRONTEND_PORT : Z
}.

Definition newline : ascii := "010"%char.

Section Supervisor.

Variable platform : platform_t.

(** The global [isNaN] applied to a string. *)
Variable isNaN : string -> bool.

Definition log (prefix message : string) (c : color) : Async unit :=
  call (Log prefix message c).

Definition spawn (cmd : string) (args : list string) (opts : spawn_options)
    : Async child :=
  p ← call (Spawn cmd args opts); Ret {| pid := p; killed := false |}.

Definition sleep (ms : Z) : Async unit := call (Timeout ms).

Definition getNetworkIPs : Async (list string) :=
  interfaces ← call NetworkInterfaces;
  Ret (flat_map
         (fun entry : string * list iface =>
            flat_map
              (fun i => if negb (internal i) && String.eqb (family i) "IPv4"
                        then [address i] else [])
              (snd entry))
         interfaces).

(** [child] is never [undefined] where the script calls this, and the
    [killed] flag that [child.kill] sets is not read again afterwards. *)
Definition killChildTree (c : child) : Async unit :=
  if killed c then Ret tt
  else
    match platform with
    | Win32 =>
        _ ← spawn "taskkill" ["/PID"; str (pid c); "/T"; "/F"]
              {| cwd := None; env := []; stdio := Some "ignore"; shell := true |};
        Ret tt
    | Posix => call (Kill (pid c) "SIGTERM")
    end.

Definition cleanup_notice (pid : string) (port : Z) : Async unit :=
  log "CLEANUP" ("Killing process " +:+ pid +:+ " on port " +:+ str port) yellow.

(** The loop over the lines of [netstat -ano]. *)
Fixpoint kill_first_listener (port : Z) (lines : list string) : Async unit :=
  match lines with
  | [] => Ret tt
  | line :: rest =>
      if test_literal_space (":" +:+ str port) line && includes "LISTENING" line then
        let pid := last_part (split_spaces (trim line)) in
        if nonempty pid && negb (isNaN pid) then
          cleanup_notice pid port;;
          spawn "taskkill" ["/F"; "/PID"; pid]
            {| cwd := None; env := []; stdio := None; shell := true |};;
          sleep 1000
        else kill_first_listener port rest
      else kill_first_listener port rest
  end.

Definition killProcessOnPort (port : Z) : Async unit :=
  match platform with
  | Win32 =>
      findProcess ← spawn "netstat" ["-ano"]
                      {| cwd := None; env := []; stdio := None; shell := true |};
      report ← call (Wait (pid findProcess));
      match report with
      | SpawnError => Ret tt
      | Closed _ chunks =>
          kill_first_listener port (split_on newline (join chunks))
      end
  | Posix =>
      findProcess ← spawn "lsof" ["-ti"; "tcp:" +:+ str port] no_options;
      report ← call (Wait (pid findProcess));
      match report with
      | SpawnError => Ret tt
      | Closed code chunks =>
          let pid := join (map trim chunks) in
          if (code =? 0) && nonempty pid then
            cleanup_notice pid port;;
            spawn "kill" ["-9"; pid] no_options;;
            sleep 1000
          else Ret tt
      end
  end.

Definition status_url (BACKEND_URL : string) : string := BACKEND_URL +:+ "/api/status".

(** The loop of [waitForBackend] at index [i] with [remaining]
    iterations left. *)
Fixpoint poll (BACKEND_URL : string) (remaining : nat) (i : Z) : Async bool :=
  match remaining with
  | O =>
      log "STARTUP" "Backend failed to start within 30 seconds" red;;
      Ret false
  | S remaining' =>
      ok ← call (HttpGet (status_url BACKEND_URL));
      if ok : bool then
        log "STARTUP" "Backend is ready!" green;;
        Ret true
      else
        (if i =? 0 then log "STARTUP" "Waiting for backend to start..." cyan
         else Ret tt);;
        sleep 1000;;
        poll BACKEND_URL remaining' (i + 1)
  end.

Definition waitForBackend (BACKEND_URL : string) (maxRetries : nat) : Async bool :=
  poll BACKEND_URL maxRetries 0.

Definition startup_options : FindFreePorts.options :=
  {| FindFreePorts.opt_host := None;
     FindFreePorts.preferredBackendPort := Some 3005;
     FindFreePorts.preferredFrontendPort := Some 3000;
     FindFreePorts.backendRangeStart := None;
     FindFreePorts.backendRangeEnd := None;
     FindFreePorts.frontendRangeStart := None;
     FindFreePorts.frontendRangeEnd := None |}.

Definition backend_url (port : Z) : string := "http://localhost:" +:+ str port.

Definition backend_spawn_options (BACKEND_PORT FRONTEND_PORT : Z) : spawn_options :=
  {| cwd := Some "./backend";
     env := [("BACKEND_PORT", str BACKEND_PORT);
             ("FRONT_END_URL", "http://localhost:" +:+ str FRONTEND_PORT)];
     stdio := Some "pipe";
     shell := true |}.

Definition frontend_spawn_options (BACKEND_PORT FRONTEND_PORT : Z) : spawn_options :=
  {| cwd := None;
     env := [("PORT", str FRONTEND_PORT);
             ("BACKEND_PORT", str BACKEND_PORT);
             ("REACT_APP_BACKEND_URL", backend_url BACKEND_PORT);
             ("REACT_APP_API_BASE_URL", backend_url BACKEND_PORT +:+ "/api")];
     stdio := Some "pipe";
     shell := true |}.

Fixpoint log_each (lines : list string) (c : color) : Async unit :=
  match lines with
  | [] => Ret tt
  | line :: rest => log "STARTUP" line c;; log_each rest c
  end.

(** The closing banner of [startServices]. *)
Definition announce (BACKEND_PORT FRONTEND_PORT : Z) : Async unit :=
  networkIPs ← getNetworkIPs;
  log "STARTUP" "Both services are running!" bright;;
  log "STARTUP" "Frontend URLs:" green;;
  log "STARTUP" ("  Local:    http://localhost:" +:+ str FRONTEND_PORT) green;;
  log_each (map (fun ip => "  Network:  http://" +:+ ip +:+ ":" +:+ str FRONTEND_PORT)
                networkIPs) green;;
  log "STARTUP" "Backend URLs:" blue;;
  log "STARTUP" ("  Local:    http://localhost:" +:+ str BACKEND_PORT) blue;;
  log_each (map (fun ip => "  Network:  http://" +:+ ip +:+ ":" +:+ str BACKEND_PORT)
                networkIPs) blue;;
  log "STARTUP" "" reset;;
  log "STARTUP" "Ports are chosen automatically each run (no .env ports)." yellow;;
  log "STARTUP" ("Frontend will call backend at: " +:+ backend_url BACKEND_PORT) yellow;;
  log "STARTUP" "" reset;;
  log "STARTUP" "Press Ctrl+C to stop both services" cyan.

(** [startServices]; the handlers forwarding the children's output only
    write log lines and are left out.  The result is what the two signal
    handlers capture. *)
Definition startServices : Async supervisor :=
  log "STARTUP" "Starting SnapTrade Admin Panel..." bright;;
  ports ← FindFreePorts.findFreePorts startup_options;
  let BACKEND_PORT := fst ports in
  let FRONTEND_PORT := snd ports in
  let BACKEND_URL := backend_url BACKEND_PORT in
  log "CLEANUP" "Checking for existing processes on ports..." cyan;;
  killProcessOnPort BACKEND_PORT;;
  killProcessOnPort FRONTEND_PORT;;
  log "CLEANUP" "Port cleanup complete" cyan;;
  log "BACKEND" "Starting backend server..." blue;;
  backend ← spawn "npm" ["run"; "dev"] (backend_spawn_options BACKEND_PORT FRONTEND_PORT);
  backendReady ← waitForBackend BACKEND_URL 30;
  (if negb backendReady then
     log "STARTUP" "Failed to start backend, aborting..." red;;
     call (Kill (pid backend) "SIGTERM");;
     Exit 1
   else Ret tt);;
  log "FRONTEND" "Starting frontend..." green;;
  frontend ← spawn "npm" ["start"] (frontend_spawn_options BACKEND_PORT FRONTEND_PORT);
  call (OnSignal "SIGINT");;
  call (OnSignal "SIGTERM");;
  announce BACKEND_PORT FRONTEND_PORT;;
  Ret {| backend := backend; frontend := frontend;
         BACKEND_PORT := BACKEND_PORT; FRONTEND_PORT := FRONTEND_PORT |}.

(** The script's last statement: [startServices().catch(...)]. *)
Definition main : Async supervisor :=
  catch startServices
    (fun message => log "STARTUP" ("Error: " +:+ message) red;; Exit 1).

(** The body of [shutdown] behind the latch. *)
Definition teardown (sup : supervisor) (signal : string) : Async unit :=
  log "STARTUP" ("Shutting down services (" +:+ signal +:+ ")...") cyan;;
  killChildTree (frontend sup);;
  killChildTree (backend sup);;
  sleep 1500;;
  killProcessOnPort (BACKEND_PORT sup);;
  killProcessOnPort (FRONTEND_PORT sup);;
  log "STARTUP" "Shutdown complete. Ports released." cyan;;
  Exit 0.

(** [shutdown(signal)] reads and sets the latch [shuttingDown] before
    its first suspension. *)
Definition shutdown (sup : supervisor) (signal : string) (shuttingDown : bool)
    : bool * Async unit :=
  if shuttingDown then (shuttingDown, Ret tt)
  else (true, teardown sup signal).

End Supervisor.

(** *** The event loop once both services run

    Handlers run to their next suspension without interruption; signals
    and the answers to pending requests arrive in any order. *)

Inductive signal : Type := SIGINT | SIGTERM.

Definition signal_name (s : signal) : string :=
  match s with
  | SIGINT => "SIGINT"
  | SIGTERM => "SIGTERM"
  end.

(** What the loop dispatches next: a signal, or the answer awaited by
    the [n]-th suspended task. *)
Inductive input : Type :=
| Deliver (s : signal)
| Wake (n : nat).

(** How a task stands after running as far as it can. *)
Inductive status : Type :=
| Finished
| Blocked (t : Async unit)
| Halted (code : Z)
| Failed (msg : string).

Record process : Type := {
  shuttingDown : bool;
  pending : list (Async unit);
  history : list event;
  exited : option Z
}.

Definition running (h : list event) : process :=
  {| shuttingDown := false; pending := []; history := h; exited := None |}.

Section EventLoop.

Variable platform : platform_t.
Variable isNaN : string -> bool.
Variable answer : oracle.
Variable sup : supervisor.

(** Runs [t] up to its next suspending request. *)
Fixpoint advance (t : Async unit) (h : list event) : status * list event :=
  match t with
  | Ret _ => (Finished, [])
  | Exit code => (Halted code, [EExit code])
  | Raise msg => (Failed msg, [])
  | Do r k =>
      if suspends r then (Blocked (Do r k), [])
      else
        let x := answer _ h r in
        let e := event_of r x in
        let '(st, evs) := advance (k x) (h ++ [e]) in
        (st, e :: evs)
  end.

(** The awaited answer arrives and the task runs on. *)
Definition resume (t : Async unit) (h : list event) : status * list event :=
  match t with
  | Do r k =>
      let x := answer _ h r in
      let e := event_of r x in
      let '(st, evs) := advance (k x) (h ++ [e]) in
      (st, e :: evs)
  | _ => advance t h
  end.

(** Books the result of running a task; [others] are the tasks that stay
    suspended.  An exception escaping a handler ends the process with
    status 1. *)
Definition settle (latch : bool) (h : list event) (others : list (Async unit))
    (result : status * list event) : process :=
  let '(st, evs) := result in
  match st with
  | Finished =>
      {| shuttingDown := latch; pending := others; history := h ++ evs; exited := None |}
  | Blocked t =>
      {| shuttingDown := latch; pending := others ++ [t]; history := h ++ evs;
         exited := None |}
  | Halted code =>
      {| shuttingDown := latch; pending := []; history := h ++ evs;
         exited := Some code |}
  | Failed _ =>
      {| shuttingDown := latch; pending := []; history := h ++ evs; exited := Some 1 |}
  end.

Definition step (p : process) (i : input) : process :=
  match exited p with
  | Some _ => p
  | None =>
      match i with
      | Deliver s =>
          let '(latch, t) :=
            shutdown platform isNaN sup (signal_name s) (shuttingDown p) in
          settle latch (history p) (pending p) (advance t (history p))
      | Wake n =>
          match pending p !! n with
          | Some t =>
              settle (shuttingDown p) (history p) (delete n (pending p))
                (resume t (history p))
          | None => p
          end
      end
  end.

Definition exec (inputs : list input) (p : process) : process :=
  fold_left step inputs p.

End EventLoop.

(** The events of one port reclamation. *)
Definition lookup_event (platform : platform_t) (port pid : Z) : event :=
  match platform with
  | Posix => ESpawn "lsof" ["-ti"; "tcp:" +:+ str port] no_options pid
  | Win32 =>
      ESpawn "netstat" ["-ano"]
        {| cwd := None; env := []; stdio := None; shell := true |} pid
  end.

Definition kill_event (platform : platform_t) (victim : string) (pid : Z) : event :=
  match platform with
  | Posix => ESpawn "kill" ["-9"; victim] no_options pid
  | Win32 =>
      ESpawn "taskkill" ["/F"; "/PID"; victim]
        {| cwd := None; env := []; stdio := None; shell := true |} pid
  end.

Definition kill_events (platform : platform_t) (port : Z) (victim : string) (pid : Z)
    : list event :=
  [ELog "CLEANUP" ("Killing process " +:+ victim +:+ " on port " +:+ str port) yellow;
   kill_event platform victim pid;
   ETimeout 1000].

(** Classes of events. *)
Definition is_log (e : event) : bool :=
  match e with
  | ELog _ _ _ => true
  | _ => false
  end.

Definition spawns (cmds : list string) (e : event) : bool :=
  match e with
  | ESpawn cmd _ _ _ => existsb (String.eqb cmd) cmds
  | _ => false
  end.

(** A process was sent a kill by the reclamation utility. *)
Definition is_kill_spawn : event -> bool := spawns ["kill"; "taskkill"].

Definition is_frontend_spawn (e : event) : bool :=
  match e with
  | ESpawn cmd args _ _ => String.eqb cmd "npm" && bool_decide (args = ["start"])
  | _ => false
  end.

Definition is_probe (e : event) : bool :=
  match e with
  | EGet _ _ => true
  | _ => false
  end.

(** Events of port allocation and port reclamation: no service is
    started, nothing is probed over HTTP, the process does not exit. *)
Definition preparatory (e : event) : bool :=
  match e with
  | EListen _ _ _ | EWait _ _ | ETimeout _ | ELog _ _ _ => true
  | ESpawn _ _ _ _ => spawns ["lsof"; "netstat"; "kill"; "taskkill"] e
  | _ => false
  end.

Definition count_probes (h : list event) : nat := length (List.filter is_probe h).

(** The events of [remaining] failed health probes from index [i] on:
    the request, the one-time notice, the second of waiting. *)
Fixpoint failed_attempts (BACKEND_URL : string) (remaining : nat) (i : Z) : list event :=
  match remaining with
  | O => []
  | S remaining' =>
      EGet (status_url BACKEND_URL) false ::
      (if i =? 0 then [ELog "STARTUP" "Waiting for backend to start..." cyan] else []) ++
      ETimeout 1000 :: failed_attempts BACKEND_URL remaining' (i + 1)
  end.

(** The multi-line output of [lsof -t] when two processes hold the
    port, and the process ids it lists. *)
Definition two_pids : string :=
  "123" +:+ String newline ("456" +:+ String newline "").

Definition listed_pids (output : string) : list string :=
  List.filter nonempty (map trim (split_on newline output)).

Definition is_digit (c : ascii) : bool :=
  let n := nat_of_ascii c in ((48 <=? n) && (n <=? 57))%nat.

(** A process id as [kill] accepts it: a non-empty run of digits. *)
Definition is_decimal (s : string) : bool :=
  nonempty s && forallb is_digit (list_ascii_of_string s).

(** An environment with fixed answers: port status [free], every health
    probe answered [healthy], every helper command reporting [report];
    process ids count upwards with the history. *)
Definition scripted (free : Z -> bool) (healthy : bool) (report : exit_report) : oracle :=
  fun X h r =>
    match r in request X return X with
    | Log _ _ _ => tt
    | Spawn _ _ _ => 4000 + Z.of_nat (length h)
    | Kill _ _ => tt
    | OnSignal _ => tt
    | NetworkInterfaces => []
    | Listen port _ => free port
    | HttpGet _ => healthy
    | Timeout _ => tt
    | Wait _ => report
    end.

(** Claim C8 as the specification words it: the call resolves, and when
    it kills nothing (the lookup failed or found no process) the
    swallowed condition has been logged. *)
Definition swallows_after_logging (platform : platform_t) (isNaN : string -> bool)
    (answer : oracle) (port : Z) (h : list event) : Prop :=
  exists evs,
    run answer (killProcessOnPort platform isNaN port) h = (Returned tt, evs) /\
    (existsb is_kill_spawn evs = false -> existsb is_log evs = true).

(** Events of suspending requests. *)
Definition is_suspension (e : event) : bool :=
  match e with
  | EListen _ _ _ | EGet _ _ | ETimeout _ | EWait _ _ => true
  | _ => false
  end.

Definition suspensions (evs : list event) : nat := length (List.filter is_suspension evs).

(** A task waiting for the answer to a suspending request. *)
Definition is_blocked (t : Async unit) : Prop :=
  match t with
  | Do r _ => suspends r = true
  | _ => False
  end.

(** What an uninterrupted run makes of where a task stands. *)
Definition completes (answer : oracle) (result : status * list event) (h : list event)
    : outcome unit * list event :=
  let '(st, evs) := result in
  match st with
  | Finished => (Returned tt, evs)
  | Blocked t => let '(o, rest) := run answer t (h ++ evs) in (o, evs ++ rest)
  | Halted code => (Exited code, evs)
  | Failed msg => (Threw msg, evs)
  end.

(** A supervisor context for examples. *)
Definition example_supervisor : supervisor :=
  {| backend := {| pid := 501; killed := false |};
     frontend := {| pid := 502; killed := false |};
     BACKEND_PORT := 3005;
     FRONTEND_PORT := 3000 |}.

(** The kill sent to a child by [killChildTree]. *)
Definition terminate_event (platform : platform_t) (c : child) (pid' : Z) : event :=
  match platform with
  | Posix => EKill (pid c) "SIGTERM"
  | Win32 =>
      ESpawn "taskkill" ["/PID"; str (pid c); "/T"; "/F"]
        {| cwd := None; env := []; stdio := Some "ignore"; shell := true |} pid'
  end.

(** [evs] are the events of one reclamation of [port]. *)
Definition reclamation (platform : platform_t) (port : Z) (evs : list event) : Prop :=
  exists lookup report tail,
    evs = lookup_event platform port lookup :: EWait lookup report :: tail /\
    (tail = [] \/ exists victim pid', tail = kill_events platform port victim pid').

(** [evs] are the events of one orderly teardown after signal [sig]. *)
Definition orderly_teardown (platform : platform_t) (sup : supervisor) (sig : signal)
    (evs : list event) : Prop :=
  exists pid1 pid2 reclaimB reclaimF,
    evs =
      ELog "STARTUP" ("Shutting down services (" +:+ signal_name sig +:+ ")...") cyan ::
      terminate_event platform (frontend sup) pid1 ::
      terminate_event platform (backend sup) pid2 ::
      ETimeout 1500 ::
      reclaimB ++ reclaimF ++
      [ELog "STARTUP" "Shutdown complete. Ports released." cyan; EExit 0] /\
    reclamation platform (BACKEND_PORT sup) reclaimB /\
    reclamation platform (FRONTEND_PORT sup) reclaimF.

(** The loop stands where a single run of the teardown stands after the
    events [done]. *)
Definition at_stage (answer : oracle) (platform : platform_t) (isNaN : string -> bool)
    (sup : supervisor) (h0 : list event) (sig : signal) (done : list event)
    (p : process) : Prop :=
  exists o rest,
    run answer (teardown platform isNaN sup (signal_name sig)) h0 = (o, done ++ rest) /\
    shuttingDown p = true /\
    history p = h0 ++ done /\
    ((exited p = None /\
      exists t, pending p = [t] /\ is_blocked t /\
                run answer t (h0 ++ done) = (o, rest)) \/
     (pending p = [] /\ rest = [] /\
      exited p = match o with
                 | Returned _ => None
                 | Exited code => Some code
                 | Threw _ => Some 1
                 end)).

(** The first signal of a schedule. *)
Fixpoint first_signal (inputs : list input) : option signal :=
  match inputs with
  | [] => None
  | Deliver s :: _ => Some s
  | Wake _ :: rest => first_signal rest
  end.

End StartDev.

(** ** The backend proxy: [backend/server.js] *)

Module Server.

(** What the handlers read off a rejected upstream call:
    [error.response?.status], [error.response?.data], [error.message]. *)
Record http_error : Type := {
  response_status : value;
  response_data : value;
  message : string
}.

(** Outcome of awaiting a SnapTrade SDK call; [data] is [response.data]. *)
Inductive upstream (A : Type) : Type :=
| Resolved (data : A)
| Rejected (e : http_error).
Arguments Resolved {A} data.
Arguments Rejected {A} e.

(** What a handler sends: [res.status(code).json(body)]; [res.json]
    alone sends 200. *)
Record reply : Type := { status : value; body : value }.

(** The in-memory store [userSecrets = new Map()], keyed by user id. *)
Record state : Type := { userSecrets : gmap string value }.

Definition js_or (a b : value) : value := if truthy a then a else b.

(** The shared [catch] arm of every route. *)
Definition error_reply (e : http_error) : reply :=
  {| status := js_or (response_status e) (VNum 500);
     body := VObj [("error", js_or (response_data e) (VStr (message e)))] |}.

(** [userSecrets.get(userId) || null]. *)
Definition secret_or_null (st : state) (userId : string) : value :=
  js_or (match userSecrets st !! userId with Some v => v | None => VUndefined end) VNull.

Definition user_entry (st : state) (userId : string) : value :=
  VObj [("userId", VStr userId); ("userSecret", secret_or_null st userId)].

(** [GET /api/users]; [listing] is the outcome of [listSnapTradeUsers]. *)
Definition get_users (listing : upstream (list string)) (st : state) : state * reply :=
  match listing with
  | Resolved ids => (st, {| status := VNum 200; body := VArr (map (user_entry st) ids) |})
  | Rejected e => (st, error_reply e)
  end.

Definition includes_id (userId : string) (ids : list string) : bool :=
  existsb (String.eqb userId) ids.

(** [POST /api/users] with [req.body.userId] a string (or missing:
    the empty string is as falsy as [undefined]).  A failed existence
    check is logged and registration goes ahead. *)
Definition post_users (userId : string)
    (existing : upstream (list string)) (registration : upstream value)
    (st : state) : state * reply :=
  if negb (truthy (VStr userId)) then
    (st, {| status := VNum 400; body := VObj [("error", VStr "userId is required")] |})
  else
    let conflict :=
      match existing with
      | Resolved ids => includes_id userId ids
      | Rejected _ => false
      end in
    if conflict then
      (st, {| status := VNum 409; body := VObj [("error", VStr "User already exists")] |})
    else
      match registration with
      | Resolved data =>
          match get data "userSecret" with
          | Normal secret =>
              ({| userSecrets := <[userId := secret]> (userSecrets st) |},
               {| status := VNum 200; body := data |})
          | Throw msg =>
              (st, error_reply {| response_status := VUndefined;
                                  response_data := VUndefined;
                                  message := msg |})
          end
      | Rejected e => (st, error_reply e)
      end.

(** [DELETE /api/users/:userId]; [deletion] is the outcome of
    [deleteSnapTradeUser]. *)
Definition delete_user (userId : string) (deletion : upstream value)
    (st : state) : state * reply :=
  match deletion with
  | Resolved data => (st, {| status := VNum 200; body := data |})
  | Rejected e => (st, error_reply e)
  end.

(** The entries of a user listing. *)
Definition listed (r : reply) : list value :=
  match body r with
  | VArr items => items
  | _ => []
  end.

End Server.

(** ** Port allocation: further behaviour *)

Module AllocatorFacts.
Import FindFreePorts.

(** [findFreePort] goes on to scan its range: no preferred port was
    given, or it is falsy, or its probe failed. *)
Definition falls_back (free : Z -> bool) (q : port_query) : bool :=
  match preferred q with
  | Some p => unusable free p
  | None => true
  end.

(** Every port [findFreePort] can come to probe for [q], the preferred
    one and those of a non-empty range, is a valid port. *)
Definition valid_query (q : port_query) : bool :=
  match preferred q with
  | Some p => valid_port p
  | None => true
  end &&
  ((default 3999 (rangeEnd q) <? default 3000 (rangeStart q)) ||
   (valid_port (default 3000 (rangeStart q)) && valid_port (default 3999 (rangeEnd q)))).

(** The message of the error thrown when a range is exhausted. *)
Definition no_free_port (start end_ : Z) : string :=
  "No free port found in range " +:+ str start +:+ "-" +:+ str end_.

(** A bind probe on [host] of a preferred port or of a port of one of
    the two ranges of [o]. *)
Definition configured_probe (o : options) (e : event) : Prop :=
  exists port free,
    e = EListen port (host_of o) free /\
    (port = backend_preferred o \/ port = frontend_preferred o \/
     backend_start o <= port <= backend_end o \/
     frontend_start o <= port <= frontend_end o).

(** A host whose ports change status between probes: every other bind
    probe fails, starting with the first. *)
Definition alternating : oracle :=
  fun X h r =>
    match r in request X return X with
    | Log _ _ _ => tt
    | Spawn _ _ _ => 0
    | Kill _ _ => tt
    | OnSignal _ => tt
    | NetworkInterfaces => []
    | Listen _ _ => Nat.odd (length h)
    | HttpGet _ => true
    | Timeout _ => tt
    | Wait _ => SpawnError
    end.

(** A query without preferred port over the range 3000-3002. *)
Definition three_ports : port_query :=
  {| preferred := None; host := None; rangeStart := Some 3000; rangeEnd := Some 3002 |}.

End AllocatorFacts.

(** ** The dev supervisor: traces of startup and reclamation *)

Module SupervisorFacts.
Import StartDev.

(** The addresses [getNetworkIPs] keeps. *)
Definition external_ipv4 (interfaces : list (string * list iface)) : list string :=
  flat_map
    (fun entry : string * list iface =>
       flat_map
         (fun i => if negb (internal i) && String.eqb (family i) "IPv4"
                   then [address i] else [])
         (snd entry))
    interfaces.

Definition network_lines (ips : list string) (port : Z) (c : color) : list event :=
  map (fun ip => ELog "STARTUP" ("  Network:  http://" +:+ ip +:+ ":" +:+ str port) c) ips.

(** The events of the closing banner of [startServices]. *)
Definition banner (BACKEND_PORT FRONTEND_PORT : Z) (ips : list string) : list event :=
  [ENetworkInterfaces;
   ELog "STARTUP" "Both services are running!" bright;
   ELog "STARTUP" "Frontend URLs:" green;
   ELog "STARTUP" ("  Local:    http://localhost:" +:+ str FRONTEND_PORT) green] ++
  network_lines ips FRONTEND_PORT green ++
  [ELog "STARTUP" "Backend URLs:" blue;
   ELog "STARTUP" ("  Local:    http://localhost:" +:+ str BACKEND_PORT) blue] ++
  network_lines ips BACKEND_PORT blue ++
  [ELog "STARTUP" "" reset;
   ELog "STARTUP" "Ports are chosen automatically each run (no .env ports)." yellow;
   ELog "STARTUP" ("Frontend will call backend at: " +:+ backend_url BACKEND_PORT) yellow;
   ELog "STARTUP" "" reset;
   ELog "STARTUP" "Press Ctrl+C to stop both services" cyan].

(** The events from the successful health probe to the registration of
    the signal handlers. *)
Definition go_ahead (BACKEND_PORT FRONTEND_PORT frontendPid : Z) : list event :=
  [EGet (status_url (backend_url BACKEND_PORT)) true;
   ELog "STARTUP" "Backend is ready!" green;
   ELog "FRONTEND" "Starting frontend..." green;
   ESpawn "npm" ["start"] (frontend_spawn_options BACKEND_PORT FRONTEND_PORT) frontendPid;
   EOnSignal "SIGINT";
   EOnSignal "SIGTERM"].

(** The events that end a run whose backend never became healthy. *)
Definition abandon (backendPid : Z) : list event :=
  [ELog "STARTUP" "Backend failed to start within 30 seconds" red;
   ELog "STARTUP" "Failed to start backend, aborting..." red;
   EKill backendPid "SIGTERM";
   EExit 1].

Definition is_ready_probe (e : event) : bool :=
  match e with
  | EGet _ ok => ok
  | _ => false
  end.

Definition is_backend_spawn (e : event) : bool :=
  match e with
  | ESpawn cmd args _ _ => String.eqb cmd "npm" && bool_decide (args = ["run"; "dev"])
  | _ => false
  end.

(** No frontend is spawned in [evs] unless the backend was spawned and a
    health probe succeeded earlier ([backend], [ready]: already seen). *)
Fixpoint gated_from (backend ready : bool) (evs : list event) : bool :=
  match evs with
  | [] => true
  | e :: rest =>
      (negb (is_frontend_spawn e) || (backend && ready)) &&
      gated_from (backend || is_backend_spawn e) (ready || is_ready_probe e) rest
  end.

Definition gated (evs : list event) : bool := gated_from false false evs.

(** A line of [netstat -ano] that makes the win32 branch kill. *)
Definition victim (line : string) : string := last_part (split_spaces (trim line)).

Definition qualifies (isNaN : string -> bool) (port : Z) (line : string) : bool :=
  test_literal_space (":" +:+ str port) line && includes "LISTENING" line &&
  (nonempty (victim line) && negb (isNaN (victim line))).

End SupervisorFacts.

(** ** The holdings table of the admin panel: [formatSecurityName], row rendering *)

Module PanelRows.
Import AdminPanel.

Definition name_candidates (position : value) : list value :=
  [position ?. "name";
   position ?. "description";
   position ?. "securityName";
   position ?. "symbol" ?. "description";
   position ?. "symbol" ?. "name";
   position ?. "symbol" ?. "companyName";
   position ?. "symbol" ?. "symbol" ?. "description";
   position ?. "symbol" ?. "symbol" ?. "name";
   position ?. "symbol" ?. "symbol" ?. "companyName";
   position ?. "universalSymbol" ?. "description";
   position ?. "universalSymbol" ?. "name";
   position ?. "universalSymbol" ?. "companyName";
   position ?. "universal_symbol" ?. "description";
   position ?. "universal_symbol" ?. "name";
   position ?. "instrument" ?. "name";
   position ?. "instrument" ?. "description";
   position ?. "instrument" ?. "securityName";
   position ?. "instrument" ?. "symbol" ?. "description";
   position ?. "instrument" ?. "universalSymbol" ?. "description";
   position ?. "instrument" ?. "universal_symbol" ?. "description";
   position ?. "security" ?. "name";
   position ?. "security" ?. "description";
   position ?. "security" ?. "securityName";
   position ?. "security" ?. "companyName"].

Definition formatSecurityName (position : value) : completion string :=
  firstString (name_candidates position).

(** [v === null || v === undefined]. *)
Definition nullish (v : value) : bool :=
  match v with
  | VUndefined | VNull => true
  | _ => false
  end.

(** [a ?? b], with [b] evaluated only when [a] is [null] or [undefined]. *)
Definition coalesce (a b : completion value) : completion value :=
  let* va := a in if nullish va then b else Normal va.

Infix "<??>" := coalesce (at level 55, right associativity).

(** The cells of one row of the holdings table. *)
Record row : Type := { symbol : string; name : string; quantity : value; price : value }.

(** The callback of [positions.map]: one table row per position. *)
Definition render_row (p : value) : completion row :=
  let* symbol := formatTicker p in
  let* name := formatSecurityName p in
  let* quantity :=
    get p "quantity" <??> get p "units" <??> get p "shares" <??>
    Normal (p ?. "position" ?. "quantity") in
  let* price :=
    get p "price" <??> Normal (p ?. "pricePerShare") <??>
    Normal (p ?. "quote" ?. "last") <??> Normal (p ?. "lastPrice") in
  let* shown_quantity := Normal quantity <??> Normal (VStr "") in
  let* shown_price := Normal price <??> Normal (VStr "") in
  Normal {| symbol := symbol; name := name;
            quantity := shown_quantity; price := shown_price |}.

(** A value that is an object with fields (not an array, not [null]). *)
Definition plain_object (v : value) : bool :=
  match v with
  | VObj _ => true
  | _ => false
  end.

(** Sample payloads. *)
Definition flat_payload : value := VObj [("holdings", VArr [VStr "p1"])].

Definition shadowed_ticker : list (string * value) :=
  [("symbol", VObj [("exchange", VStr "XNAS")]); ("ticker", VStr "TSLA")].

(** What an extractor may return: nothing, or text with no blank at
    either end. *)
Definition clean (s : string) : Prop := s = "" \/ (s <> "" /\ trim s = s).

End PanelRows.

(** ** The admin panel: connected-brokerage state *)

Module Connections.

(** A string of ASCII characters only.  On such a string [Js.trim] is
    [String.prototype.trim]; other strings may carry Unicode white
    space, which [Js.trim] leaves in place. *)
Definition ascii_only (s : string) : bool :=
  forallb (fun c => (nat_of_ascii c <? 128)%nat) (list_ascii_of_string s).

(** [getEffectiveUserId]: the override typed into the panel, trimmed,
    when that is not blank, and the row's user id otherwise. *)
Definition getEffectiveUserId (overrideUserId userId : string) : string :=
  let trimmed := trim overrideUserId in
  if nonempty trimmed then trimmed else userId.

(** The own properties of the state object [connectedBrokeragesByUser]:
    per user id the array of connected ids. *)
Abbreviation connected := (gmap string (list string)).

(** The names every plain object inherits from [Object.prototype]. *)
Definition prototype_member (k : string) : bool :=
  existsb (String.eqb k)
    ["constructor"; "__proto__"; "hasOwnProperty"; "isPrototypeOf";
     "propertyIsEnumerable"; "toLocaleString"; "toString"; "valueOf";
     "__defineGetter__"; "__defineSetter__"; "__lookupGetter__"; "__lookupSetter__"].

(** [m?.[userId] || []], the value on which [includes] is then called,
    named [variable] in the source.  A stored array is truthy even when
    empty; a missing id gives the empty array; an id that names an
    inherited member gives that member, a truthy function or object
    without [includes], and the call throws a TypeError. *)
Definition entries (variable : string) (m : connected) (userId : string)
    : completion (list string) :=
  match m !! userId with
  | Some ids => Normal ids
  | None =>
      if prototype_member userId
      then Throw (variable +:+ ".includes is not a function")
      else Normal []
  end.

Definition isBrokerageConnected (m : connected) (userId brokerageId : string)
    : completion bool :=
  let* arr := entries "arr" m userId in
  Normal (existsb (String.eqb brokerageId) arr).

(** The state update of [connectBrokerage]: the function handed to
    [setConnectedBrokeragesByUser], applied to the previous state. *)
Definition connectBrokerage (overrideUserId userId accountId : string)
    (prev : connected) : completion connected :=
  let effectiveUserId := getEffectiveUserId overrideUserId userId in
  let* existing := entries "existing" prev effectiveUserId in
  if existsb (String.eqb accountId) existing then Normal prev
  else Normal (<[effectiveUserId := existing ++ [accountId]]> prev).

(** The array of an ordinary user id. *)
Definition listed_for (m : connected) (userId : string) : list string :=
  default [] (m !! userId).

End Connections.

(** ** The backend proxy: [maskLast] and the user routes as one server *)

Module ServerFacts.
Import Server.

(** ["*".repeat(n)]. *)
Fixpoint stars (n : nat) : string :=
  match n with
  | O => ""
  | S n' => String "*" (stars n')
  end.

Fixpoint drop (n : nat) (s : string) : string :=
  match n, s with
  | S n', String _ rest => drop n' rest
  | _, _ => s
  end.

(** [s.slice(start)]: a negative [start] counts from the end, and both
    ends are clamped to the string. *)
Definition slice (s : string) (start : Z) : string :=
  let len := Z.of_nat (String.length s) in
  let from := if start <? 0 then Z.max (len + start) 0 else Z.min start len in
  drop (Z.to_nat from) s.

(** [maskLast(value, keep)] on a string [value] and an integer [keep];
    [None] is [null].  Lengths count bytes, which are the UTF-16 code
    units of the ASCII credentials this is applied to. *)
Definition maskLast (value : string) (keep : Z) : option string :=
  if negb (truthy (VStr value)) then None
  else
    let s := value in
    let len := Z.of_nat (String.length s) in
    if len <=? keep then Some (stars (String.length s))
    else Some (stars (Z.to_nat (Z.max 0 (len - keep))) +:+ slice s (- keep)).

(** The requests that reach the user routes, each with the outcome of
    the upstream calls its handler awaits. *)
Inductive call : Type :=
| GetUsers (listing : upstream (list string))
| PostUsers (userId : string) (existing : upstream (list string))
    (registration : upstream value)
| DeleteUser (userId : string) (deletion : upstream value).

Definition handle (c : call) (st : state) : state * reply :=
  match c with
  | GetUsers listing => get_users listing st
  | PostUsers userId existing registration => post_users userId existing registration st
  | DeleteUser userId deletion => delete_user userId deletion st
  end.

(** The server handling requests one after the other. *)
Fixpoint serve (calls : list call) (st : state) : state * list reply :=
  match calls with
  | [] => (st, [])
  | c :: rest =>
      let (st1, r) := handle c st in
      let (st2, rs) := serve rest st1 in
      (st2, r :: rs)
  end.

(** Sample requests and stores. *)
Definition alice_registered : value :=
  VObj [("userId", VStr "alice"); ("userSecret", VStr "s3cr3t")].

Definition alice_store : state :=
  {| userSecrets := <["alice" := VStr "s3cr3t"]> ∅ |}.

(** [c] is a [POST /api/users] for [u] whose upstream registration,
    if it comes to be made, resolves. *)
Definition registers (u : string) (c : call) : bool :=
  match c with
  | PostUsers userId _ (Resolved _) => String.eqb userId u
  | _ => false
  end.

Definition quiet_day : list call :=
  [DeleteUser "alice" (Resolved (VObj [("status", VStr "deleted")]));
   GetUsers (Resolved ["alice"; "bob"]);
   PostUsers "bob" (Resolved ["alice"])
     (Resolved (VObj [("userId", VStr "bob"); ("userSecret", VStr "hunter2")]));
   PostUsers "alice" (Resolved [])
     (Rejected {| response_status := VNum 503; response_data := VUndefined;
                  message := "upstream unavailable" |})].

End ServerFacts.

(** * Properties *)

(** ** Response normalizer *)

Section NormalizerFacts.
Import Holdings.

Lemma or_else_normal (a : value) (b : completion value) :
  Normal a <||> b = if truthy a then Normal a else b.
Proof. reflexivity. Qed.

Lemma get_truthy (data : value) (k : string) :
  truthy data = true -> get data k = Normal (data ?. k).
Proof. destruct data; simpl; intros H; try discriminate; reflexivity. Qed.

Lemma resolve_positions_first_match (data : value) :
  truthy data = true ->
  resolve_positions data =
    Normal (first_truthy (nested_candidates data ++ flat_candidates data ++ [data]) (VArr [])).
Proof.
  intros Hd. unfold resolve_positions.
  rewrite !(get_truthy data) by exact Hd.
  rewrite !or_else_normal. simpl.
  repeat match goal with |- context [truthy ?v] => destruct (truthy v); try reflexivity end.
Qed.

Lemma as_sequence_isArray (v : value) : isArray (as_sequence v) = true.
Proof. unfold as_sequence. destruct (isArray v) eqn:H; [exact H | reflexivity]. Qed.

(** Closed form of the normalizer on a truthy payload. *)
Lemma normalize_truthy (data : value) :
  truthy data = true ->
  normalizeHoldingsResponse data =
    Normal (VObj [("accounts",
                   first_truthy [data ?. "accounts"; data ?. "brokerageAccounts"] (VArr []));
                  ("positions", positions_nested_first data);
                  ("raw", data)]).
Proof.
  intros Hd. unfold normalizeHoldingsResponse. rewrite Hd. simpl negb. cbv iota.
  rewrite resolve_positions_first_match by exact Hd.
  rewrite !(get_truthy data) by exact Hd. rewrite !or_else_normal.
  unfold positions_nested_first, as_sequence.
  set (ps := first_truthy (nested_candidates data ++ _) _).
  cbn [first_truthy].
  destruct (truthy (data ?. "accounts"));
    [| destruct (truthy (data ?. "brokerageAccounts")) ]; reflexivity.
Qed.

End NormalizerFacts.

Section NormalizerContract.
Import Holdings.

Lemma first_truthy_no_sequence (candidates : list value) :
  forallb (fun c => negb (isArray c)) candidates = true ->
  as_sequence (first_truthy candidates (VArr [])) = VArr [].
Proof.
  induction candidates as [| c rest IH]; [reflexivity |].
  cbn [forallb first_truthy]. intros H. apply andb_prop in H. destruct H as [Hc Hrest].
  destruct (truthy c); [| exact (IH Hrest)].
  unfold as_sequence. apply negb_true_iff in Hc. rewrite Hc. reflexivity.
Qed.

(** C4, as stated, fails in two places.  On [null] the early return
    builds an object without a [raw] field, so reading [raw] gives
    [undefined], not the input.  And [accounts] is passed through
    without a test for a sequence: on [{accounts: "n/a"}] the result's
    [accounts] field is the string. *)
Lemma normalize_contract_fails :
  (normalizeHoldingsResponse VNull = Normal empty_result /\
   field "raw" empty_result = VUndefined /\
   ~ total_with_raw VNull) /\
  (exists result,
     normalizeHoldingsResponse text_accounts = Normal result /\
     field "accounts" result = VStr "n/a" /\
     field "raw" result = text_accounts /\
     ~ total_with_raw text_accounts).
Proof.
  split.
  - split; [reflexivity |]. split; [reflexivity |].
    intros (result & Hrun & _ & _ & Hraw).
    cbv in Hrun. injection Hrun as <-. discriminate Hraw.
  - eexists. split; [reflexivity |]. split; [reflexivity |]. split; [reflexivity |].
    intros (result & Hrun & Haccounts & _).
    cbv in Hrun. injection Hrun as <-. discriminate Haccounts.
Qed.

(** C4, amended: [normalizeHoldingsResponse] never throws and its
    [positions] field is always a sequence; a truthy input comes back
    under [raw], a falsy input yields exactly
    [{accounts: [], positions: []}] with no [raw] field; [accounts] is a
    sequence whenever the input's [accounts] and [brokerageAccounts]
    fields are each falsy or a sequence; when no recognizable structure
    is present, [accounts] and [positions] are both empty; and [{}]
    normalizes to [{accounts: [], positions: [], raw: {}}]. *)
Theorem normalize_total (x : value) :
  exists result,
    normalizeHoldingsResponse x = Normal result /\
    isArray (field "positions" result) = true /\
    (truthy x = true -> field "raw" result = x) /\
    (truthy x = false -> result = empty_result) /\
    ((truthy (x ?. "accounts") = true -> isArray (x ?. "accounts") = true) ->
     (truthy (x ?. "brokerageAccounts") = true ->
      isArray (x ?. "brokerageAccounts") = true) ->
     isArray (field "accounts" result) = true) /\
    (unstructured x = true ->
     field "accounts" result = VArr [] /\ field "positions" result = VArr []) /\
    normalizeHoldingsResponse (VObj []) =
      Normal (VObj [("accounts", VArr []); ("positions", VArr []); ("raw", VObj [])]).
Proof.
  destruct (truthy x) eqn:Hx.
  - eexists. split; [apply normalize_truthy, Hx |].
    split; [apply as_sequence_isArray |].
    split; [reflexivity |]. split; [discriminate |].
    split; [| split; [| reflexivity]].
    + intros Ha Hb. unfold field. simpl.
      destruct (truthy (x ?. "accounts")); [auto |].
      destruct (truthy (x ?. "brokerageAccounts")); [auto | reflexivity].
    + unfold unstructured. intros Hu.
      apply andb_prop in Hu. destruct Hu as [Hu Hpaths].
      apply andb_prop in Hu. destruct Hu as [Ha Hb].
      apply negb_true_iff in Ha, Hb.
      unfold field. cbn [opt_get lookup_field String.eqb Ascii.eqb Bool.eqb first_truthy].
      rewrite Ha, Hb. split; [reflexivity |].
      unfold positions_nested_first. apply first_truthy_no_sequence, Hpaths.
  - exists empty_result. unfold normalizeHoldingsResponse. rewrite Hx.
    repeat split; try reflexivity; discriminate.
Qed.

Lemma normalize_total_witness :
  (exists result,
     normalizeHoldingsResponse
       (VObj [("brokerageAccounts", VArr [VStr "acct"]); ("results", VStr "none")]) =
       Normal result /\
     field "positions" result = VArr [] /\
     field "raw" result =
       VObj [("brokerageAccounts", VArr [VStr "acct"]); ("results", VStr "none")] /\
     isArray (field "accounts" result) = true) /\
  (exists result,
     normalizeHoldingsResponse (VObj [("holdings", VStr "none"); ("page", VNum 1)]) =
       Normal result /\
     field "accounts" result = VArr [] /\
     field "positions" result = VArr []).
Proof.
  split.
  - destruct (normalize_total
                (VObj [("brokerageAccounts", VArr [VStr "acct"]); ("results", VStr "none")]))
      as (result & Hrun & _ & Hraw & _ & Haccounts & _).
    exists result. split; [exact Hrun |].
    split; [injection Hrun as <-; reflexivity |].
    split; [apply Hraw; reflexivity |].
    apply Haccounts; intros; [discriminate | reflexivity].
  - destruct (normalize_total (VObj [("holdings", VStr "none"); ("page", VNum 1)]))
      as (result & Hrun & _ & _ & _ & _ & Hempty & _).
    exists result. split; [exact Hrun |]. apply Hempty. reflexivity.
Defined.

(** C5, as stated, fails: when a flat field and a wrapper variant are
    both present the source takes the wrapper variant, not the flat
    field. *)
Lemma positions_prefers_data_wrapper :
  let payload :=
    VObj [("holdings", VArr [VStr "flat"]);
          ("data", VObj [("positions", VArr [VStr "nested"])])] in
  exists result,
    normalizeHoldingsResponse payload = Normal result /\
    field "positions" result = VArr [VStr "nested"] /\
    field "positions" result <> positions_flat_first payload.
Proof.
  eexists. split; [reflexivity |]. split; [reflexivity |]. discriminate.
Qed.

(** C5, amended: for a truthy payload the positions field is the first
    truthy candidate among the variants under the [data] wrapper
    ([data.positions], [data.holdings], [data.results], [data]), then the
    flat fields ([holdings], [positions], [accountHoldings], [results]),
    then the payload itself; a resolved value that is not an array is
    replaced by the empty sequence; and the payload is returned as
    [raw]. *)
Theorem positions_resolution_order (data : value) :
  truthy data = true ->
  exists result,
    normalizeHoldingsResponse data = Normal result /\
    field "positions" result = positions_nested_first data /\
    field "raw" result = data.
Proof.
  intros Hd. eexists. split; [apply normalize_truthy, Hd |].
  split; reflexivity.
Qed.

Lemma positions_resolution_order_witness :
  exists result,
    normalizeHoldingsResponse (VObj [("results", VArr [VNull])]) = Normal result /\
    field "positions" result =
      positions_nested_first (VObj [("results", VArr [VNull])]) /\
    field "raw" result = VObj [("results", VArr [VNull])].
Proof.
  apply (positions_resolution_order (VObj [("results", VArr [VNull])])).
  reflexivity.
Defined.

End NormalizerContract.

(** ** Ticker extraction *)

Section TickerFacts.
Import AdminPanel.

(** C9: on [{symbol: {symbol: {symbol: "TSLA"}}}] the candidate
    [position.symbol.symbol] is an object, the secondary lookup
    (symbol, ticker, code, name, id) finds the string under [symbol],
    and [formatTicker] returns ["TSLA"]. *)
Theorem formatTicker_triple_nested :
  formatTicker tsla_position = Normal "TSLA" /\
  usable_string (tsla_position ?. "ticker") = None /\
  truthy (tsla_position ?. "ticker") && typeof_object (tsla_position ?. "ticker") = false /\
  tsla_position ?. "symbol" ?. "symbol" = VObj [("symbol", VStr "TSLA")] /\
  nested_lookup (tsla_position ?. "symbol" ?. "symbol") = Normal (VStr "TSLA") /\
  usable_string (VStr "TSLA") = Some "TSLA".
Proof. repeat split; reflexivity. Qed.

End TickerFacts.

(** ** Backend secret store *)

Section SecretStore.
Import Server.

Lemma register_stores_secret (userId : string) (data secret : value)
    (existing : upstream (list string)) (st : state) :
  truthy (VStr userId) = true ->
  (forall ids, existing = Resolved ids -> includes_id userId ids = false) ->
  get data "userSecret" = Normal secret ->
  userSecrets (fst (post_users userId existing (Resolved data) st)) !! userId = Some secret.
Proof.
  intros Hid Hnew Hsec. unfold post_users. rewrite Hid. simpl negb. cbv iota.
  assert (Hc : match existing with
               | Resolved ids => includes_id userId ids
               | Rejected _ => false
               end = false).
  { destruct existing as [ids | e]; [apply (Hnew ids eq_refl) | reflexivity]. }
  rewrite Hc, Hsec. simpl. apply lookup_insert_eq.
Qed.

Lemma get_users_lists (st : state) (ids : list string) (userId : string) :
  In userId ids ->
  In (user_entry st userId) (listed (snd (get_users (Resolved ids) st))).
Proof. intros Hin. simpl. apply in_map, Hin. Qed.

(** C10: [DELETE /api/users/:userId] leaves the in-memory secret store
    as it was, whatever the upstream call answers: a secret held for
    [userId] is still held afterwards, and a later [GET /api/users]
    whose upstream list contains [userId] answers 200 with the entry
    [{userId, userSecret: secret}]. *)
Theorem delete_keeps_secret (userId : string) (secret : value)
    (deletion : upstream value) (st : state) (ids : list string) :
  userSecrets st !! userId = Some secret ->
  truthy secret = true ->
  In userId ids ->
  let st' := fst (delete_user userId deletion st) in
  st' = st /\
  userSecrets st' !! userId = Some secret /\
  status (snd (get_users (Resolved ids) st')) = VNum 200 /\
  In (VObj [("userId", VStr userId); ("userSecret", secret)])
     (listed (snd (get_users (Resolved ids) st'))).
Proof.
  intros Hheld Htruthy Hin st'.
  assert (Hframe : st' = st) by (subst st'; destruct deletion; reflexivity).
  rewrite Hframe. split; [reflexivity |]. split; [exact Hheld |].
  split; [reflexivity |].
  replace (VObj [("userId", VStr userId); ("userSecret", secret)])
    with (user_entry st userId).
  - apply get_users_lists, Hin.
  - unfold user_entry, secret_or_null, js_or. rewrite Hheld, Htruthy. reflexivity.
Qed.

Lemma delete_keeps_secret_witness :
  let st := fst (post_users "alice" (Resolved [])
                   (Resolved (VObj [("userId", VStr "alice"); ("userSecret", VStr "s3cr3t")]))
                   {| userSecrets := ∅ |}) in
  let st' := fst (delete_user "alice" (Resolved (VObj [("status", VStr "deleted")])) st) in
  st' = st /\
  userSecrets st' !! "alice" = Some (VStr "s3cr3t") /\
  status (snd (get_users (Resolved ["bob"; "alice"]) st')) = VNum 200 /\
  In (VObj [("userId", VStr "alice"); ("userSecret", VStr "s3cr3t")])
     (listed (snd (get_users (Resolved ["bob"; "alice"]) st'))).
Proof.
  apply (delete_keeps_secret "alice" (VStr "s3cr3t")).
  - vm_compute. reflexivity.
  - reflexivity.
  - simpl. auto.
Defined.

End SecretStore.

(** ** Running programs *)

Section RunFacts.

Variable answer : oracle.

Lemma run_bind {A B} (t : Async A) (k : A -> Async B) (h : list event) :
  run answer (t ≫= k) h =
    match run answer t h with
    | (Returned a, e1) =>
        let '(o, e2) := run answer (k a) (h ++ e1) in (o, e1 ++ e2)
    | (Exited code, e1) => (Exited code, e1)
    | (Threw msg, e1) => (Threw msg, e1)
    end.
Proof.
  unfold mbind, Async_bind.
  revert h. induction t as [a | X r c IH | code | msg]; intros h; simpl.
  - rewrite app_nil_r. destruct (run answer (k a) h); reflexivity.
  - rewrite IH.
    destruct (run answer (c _) _) as [[a | code | msg] e1]; try reflexivity.
    simpl. rewrite <- app_assoc. simpl.
    destruct (run answer (k a) _); reflexivity.
  - reflexivity.
  - reflexivity.
Qed.

Lemma run_bind' {A B} (t : Async A) (k : A -> Async B) (h : list event) :
  run answer (bind t k) h =
    match run answer t h with
    | (Returned a, e1) =>
        let '(o, e2) := run answer (k a) (h ++ e1) in (o, e1 ++ e2)
    | (Exited code, e1) => (Exited code, e1)
    | (Threw msg, e1) => (Threw msg, e1)
    end.
Proof. apply (run_bind t k h). Qed.

Lemma run_catch {A} (t : Async A) (handler : string -> Async A) (h : list event) :
  run answer (catch t handler) h =
    match run answer t h with
    | (Threw msg, e1) =>
        let '(o, e2) := run answer (handler msg) (h ++ e1) in (o, e1 ++ e2)
    | finished => finished
    end.
Proof.
  revert h. induction t as [a | X r c IH | code | msg]; intros h; simpl.
  - reflexivity.
  - rewrite IH.
    destruct (run answer (c _) _) as [[a | code | msg] e1]; try reflexivity.
    simpl. rewrite <- app_assoc. simpl.
    destruct (run answer (handler msg) _); reflexivity.
  - reflexivity.
  - rewrite app_nil_r. destruct (run answer (handler msg) h); reflexivity.
Qed.

Lemma run_call {X} (r : request X) (h : list event) :
  run answer (call r) h = (Returned (answer X h r), [event_of r (answer X h r)]).
Proof. reflexivity. Qed.

End RunFacts.

Section Footprint.

Variable answer : oracle.
Variable P : event -> Prop.

Lemma only_bind {A B} (t : Async A) (k : A -> Async B) :
  only P t -> (forall a, only P (k a)) -> only P (t ≫= k).
Proof.
  unfold mbind, Async_bind. intros Ht Hk.
  induction Ht as [a | X r c Hr _ IH | code Hc | msg]; simpl.
  - apply Hk.
  - apply only_Do; [exact Hr | exact IH].
  - apply only_Exit, Hc.
  - apply only_Raise.
Qed.

Lemma only_call {X} (r : request X) :
  (forall x, P (event_of r x)) -> only P (call r).
Proof. intros Hr. apply only_Do; [exact Hr | intros x; apply only_Ret]. Qed.

Lemma only_run {A} (t : Async A) (h : list event) :
  only P t -> Forall P (snd (run answer t h)).
Proof.
  intros Ht. revert h.
  induction Ht as [a | X r c Hr _ IH | code Hc | msg]; intros h; simpl.
  - constructor.
  - specialize (IH (answer X h r) (h ++ [event_of r (answer X h r)])).
    destruct (run answer (c _) _) as [o evs]. simpl in *.
    constructor; [apply Hr | exact IH].
  - constructor; [exact Hc | constructor].
  - constructor.
Qed.

End Footprint.

(** ** Port allocator *)

Section AllocatorAnyStatus.
Import FindFreePorts.

Variable answer : oracle.

Lemma scan_in_range (n : nat) (port : Z) (host msg : string) (h evs : list event) (p : Z) :
  run answer (scan n port host (Raise msg)) h = (Returned p, evs) ->
  port <= p < port + Z.of_nat n.
Proof.
  revert port h evs. induction n as [| n IH]; intros port h evs; [discriminate |].
  cbn [scan]. unfold isPortFree. rewrite run_bind, run_call.
  destruct (answer bool h (Listen port host)).
  - simpl. intros [= <- _]. lia.
  - destruct (run answer (scan n (port + 1) host (Raise msg)) _) as [o e2] eqn:Hrun.
    destruct o; try discriminate. intros [= <- _]. apply IH in Hrun. lia.
Qed.

(** Distinctness does not depend on port status staying fixed: the
    re-scan only ever returns ports above the backend's. *)
Lemma findFreePorts_distinct_any_status (o : options) (h evs : list event) (b f : Z) :
  run answer (findFreePorts o) h = (Returned (b, f), evs) -> b <> f.
Proof.
  unfold findFreePorts. rewrite run_bind.
  destruct (run answer (findFreePort _) h) as [[b1 | c | m] e1]; try discriminate.
  rewrite run_bind.
  destruct (run answer (findFreePort _) (h ++ e1)) as [[f1 | c | m] e2]; try discriminate.
  destruct (f1 =? b1) eqn:Heq.
  - rewrite run_bind. unfold findFreePort at 1. cbn [preferred rangeStart rangeEnd host default].
    destruct (run answer (scan _ _ _ _) _) as [[f2 | c | m] e3] eqn:Hscan; try discriminate.
    apply scan_in_range in Hscan. simpl in *. intros [= -> ->]. lia.
  - simpl. intros [= <- <-]. apply Z.eqb_neq in Heq. congruence.
Qed.

End AllocatorAnyStatus.

Section Allocator.
Import FindFreePorts.

Variable answer : oracle.
Variable free : Z -> bool.
Hypothesis Hfixed : fixed_ports answer free.

Lemma first_free_some (n : nat) (port p : Z) :
  first_free free n port = Some p ->
  lowest_free free port (port + Z.of_nat n - 1) None p.
Proof.
  revert port. induction n as [| n IH]; intros port; simpl; [discriminate |].
  destruct (free port) eqn:Hf.
  - intros [= <-]. repeat split; try congruence; intros; lia.
  - intros Hp. apply IH in Hp. destruct Hp as (Hrange & Hfree & _ & Hlow).
    repeat split; try lia; try congruence.
    intros q Hq _. destruct (Z.eq_dec q port) as [-> | Hne]; [exact Hf |].
    apply Hlow; [lia | discriminate].
Qed.

Lemma first_free_none (n : nat) (port : Z) :
  first_free free n port = None ->
  forall q, port <= q < port + Z.of_nat n -> free q = false.
Proof.
  revert port. induction n as [| n IH]; intros port; simpl; [lia |].
  destruct (free port) eqn:Hf; [discriminate |].
  intros Hnone q Hq. destruct (Z.eq_dec q port) as [-> | Hne]; [exact Hf |].
  apply (IH (port + 1)); [exact Hnone | lia].
Qed.

Lemma run_scan (n : nat) (port : Z) (host msg : string) (h : list event) :
  fst (run answer (scan n port host (Raise msg)) h) =
    match first_free free n port with
    | Some p => Returned p
    | None => Threw msg
    end.
Proof.
  revert port h. induction n as [| n IH]; intros port h; [reflexivity |].
  cbn [scan first_free]. unfold isPortFree. rewrite run_bind, run_call, Hfixed.
  destruct (free port); [reflexivity |].
  specialize (IH (port + 1) (h ++ [event_of (Listen port host) false])).
  destruct (run answer (scan n (port + 1) host (Raise msg)) _). exact IH.
Qed.

Lemma run_findFreePort (q : port_query) (h : list event) :
  fst (run answer (findFreePort q) h) =
    match preferred q with
    | Some p => if unusable free p then search_outcome free q else Returned p
    | None => search_outcome free q
    end.
Proof.
  unfold findFreePort, search_outcome, unusable.
  destruct (preferred q) as [p |]; [| apply run_scan].
  destruct (p =? 0); [apply run_scan |]. simpl orb.
  unfold isPortFree. rewrite run_bind, run_call, Hfixed.
  destruct (free p); [reflexivity |]. simpl negb. cbv iota.
  match goal with |- context [run answer (scan ?n ?s ?hn (Raise ?m)) ?h'] =>
    pose proof (run_scan n s hn m h') as Hs;
    destruct (run answer (scan n s hn (Raise m)) h') end.
  exact Hs.
Qed.

(** Under fixed port status the allocator computes [allocation]. *)
Lemma run_findFreePorts (o : options) (h : list event) :
  fst (run answer (findFreePorts o) h) = allocation free o.
Proof.
  unfold findFreePorts, allocation. rewrite run_bind.
  pose proof (run_findFreePort (backend_query o) h) as Hb.
  fold (backend_query o).
  destruct (run answer (findFreePort (backend_query o)) h) as [o1 e1].
  cbn [fst] in Hb. fold (pick free (backend_query o)) in Hb. rewrite <- Hb.
  destruct o1 as [b | c | m]; try reflexivity. cbn [through].
  rewrite run_bind. fold (frontend_query o).
  pose proof (run_findFreePort (frontend_query o) (h ++ e1)) as Hf.
  destruct (run answer (findFreePort (frontend_query o)) (h ++ e1)) as [o2 e2].
  cbn [fst] in Hf. fold (pick free (frontend_query o)) in Hf. rewrite <- Hf.
  destruct o2 as [f1 | c | m]; try reflexivity. cbn [through].
  destruct (f1 =? b); [| reflexivity].
  rewrite run_bind. fold (rescan_query o b).
  pose proof (run_findFreePort (rescan_query o b) ((h ++ e1) ++ e2)) as Hr.
  destruct (run answer (findFreePort (rescan_query o b)) ((h ++ e1) ++ e2)) as [o3 e3].
  cbn [fst] in Hr. fold (pick free (rescan_query o b)) in Hr. rewrite <- Hr.
  destruct o3 as [f | c | m]; reflexivity.
Qed.
Lemma search_returns (q : port_query) (p : Z) :
  search_outcome free q = Returned p ->
  lowest_free free (default 3000 (rangeStart q)) (default 3999 (rangeEnd q)) None p.
Proof.
  unfold search_outcome.
  set (lo := default 3000 (rangeStart q)). set (hi := default 3999 (rangeEnd q)).
  destruct (first_free free (Z.to_nat (hi - lo + 1)) lo) as [p' |] eqn:Hff; [| discriminate].
  intros [= ->]. apply first_free_some in Hff.
  destruct (Z.to_nat (hi - lo + 1)) as [| n] eqn:Hn.
  - destruct Hff as (Hrange & _). lia.
  - replace hi with (lo + Z.of_nat (S n) - 1) by lia. exact Hff.
Qed.

Lemma search_throws (q : port_query) (msg : string) :
  search_outcome free q = Threw msg ->
  forall port, default 3000 (rangeStart q) <= port <= default 3999 (rangeEnd q) ->
               free port = false.
Proof.
  unfold search_outcome.
  set (lo := default 3000 (rangeStart q)). set (hi := default 3999 (rangeEnd q)).
  destruct (first_free free (Z.to_nat (hi - lo + 1)) lo) eqn:Hff; [discriminate |].
  intros _ port Hport. apply (first_free_none _ _ Hff). lia.
Qed.

(** How a run of [findFreePorts] that returns came about. *)
Lemma findFreePorts_returned (o : options) (h evs : list event) (b f : Z) :
  run answer (findFreePorts o) h = (Returned (b, f), evs) ->
  exists f1,
    fst (run answer (findFreePort
           {| preferred := Some (backend_preferred o); host := Some (host_of o);
              rangeStart := Some (backend_start o);
              rangeEnd := Some (backend_end o) |}) h) = Returned b /\
    (if unusable free (frontend_preferred o)
     then lowest_free free (frontend_start o) (frontend_end o) None f1
     else f1 = frontend_preferred o) /\
    (if f1 =? b
     then lowest_free free (Z.max (frontend_start o) (b + 1)) (frontend_end o) None f
     else f = f1).
Proof.
  unfold findFreePorts. rewrite run_bind.
  destruct (run answer (findFreePort _) h) as [[b1 | c | m] e1] eqn:E1; try discriminate.
  rewrite run_bind.
  match goal with |- context [run answer (findFreePort ?q) ?h'] =>
    pose proof (run_findFreePort q h') as H2;
    destruct (run answer (findFreePort q) h') as [[f1 | c | m] e2] end; try discriminate.
  cbn [preferred fst] in H2.
  assert (Hf1 : if unusable free (frontend_preferred o)
                then lowest_free free (frontend_start o) (frontend_end o) None f1
                else f1 = frontend_preferred o).
  { destruct (unusable free (frontend_preferred o)).
    - symmetry in H2. apply search_returns in H2. exact H2.
    - congruence. }
  destruct (f1 =? b1) eqn:Heq.
  - rewrite run_bind.
    match goal with |- context [run answer (findFreePort ?q) ?h'] =>
      pose proof (run_findFreePort q h') as H3;
      destruct (run answer (findFreePort q) h') as [[f2 | c | m] e3] end; try discriminate.
    cbn [preferred fst] in H3. symmetry in H3. apply search_returns in H3.
    simpl. intros [= <- <-]. exists f1. rewrite Heq. auto.
  - simpl. intros [= <- <-]. exists f1. rewrite Heq. auto.
Qed.

(** C1: under fixed port status, whenever [findFreePorts] returns an
    assignment its two ports differ. *)
Theorem findFreePorts_distinct (o : options) (h evs : list event) (b f : Z) :
  run answer (findFreePorts o) h = (Returned (b, f), evs) -> b <> f.
Proof.
  intros Hrun. apply findFreePorts_returned in Hrun.
  destruct Hrun as (f1 & _ & _ & Hf).
  destruct (f1 =? b) eqn:Heq.
  - destruct Hf as (Hrange & _). lia.
  - apply Z.eqb_neq in Heq. congruence.
Qed.

(** C6: under fixed port status, when a role's preferred port cannot be
    used the returned port of that role is the lowest free port of the
    role's range, from the range start upwards; for the frontend the
    backend's port is excluded (a collision is resolved by the scan that
    restarts just above the backend's port). *)
Theorem scan_returns_lowest_free (o : options) (h evs : list event) (b f : Z) :
  run answer (findFreePorts o) h = (Returned (b, f), evs) ->
  (unusable free (backend_preferred o) = true ->
   lowest_free free (backend_start o) (backend_end o) None b) /\
  (unusable free (frontend_preferred o) = true ->
   lowest_free free (frontend_start o) (frontend_end o) (Some b) f).
Proof.
  intros Hrun. apply findFreePorts_returned in Hrun.
  destruct Hrun as (f1 & Hb & Hf1 & Hf). split.
  - intros Hbusy. rewrite run_findFreePort in Hb. cbn [preferred] in Hb.
    rewrite Hbusy in Hb. apply search_returns in Hb. exact Hb.
  - intros Hbusy. rewrite Hbusy in Hf1.
    destruct Hf1 as (Hr1 & Hfree1 & _ & Hlow1).
    destruct (f1 =? b) eqn:Heq.
    + apply Z.eqb_eq in Heq. subst f1.
      destruct Hf as (Hr & Hfree & _ & Hlow).
      repeat split; try lia; try exact Hfree.
      * intros [= ->]. lia.
      * intros q Hq Hskip.
        destruct (Z.lt_ge_cases q b) as [Hlt | Hge].
        -- apply Hlow1; [lia | discriminate].
        -- assert (q <> b) by congruence. apply Hlow; [lia | discriminate].
    + apply Z.eqb_neq in Heq. subst f.
      repeat split; try lia; try exact Hfree1.
      * congruence.
      * intros q Hq _. apply Hlow1; [lia | discriminate].
Qed.

End Allocator.

Section AllocatorExamples.
Import FindFreePorts StartDev.

Lemma findFreePorts_distinct_witness :
  run (scripted (fun _ => true) true SpawnError) (findFreePorts colliding_options) [] =
    (Returned (3005, 3006),
     [EListen 3005 "127.0.0.1" true; EListen 3005 "127.0.0.1" true;
      EListen 3006 "127.0.0.1" true]) /\
  3005 <> 3006.
Proof.
  assert (Hrun : run (scripted (fun _ => true) true SpawnError)
                     (findFreePorts colliding_options) [] =
                 (Returned (3005, 3006),
                  [EListen 3005 "127.0.0.1" true; EListen 3005 "127.0.0.1" true;
                   EListen 3006 "127.0.0.1" true])) by (vm_compute; reflexivity).
  split; [exact Hrun |].
  apply (findFreePorts_distinct (scripted (fun _ => true) true SpawnError)
           (fun _ => true) (fun _ _ _ => eq_refl) colliding_options [] _ 3005 3006 Hrun).
Defined.

Lemma scan_returns_lowest_free_witness :
  fst (run (scripted busy_low_ports true SpawnError) (findFreePorts no_opts) []) =
    Returned (3002, 3003) /\
  lowest_free busy_low_ports 3001 3999 None 3002 /\
  lowest_free busy_low_ports 3000 4999 (Some 3002) 3003.
Proof.
  assert (Hrun : run (scripted busy_low_ports true SpawnError) (findFreePorts no_opts) [] =
                 (Returned (3002, 3003),
                  snd (run (scripted busy_low_ports true SpawnError)
                         (findFreePorts no_opts) [])))
    by (vm_compute; reflexivity).
  split; [rewrite Hrun; reflexivity |].
  destruct (scan_returns_lowest_free (scripted busy_low_ports true SpawnError)
              busy_low_ports (fun _ _ _ => eq_refl) no_opts [] _ 3002 3003 Hrun)
    as [Hbackend Hfrontend].
  split; [apply Hbackend | apply Hfrontend]; reflexivity.
Defined.

End AllocatorExamples.

(** ** Port reclamation *)

Section Reclamation.
Import StartDev.

Variable platform : platform_t.
Variable isNaN : string -> bool.
Variable answer : oracle.

(** Unfolds the one-request helpers so that [run] computes through them. *)
Ltac run_through :=
  unfold cleanup_notice, log, spawn, sleep, call, mbind, mret, Async_bind, Async_ret;
  cbn [bind run event_of fst snd pid];
  repeat match goal with
         | |- context [@Returned unit ?u] =>
             lazymatch u with
             | tt => fail
             | _ => destruct u
             end
         end.

Lemma run_kill_first_listener (port : Z) (lines : list string) (h : list event) :
  exists evs,
    run answer (kill_first_listener isNaN port lines) h = (Returned tt, evs) /\
    (evs = [] \/ exists victim pid, evs = kill_events Win32 port victim pid).
Proof.
  induction lines as [| line rest IH]; simpl.
  - exists []. auto.
  - destruct (test_literal_space _ line && includes "LISTENING" line); [| exact IH].
    destruct (nonempty _ && negb (isNaN _)); [| exact IH].
    run_through.
    eexists. split; [reflexivity |]. right. eexists _, _. reflexivity.
Qed.

(** One reclamation: the lookup is spawned and awaited, then either
    nothing more happens or one kill is announced, issued and given a
    second to take effect. *)
Lemma run_killProcessOnPort (port : Z) (h : list event) :
  exists lookup report tail,
    run answer (killProcessOnPort platform isNaN port) h =
      (Returned tt, lookup_event platform port lookup :: EWait lookup report :: tail) /\
    (tail = [] \/ exists victim pid, tail = kill_events platform port victim pid) /\
    (report = SpawnError -> tail = []).
Proof.
  unfold killProcessOnPort. destruct platform; run_through.
  - set (q := answer Z h _). set (h1 := h ++ _).
    destruct (answer exit_report h1 (Wait q)) as [| code chunks] eqn:Hr.
    + exists q, SpawnError, []. simpl. auto.
    + destruct ((code =? 0) && nonempty (join (map trim chunks))).
      * run_through. eexists q, _, _. simpl. split; [reflexivity |].
        split; [right; eexists _, _; reflexivity | discriminate].
      * exists q, (Closed code chunks), []. simpl.
        split; [reflexivity |]. split; [auto | discriminate].
  - set (q := answer Z h _). set (h1 := h ++ _).
    destruct (answer exit_report h1 (Wait q)) as [| code chunks] eqn:Hr.
    + exists q, SpawnError, []. simpl. auto.
    + destruct (run_kill_first_listener port (split_on newline (join chunks))
                  (h1 ++ [EWait q (Closed code chunks)])) as (evs & Hrun & Hevs).
      exists q, (Closed code chunks), evs. rewrite Hrun.
      split; [reflexivity |]. split; [exact Hevs | discriminate].
Qed.

End Reclamation.

Section ReclamationContract.
Import StartDev.

(** C8, as stated, fails: when the lookup command cannot be spawned the
    call resolves without having logged anything. *)
Lemma lookup_failure_is_silent :
  ~ swallows_after_logging Posix (fun _ => true)
      (scripted (fun _ => true) false SpawnError) 3005 [].
Proof.
  intros (evs & Hrun & Hlogged). vm_compute in Hrun.
  injection Hrun as <-. specialize (Hlogged eq_refl). discriminate Hlogged.
Qed.

(** C8, amended: on either platform and for every port,
    [killProcessOnPort] never fails its caller, it always resolves; when
    it kills nothing (the lookup could not be spawned, or no process was
    found) it has logged nothing, the only log line being the notice
    that precedes a kill; and a lookup that could not be spawned leads
    to no kill. *)
Theorem killProcessOnPort_never_fails (platform : platform_t) (isNaN : string -> bool)
    (answer : oracle) (port : Z) (h : list event) :
  exists evs,
    run answer (killProcessOnPort platform isNaN port) h = (Returned tt, evs) /\
    (existsb is_kill_spawn evs = false -> existsb is_log evs = false) /\
    (forall lookup, In (EWait lookup SpawnError) evs -> existsb is_kill_spawn evs = false).
Proof.
  destruct (run_killProcessOnPort platform isNaN answer port h)
    as (lookup & report & tail & Hrun & Htail & Hfail).
  eexists. split; [exact Hrun |].
  destruct Htail as [-> | (victim & pid & ->)].
  - split; intros; destruct platform; reflexivity.
  - split.
    + destruct platform; discriminate.
    + intros q [Hq | [Hq | Hq]].
      * destruct platform; discriminate Hq.
      * injection Hq as _ ->. specialize (Hfail eq_refl). discriminate Hfail.
      * destruct platform; simpl in Hq; intuition discriminate.
Qed.

Lemma killProcessOnPort_never_fails_witness :
  exists evs,
    run (scripted (fun _ => true) true (Closed 1 []))
        (killProcessOnPort Posix (fun _ => true) 3000) [] =
      (Returned tt, evs) /\
    existsb is_log evs = false.
Proof.
  destruct (killProcessOnPort_never_fails Posix (fun _ => true)
              (scripted (fun _ => true) true (Closed 1 [])) 3000 [])
    as (evs & Hrun & Hsilent & _).
  exists evs. split; [exact Hrun |]. apply Hsilent.
  vm_compute in Hrun. injection Hrun as <-. reflexivity.
Defined.

(** C7, the failing input: when [lsof] lists two process ids, [kill]
    is spawned with the whole output as one argument, which names
    neither process; with one process id listed it names that one. *)
Theorem kill_receives_unsplit_output :
  run (scripted (fun _ => true) false (Closed 0 [two_pids]))
      (killProcessOnPort Posix (fun _ => true) 3005) [] =
    (Returned tt,
     [ESpawn "lsof" ["-ti"; "tcp:3005"] no_options 4000;
      EWait 4000 (Closed 0 [two_pids]);
      ELog "CLEANUP"
        ("Killing process 123" +:+ String newline "456 on port 3005") yellow;
      ESpawn "kill" ["-9"; "123" +:+ String newline "456"] no_options 4003;
      ETimeout 1000]) /\
  listed_pids two_pids = ["123"; "456"] /\
  is_decimal ("123" +:+ String newline "456") = false /\
  run (scripted (fun _ => true) false (Closed 0 ["123" +:+ String newline ""]))
      (killProcessOnPort Posix (fun _ => true) 3005) [] =
    (Returned tt,
     [ESpawn "lsof" ["-ti"; "tcp:3005"] no_options 4000;
      EWait 4000 (Closed 0 ["123" +:+ String newline ""]);
      ELog "CLEANUP" "Killing process 123 on port 3005" yellow;
      ESpawn "kill" ["-9"; "123"] no_options 4003;
      ETimeout 1000]).
Proof. repeat split; vm_compute; reflexivity. Qed.

End ReclamationContract.

(** ** Startup and the backend health gate *)

Section Startup.
Import StartDev.

Variable platform : platform_t.
Variable isNaN : string -> bool.
Variable answer : oracle.

Lemma count_probes_app (h1 h2 : list event) :
  count_probes (h1 ++ h2) = (count_probes h1 + count_probes h2)%nat.
Proof. unfold count_probes. rewrite List.filter_app, List.length_app. reflexivity. Qed.

Lemma preparatory_quiet (evs : list event) :
  forallb preparatory evs = true ->
  count_probes evs = 0%nat /\ existsb is_frontend_spawn evs = false.
Proof.
  unfold count_probes.
  induction evs as [| e evs IH]; simpl; [auto |].
  intros H. apply andb_prop in H. destruct H as [He Hevs].
  destruct (IH Hevs) as [IH1 IH2]. rewrite IH2, orb_false_r.
  destruct e; simpl in *; try discriminate; auto.
  split; [exact IH1 |].
  destruct (String.eqb_spec cmd "npm") as [-> | _]; [discriminate He | reflexivity].
Qed.

Lemma failed_attempts_quiet (url : string) (n : nat) (i : Z) :
  existsb is_frontend_spawn (failed_attempts url n i) = false.
Proof.
  revert i. induction n as [| n IH]; intros i; [reflexivity |].
  cbn [failed_attempts]. destruct (i =? 0); simpl; apply IH.
Qed.

(** The first 30 health probes fail. *)
Hypothesis failing :
  forall h u, (count_probes h < 30)%nat -> answer bool h (HttpGet u) = false.

Lemma run_poll_failing (url : string) (remaining : nat) (i : Z) (h : list event) :
  (count_probes h + remaining <= 30)%nat ->
  run answer (poll url remaining i) h =
    (Returned false,
     failed_attempts url remaining i ++
     [ELog "STARTUP" "Backend failed to start within 30 seconds" red]).
Proof.
  revert i h. induction remaining as [| n IH]; intros i h Hn.
  - reflexivity.
  - cbn [poll failed_attempts].
    unfold log, sleep, call, mbind, mret, Async_bind, Async_ret.
    cbn [bind run event_of].
    rewrite failing by lia.
    destruct (i =? 0); cbn [bind run event_of].
    + rewrite IH by (rewrite !count_probes_app; unfold count_probes in *; simpl; lia).
      reflexivity.
    + rewrite IH by (rewrite !count_probes_app; unfold count_probes in *; simpl; lia).
      reflexivity.
Qed.

Lemma only_scan (P : event -> Prop) (n : nat) (port : Z) (host msg : string) :
  (forall p hst fr, P (EListen p hst fr)) ->
  only P (FindFreePorts.scan n port host (Raise msg)).
Proof.
  intros HP. revert port. induction n as [| n IH]; intros port; cbn [FindFreePorts.scan].
  - apply only_Raise.
  - apply only_bind.
    + apply only_call. intros x. apply HP.
    + intros [|]; [apply only_Ret | apply IH].
Qed.

Lemma only_findFreePort (P : event -> Prop) (q : FindFreePorts.port_query) :
  (forall p hst fr, P (EListen p hst fr)) ->
  only P (FindFreePorts.findFreePort q).
Proof.
  intros HP. unfold FindFreePorts.findFreePort.
  destruct (FindFreePorts.preferred q) as [p |]; [| apply only_scan, HP].
  destruct (p =? 0); [apply only_scan, HP |].
  apply only_bind.
  - apply only_call. intros x. apply HP.
  - intros [|]; [apply only_Ret | apply only_scan, HP].
Qed.

Lemma only_findFreePorts (P : event -> Prop) (o : FindFreePorts.options) :
  (forall p hst fr, P (EListen p hst fr)) ->
  only P (FindFreePorts.findFreePorts o).
Proof.
  intros HP. unfold FindFreePorts.findFreePorts.
  apply only_bind; [apply only_findFreePort, HP | intros b].
  apply only_bind; [apply only_findFreePort, HP | intros f].
  destruct (f =? b); [| apply only_Ret].
  apply only_bind; [apply only_findFreePort, HP | intros f'; apply only_Ret].
Qed.

Lemma findFreePorts_preparatory (o : FindFreePorts.options) (h : list event) :
  forallb preparatory (snd (run answer (FindFreePorts.findFreePorts o) h)) = true.
Proof.
  apply forallb_forall. apply List.Forall_forall.
  apply (only_run answer (fun e => preparatory e = true)).
  apply only_findFreePorts. reflexivity.
Qed.

Lemma killProcessOnPort_preparatory (port : Z) (h : list event) :
  exists evs,
    run answer (killProcessOnPort platform isNaN port) h = (Returned tt, evs) /\
    forallb preparatory evs = true.
Proof.
  destruct (run_killProcessOnPort platform isNaN answer port h)
    as (lookup & report & tail & Hrun & Htail & _).
  eexists. split; [exact Hrun |].
  destruct Htail as [-> | (victim & pid & ->)]; destruct platform; reflexivity.
Qed.

(** C2: when port allocation has succeeded and the first 30 requests to
    the backend status endpoint fail, the run consists of the
    preparations, the spawn of the backend, 30 probes each followed by a
    wait of one second, the two failure notices, the kill of the
    backend child and the exit with status 1; the frontend is never
    spawned. *)
Theorem backend_health_timeout (b f : Z) (allocation : list event) :
  run answer (FindFreePorts.findFreePorts startup_options)
      [ELog "STARTUP" "Starting SnapTrade Admin Panel..." bright] =
    (Returned (b, f), allocation) ->
  exists pre backendPid,
    run answer (main platform isNaN) [] =
      (Exited 1,
       pre ++
       [ESpawn "npm" ["run"; "dev"] (backend_spawn_options b f) backendPid] ++
       failed_attempts (backend_url b) 30 0 ++
       [ELog "STARTUP" "Backend failed to start within 30 seconds" red;
        ELog "STARTUP" "Failed to start backend, aborting..." red;
        EKill backendPid "SIGTERM";
        EExit 1]) /\
    forallb preparatory pre = true /\
    existsb is_frontend_spawn (snd (run answer (main platform isNaN) [])) = false.
Proof.
  intros Halloc.
  assert (Hstart : exists evsB evsF backendPid,
    forallb preparatory evsB = true /\ forallb preparatory evsF = true /\
    run answer (startServices platform isNaN) [] =
      (Exited 1,
       ELog "STARTUP" "Starting SnapTrade Admin Panel..." bright :: allocation ++
       ELog "CLEANUP" "Checking for existing processes on ports..." cyan :: evsB ++
       evsF ++
       [ELog "CLEANUP" "Port cleanup complete" cyan;
        ELog "BACKEND" "Starting backend server..." blue;
        ESpawn "npm" ["run"; "dev"] (backend_spawn_options b f) backendPid] ++
       failed_attempts (backend_url b) 30 0 ++
       [ELog "STARTUP" "Backend failed to start within 30 seconds" red;
        ELog "STARTUP" "Failed to start backend, aborting..." red;
        EKill backendPid "SIGTERM";
        EExit 1])).
  { unfold startServices.
    unfold log, call, mbind, mret, Async_bind, Async_ret.
    cbn [bind run event_of app].
    rewrite run_bind', Halloc. cbn [fst snd bind run event_of].
    match goal with
    | |- context [run answer (bind (killProcessOnPort ?pl ?nan ?p) ?k) ?h] =>
        destruct (killProcessOnPort_preparatory p h) as (evsB & HB & HpB);
        rewrite (run_bind' answer (killProcessOnPort pl nan p) k h), HB
    end.
    match goal with
    | |- context [run answer (bind (killProcessOnPort ?pl ?nan ?p) ?k) ?h] =>
        destruct (killProcessOnPort_preparatory p h) as (evsF & HF & HpF);
        rewrite (run_bind' answer (killProcessOnPort pl nan p) k h), HF
    end.
    unfold spawn, waitForBackend, call, mbind, mret, Async_bind, Async_ret.
    cbn [bind run event_of pid].
    match goal with
    | |- context [run answer (bind (poll ?u ?n ?i) ?k) ?h] =>
        rewrite (run_bind' answer (poll u n i) k h), (run_poll_failing u n i h)
    end.
    - cbn [negb bind run event_of].
      eexists evsB, evsF, _. split; [exact HpB |]. split; [exact HpF |].
      rewrite <- app_assoc. reflexivity.
    - pose proof (findFreePorts_preparatory startup_options
                    [ELog "STARTUP" "Starting SnapTrade Admin Panel..." bright]) as HpA.
      rewrite Halloc in HpA. cbn [snd] in HpA.
      apply preparatory_quiet in HpA, HpB, HpF.
      rewrite !count_probes_app.
      destruct HpA as [-> _], HpB as [-> _], HpF as [-> _]. reflexivity. }
  destruct Hstart as (evsB & evsF & backendPid & HpB & HpF & Hstart).
  assert (Hmain : run answer (main platform isNaN) [] =
                  run answer (startServices platform isNaN) []).
  { unfold main. rewrite run_catch, Hstart. reflexivity. }
  pose proof (findFreePorts_preparatory startup_options
                [ELog "STARTUP" "Starting SnapTrade Admin Panel..." bright]) as HpA.
  rewrite Halloc in HpA. cbn [snd] in HpA.
  exists (ELog "STARTUP" "Starting SnapTrade Admin Panel..." bright :: allocation ++
          ELog "CLEANUP" "Checking for existing processes on ports..." cyan :: evsB ++
          evsF ++
          [ELog "CLEANUP" "Port cleanup complete" cyan;
           ELog "BACKEND" "Starting backend server..." blue]), backendPid.
  split; [| split].
  - rewrite Hmain, Hstart. f_equal. simpl.
    repeat (rewrite <- app_assoc; simpl). reflexivity.
  - simpl. rewrite forallb_app. simpl. rewrite !forallb_app, HpA, HpB, HpF. reflexivity.
  - rewrite Hmain, Hstart. cbn [snd].
    apply preparatory_quiet in HpA, HpB, HpF.
    destruct HpA as [_ HqA], HpB as [_ HqB], HpF as [_ HqF].
    simpl. rewrite existsb_app. simpl. rewrite !existsb_app, HqA, HqB, HqF.
    simpl. rewrite ?existsb_app, ?failed_attempts_quiet. reflexivity.
Qed.

End Startup.

Section StartupExamples.
Import StartDev.

(** With a healthy backend the same script goes on to start the
    frontend and returns to the event loop. *)
Example healthy_startup_spawns_frontend :
  exists sup evs,
    run (scripted (fun _ => true) true SpawnError) (main Posix (fun _ => true)) [] =
      (Returned sup, evs) /\
    existsb is_frontend_spawn evs = true /\
    BACKEND_PORT sup = 3005 /\ FRONTEND_PORT sup = 3000.
Proof. eexists _, _. split; [vm_compute; reflexivity |]. repeat split. Qed.

Lemma backend_health_timeout_witness :
  exists pre backendPid,
    run (scripted (fun _ => true) false SpawnError) (main Posix (fun _ => true)) [] =
      (Exited 1,
       pre ++
       [ESpawn "npm" ["run"; "dev"] (backend_spawn_options 3005 3000) backendPid] ++
       failed_attempts (backend_url 3005) 30 0 ++
       [ELog "STARTUP" "Backend failed to start within 30 seconds" red;
        ELog "STARTUP" "Failed to start backend, aborting..." red;
        EKill backendPid "SIGTERM";
        EExit 1]) /\
    forallb preparatory pre = true /\
    existsb is_frontend_spawn
      (snd (run (scripted (fun _ => true) false SpawnError)
              (main Posix (fun _ => true)) [])) = false.
Proof.
  apply (backend_health_timeout Posix (fun _ => true)
           (scripted (fun _ => true) false SpawnError)
           (fun _ _ _ => eq_refl) 3005 3000
           [EListen 3005 "127.0.0.1" true; EListen 3000 "127.0.0.1" true]).
  vm_compute. reflexivity.
Defined.

End StartupExamples.

(** ** Shutdown under repeated signals *)

Section EventLoopFacts.
Import StartDev.

Variable platform : platform_t.
Variable isNaN : string -> bool.
Variable answer : oracle.
Variable sup : supervisor.

Lemma suspends_event {X} (r : request X) (x : X) :
  is_suspension (event_of r x) = suspends r.
Proof. destruct r; reflexivity. Qed.

Lemma advance_run (t : Async unit) (h : list event) :
  run answer t h = completes answer (advance answer t h) h.
Proof.
  revert h. induction t as [[] | X r k IH | code | msg]; intros h; cbn [advance run completes];
    try reflexivity.
  destruct (suspends r) eqn:Hs.
  - cbn [completes]. rewrite app_nil_r. cbn [run].
    destruct (run answer (k _) _). reflexivity.
  - rewrite IH.
    destruct (advance answer (k _) _) as [[| t | code | msg] evs]; cbn [completes];
      try reflexivity.
    rewrite <- app_assoc. cbn [app].
    destruct (run answer t _). reflexivity.
Qed.

Lemma resume_run (t : Async unit) (h : list event) :
  run answer t h = completes answer (resume answer t h) h.
Proof.
  destruct t as [[] | X r k | code | msg]; try apply advance_run.
  cbn [resume run]. rewrite advance_run.
  destruct (advance answer (k _) _) as [[| t | code | msg] evs]; cbn [completes];
    try reflexivity.
  rewrite <- app_assoc. cbn [app].
  destruct (run answer t _). reflexivity.
Qed.

Lemma advance_blocked (t t' : Async unit) (h evs : list event) :
  advance answer t h = (Blocked t', evs) -> is_blocked t'.
Proof.
  revert h evs. induction t as [[] | X r k IH | code | msg]; intros h evs; cbn [advance];
    try discriminate.
  destruct (suspends r) eqn:Hs.
  - intros [= <- <-]. exact Hs.
  - destruct (advance answer (k _) _) as [st evs'] eqn:Hadv.
    intros [= -> <-]. eapply IH, Hadv.
Qed.

Lemma advance_no_suspension (t : Async unit) (h : list event) :
  suspensions (snd (advance answer t h)) = 0%nat.
Proof.
  revert h. induction t as [[] | X r k IH | code | msg]; intros h; cbn [advance];
    try reflexivity.
  destruct (suspends r) eqn:Hs; [reflexivity |].
  specialize (IH (answer X h r) (h ++ [event_of r (answer X h r)])).
  destruct (advance answer (k _) _) as [st evs]. cbn [snd] in *.
  unfold suspensions in *. cbn iota beta. cbn [snd List.filter].
  rewrite suspends_event, Hs. exact IH.
Qed.

Lemma resume_one_suspension (t : Async unit) (h : list event) :
  is_blocked t -> suspensions (snd (resume answer t h)) = 1%nat.
Proof.
  destruct t as [[] | X r k | code | msg]; cbn [is_blocked]; try contradiction.
  intros Hs. cbn [resume].
  pose proof (advance_no_suspension (k (answer X h r)) (h ++ [event_of r (answer X h r)])) as H0.
  destruct (advance answer (k _) _) as [st evs]. cbn [snd] in *.
  unfold suspensions in *. cbn iota beta. cbn [snd List.filter].
  rewrite suspends_event, Hs. cbn [length].
  rewrite H0. reflexivity.
Qed.

Lemma run_blocked (t : Async unit) (h : list event) :
  is_blocked t -> (1 <= suspensions (snd (run answer t h)))%nat.
Proof.
  destruct t as [[] | X r k | code | msg]; cbn [is_blocked]; try contradiction.
  intros Hs. cbn [run]. destruct (run answer (k _) _) as [o evs].
  unfold suspensions. cbn [snd List.filter]. rewrite suspends_event, Hs.
  cbn [length]. lia.
Qed.

Lemma suspensions_app (e1 e2 : list event) :
  suspensions (e1 ++ e2) = (suspensions e1 + suspensions e2)%nat.
Proof. unfold suspensions. rewrite List.filter_app, List.length_app. reflexivity. Qed.

Abbreviation stage := (at_stage answer platform isNaN sup).
Abbreviation loop_step := (step platform isNaN answer sup).
Abbreviation loop_exec := (exec platform isNaN answer sup).

(** Booking the result of running a task that continues the teardown. *)
Lemma settle_stage (h0 done evs : list event) (sig : signal)
    (result : status) (o : outcome unit) (rest : list event) :
  run answer (teardown platform isNaN sup (signal_name sig)) h0 = (o, done ++ rest) ->
  completes answer (result, evs) (h0 ++ done) = (o, rest) ->
  (forall t, result = Blocked t -> is_blocked t) ->
  stage h0 sig (done ++ evs) (settle true (h0 ++ done) [] (result, evs)).
Proof.
  intros Hseq Hcomp Hblocked. unfold at_stage.
  destruct result as [| t | code | msg]; cbn [completes settle] in *.
  - injection Hcomp as <- <-. exists (Returned tt), [].
    rewrite app_nil_r, app_assoc. cbn. auto 10.
  - destruct (run answer t ((h0 ++ done) ++ evs)) as [o' rest'] eqn:Hrun.
    injection Hcomp as <- <-. exists o', rest'.
    rewrite <- !app_assoc in *. cbn.
    split; [exact Hseq |]. split; [reflexivity |]. split; [reflexivity |].
    left. split; [reflexivity |]. exists t. auto.
  - injection Hcomp as <- <-. exists (Exited code), [].
    rewrite app_nil_r, app_assoc. cbn. auto 10.
  - injection Hcomp as <- <-. exists (Threw msg), [].
    rewrite app_nil_r, app_assoc. cbn. auto 10.
Qed.

Lemma first_signal_stage (h0 : list event) (sig : signal) :
  exists done,
    stage h0 sig done (loop_step (running h0) (Deliver sig)) /\
    suspensions done = 0%nat.
Proof.
  cbn [step running exited shutdown shuttingDown history pending].
  pose proof (advance_run (teardown platform isNaN sup (signal_name sig)) h0) as Hrun.
  pose proof (advance_no_suspension (teardown platform isNaN sup (signal_name sig)) h0) as H0.
  destruct (advance answer _ h0) as [result evs] eqn:Hadv. cbn [snd] in H0.
  exists evs. split; [| exact H0].
  destruct (run answer (teardown platform isNaN sup (signal_name sig)) h0) as [o all] eqn:Hseq.
  pose proof (settle_stage h0 [] evs sig result o all) as Hsettle.
  rewrite app_nil_r in Hsettle. cbn [app] in Hsettle.
  apply Hsettle; [exact Hseq | symmetry; exact Hrun |].
  intros t ->. eapply advance_blocked, Hadv.
Qed.

Lemma later_signal_ignored (h0 done : list event) (sig sig' : signal) (p : process) :
  stage h0 sig done p -> loop_step p (Deliver sig') = p.
Proof.
  intros (o & rest & _ & Hlatch & _ & _). unfold step.
  destruct (exited p) eqn:Hex; [reflexivity |].
  unfold shutdown. rewrite Hlatch. cbn [advance settle]. rewrite app_nil_r.
  destruct p; cbn in *. congruence.
Qed.

Lemma wake_stage (h0 done : list event) (sig : signal) (p : process) (n : nat) :
  stage h0 sig done p ->
  (pending p = [] /\ loop_step p (Wake n) = p) \/
  (pending p <> [] /\ n <> 0%nat /\ loop_step p (Wake n) = p) \/
  (pending p <> [] /\ n = 0%nat /\
   exists evs, stage h0 sig (done ++ evs) (loop_step p (Wake n)) /\
               suspensions evs = 1%nat).
Proof.
  intros (o & rest & Hseq & Hlatch & Hhist & Hcase).
  destruct Hcase as [(Hex & t & Hpend & Hblocked & Hrun) | (Hpend & Hrest & Hex)].
  - right. destruct n as [| n].
    + right. split; [congruence |]. split; [reflexivity |].
      unfold step. rewrite Hex, Hpend, Hlatch, Hhist. cbn [lookup list_lookup delete list_delete].
      pose proof (resume_run t (h0 ++ done)) as Hres.
      pose proof (resume_one_suspension t (h0 ++ done) Hblocked) as H1.
      destruct (resume answer t (h0 ++ done)) as [result evs] eqn:Hresume.
      cbn [snd] in H1. exists evs. split; [| exact H1].
      eapply settle_stage; [exact Hseq | congruence |].
      intros t' ->. destruct t as [[] | X r k | code | msg]; cbn [is_blocked] in Hblocked;
        try contradiction.
      cbn [resume] in Hresume.
      destruct (advance answer (k _) _) as [st evs'] eqn:Hadv.
      injection Hresume as -> <-. eapply advance_blocked, Hadv.
    + left. split; [congruence |]. split; [discriminate |].
      unfold step. rewrite Hex, Hpend. reflexivity.
  - left. split; [exact Hpend |]. unfold step.
    destruct (exited p); [reflexivity |]. rewrite Hpend. reflexivity.
Qed.

Lemma killProcessOnPort_reclamation (port : Z) (h : list event) :
  exists evs,
    run answer (killProcessOnPort platform isNaN port) h = (Returned tt, evs) /\
    reclamation platform port evs.
Proof.
  destruct (run_killProcessOnPort platform isNaN answer port h)
    as (lookup & report & tail & Hrun & Htail & _).
  eexists. split; [exact Hrun |]. exists lookup, report, tail. auto.
Qed.

Lemma reclamation_suspensions (port : Z) (evs : list event) :
  reclamation platform port evs -> (suspensions evs <= 2)%nat.
Proof.
  intros (lookup & report & tail & -> & [-> | (victim & pid' & ->)]);
    destruct platform; cbn; lia.
Qed.

Lemma run_killChildTree (c : child) (h : list event) :
  killed c = false ->
  exists pid', run answer (killChildTree platform c) h =
               (Returned tt, [terminate_event platform c pid']).
Proof.
  intros Hc. unfold killChildTree, terminate_event. rewrite Hc.
  destruct platform;
    unfold spawn, call, mbind, mret, Async_bind, Async_ret; cbn [bind run event_of].
  - exists 0. destruct (answer unit h _). reflexivity.
  - eexists. reflexivity.
Qed.

(** The teardown run on its own, without interruption. *)
Lemma run_teardown (sig : signal) (h0 : list event) :
  killed (frontend sup) = false ->
  killed (backend sup) = false ->
  exists evs,
    run answer (teardown platform isNaN sup (signal_name sig)) h0 = (Exited 0, evs) /\
    orderly_teardown platform sup sig evs.
Proof.
  intros Hf Hb. unfold teardown, orderly_teardown.
  unfold log, sleep, call, mbind, mret, Async_bind, Async_ret.
  cbn [bind run event_of].
  match goal with |- context [run answer (bind (killChildTree _ ?c) ?k) ?h] =>
    destruct (run_killChildTree c h Hf) as (pid1 & H1);
    rewrite (run_bind' answer (killChildTree platform c) k h), H1 end.
  match goal with |- context [run answer (bind (killChildTree _ ?c) ?k) ?h] =>
    destruct (run_killChildTree c h Hb) as (pid2 & H2);
    rewrite (run_bind' answer (killChildTree platform c) k h), H2 end.
  cbn [bind run event_of].
  match goal with |- context [run answer (bind (killProcessOnPort _ _ ?p) ?k) ?h] =>
    destruct (killProcessOnPort_reclamation p h) as (reclaimB & HB & HrB);
    rewrite (run_bind' answer (killProcessOnPort platform isNaN p) k h), HB end.
  match goal with |- context [run answer (bind (killProcessOnPort _ _ ?p) ?k) ?h] =>
    destruct (killProcessOnPort_reclamation p h) as (reclaimF & HF & HrF);
    rewrite (run_bind' answer (killProcessOnPort platform isNaN p) k h), HF end.
  cbn [bind run event_of].
  eexists. split; [reflexivity |].
  exists pid1, pid2, reclaimB, reclaimF. split; [| split; assumption].
  cbn [app]. reflexivity.
Qed.

Lemma orderly_suspensions (sig : signal) (evs : list event) :
  orderly_teardown platform sup sig evs -> (suspensions evs <= 5)%nat.
Proof.
  intros (pid1 & pid2 & reclaimB & reclaimF & -> & HB & HF).
  apply reclamation_suspensions in HB, HF.
  change (ELog ?a ?b ?c :: ?x :: ?y :: ?z :: ?l) with ([ELog a b c; x; y; z] ++ l).
  rewrite !suspensions_app.
  assert (suspensions [ELog "STARTUP" "Shutdown complete. Ports released." cyan; EExit 0]
          = 0%nat) as -> by reflexivity.
  match goal with |- (suspensions ?l + _ <= _)%nat =>
    assert (suspensions l = 1%nat) as -> by (destruct platform; reflexivity) end.
  lia.
Qed.

Lemma exec_stage (h0 : list event) (sig : signal) (inputs : list input) :
  forall done p,
    stage h0 sig done p -> exists done', stage h0 sig done' (loop_exec inputs p).
Proof.
  induction inputs as [| i inputs IH]; intros done p Hp; cbn [exec fold_left].
  - exists done. exact Hp.
  - destruct i as [sig' | n].
    + rewrite (later_signal_ignored h0 done sig sig' p Hp). eapply IH, Hp.
    + destruct (wake_stage h0 done sig p n Hp)
        as [(_ & ->) | [(_ & _ & ->) | (_ & _ & evs & Hp' & _)]].
      * eapply IH, Hp.
      * eapply IH, Hp.
      * eapply IH, Hp'.
Qed.

Lemma exec_before_signal (h0 : list event) (inputs : list input) :
  first_signal inputs = None -> loop_exec inputs (running h0) = running h0.
Proof.
  induction inputs as [| [sig | n] inputs IH]; cbn [first_signal exec fold_left];
    [reflexivity | discriminate |].
  intros Hnone. cbn [step running exited pending lookup list_lookup].
  apply IH, Hnone.
Qed.

Lemma exec_after_signal (h0 : list event) (sig : signal) (inputs : list input) :
  first_signal inputs = Some sig ->
  exists done, stage h0 sig done (loop_exec inputs (running h0)).
Proof.
  induction inputs as [| [sig' | n] inputs IH]; cbn [first_signal exec fold_left];
    [discriminate | |].
  - intros [= ->]. destruct (first_signal_stage h0 sig) as (done & Hp & _).
    eapply exec_stage, Hp.
  - intros Hsome. cbn [step running exited pending lookup list_lookup].
    apply IH, Hsome.
Qed.

Lemma wakes_finish (h0 : list event) (sig : signal) (n : nat) :
  forall done p,
    stage h0 sig done p ->
    (suspensions (snd (run answer (teardown platform isNaN sup (signal_name sig)) h0))
       <= suspensions done + n)%nat ->
    exists done',
      stage h0 sig done' (loop_exec (repeat (Wake 0) n) p) /\
      pending (loop_exec (repeat (Wake 0) n) p) = [].
Proof.
  induction n as [| n IH]; intros done p Hp Hbound; cbn [repeat exec fold_left].
  - exists done. split; [exact Hp |].
    destruct Hp as (o & rest & Hseq & _ & _ & Hcase).
    destruct Hcase as [(_ & t & _ & Hblocked & Hrun) | (Hpend & _)]; [| exact Hpend].
    pose proof (run_blocked t (h0 ++ done) Hblocked) as H1.
    rewrite Hseq, Hrun in *. cbn [snd] in *. rewrite suspensions_app in Hbound. lia.
  - destruct (wake_stage h0 done sig p 0 Hp)
      as [(Hpend & ->) | [(_ & Hn & _) | (_ & _ & evs & Hp' & H1)]].
    + apply (IH done p Hp).
      destruct Hp as (o & rest & Hseq & _ & _ & Hcase).
      destruct Hcase as [(_ & t & Ht & _) | (_ & -> & _)]; [congruence |].
      rewrite Hseq, app_nil_r. cbn [snd]. lia.
    + contradiction.
    + apply (IH (done ++ evs) _ Hp'). rewrite suspensions_app. lia.
Qed.

Lemma returns_bind {A B} (R : A -> Prop) (Q : B -> Prop)
    (t : Async A) (k : A -> Async B) :
  returns R t -> (forall a, R a -> returns Q (k a)) -> returns Q (bind t k).
Proof.
  intros Ht Hk. induction Ht as [a Ha | X r c _ IH | code | msg]; cbn [bind].
  - apply Hk, Ha.
  - apply returns_Do, IH.
  - apply returns_Exit.
  - apply returns_Raise.
Qed.

Lemma returns_anything {A} (t : Async A) : returns (fun _ => True) t.
Proof.
  induction t as [a | X r c IH | code | msg].
  - apply returns_Ret. exact I.
  - apply returns_Do, IH.
  - apply returns_Exit.
  - apply returns_Raise.
Qed.

Lemma returns_then {A B} (Q : B -> Prop) (t : Async A) (k : A -> Async B) :
  (forall a, returns Q (k a)) -> returns Q (bind t k).
Proof.
  intros Hk. apply (returns_bind (fun _ => True)); [apply returns_anything | auto].
Qed.

Lemma returns_run {A} (Q : A -> Prop) (t : Async A) (h evs : list event) (a : A) :
  returns Q t -> run answer t h = (Returned a, evs) -> Q a.
Proof.
  intros Ht. revert h evs.
  induction Ht as [a' Ha | X r c _ IH | code | msg]; intros h evs; cbn [run].
  - intros [= <- _]. exact Ha.
  - destruct (run answer (c _) _) as [o evs'] eqn:Hrun.
    intros [= -> _]. eapply IH, Hrun.
  - discriminate.
  - discriminate.
Qed.

Lemma spawn_fresh (cmd : string) (args : list string) (opts : spawn_options) :
  returns (fun c => killed c = false) (spawn cmd args opts).
Proof. apply returns_Do. intros x. apply returns_Ret. reflexivity. Qed.

(** The children handed to the signal handlers have not been killed. *)
Lemma startServices_fresh (h : list event) (evs : list event) :
  run answer (startServices platform isNaN) h = (Returned sup, evs) ->
  killed (backend sup) = false /\ killed (frontend sup) = false.
Proof.
  apply (returns_run
           (fun s => killed (backend s) = false /\ killed (frontend s) = false)).
  unfold startServices, mbind, Async_bind.
  apply returns_then. intros _.
  apply returns_then. intros ports.
  do 5 (apply returns_then; intros _).
  apply (returns_bind (fun c => killed c = false)); [apply spawn_fresh |].
  intros backend Hbackend.
  do 3 (apply returns_then; intros ?).
  apply (returns_bind (fun c => killed c = false)); [apply spawn_fresh |].
  intros frontend Hfrontend.
  do 3 (apply returns_then; intros _).
  apply returns_Ret. auto.
Qed.

(** C3: after a completed startup, however many signals arrive and
    whenever they arrive (also while the first invocation of [shutdown]
    is suspended), the teardown is performed once: the events after the
    first signal are at every moment a prefix of one fixed sequence,
    which is the shutdown notice, the terminate of the frontend and of
    the backend child (SIGTERM, and on win32 at once the kill of the
    whole process tree), the wait of 1.5 seconds, the reclamation of
    the backend port and of the frontend port, the completion notice
    and the exit with status 0; a process that has ended has ended with
    status 0 at the end of that sequence; and once the pending waits
    have been answered (at most five) the process has ended. *)
Theorem shutdown_tears_down_once (h0 : list event) (sig : signal) :
  run answer (startServices platform isNaN) [] = (Returned sup, h0) ->
  exists sequence,
    orderly_teardown platform sup sig sequence /\
    (forall inputs,
       first_signal inputs = None -> loop_exec inputs (running h0) = running h0) /\
    (forall inputs,
       first_signal inputs = Some sig ->
       exists done rest,
         sequence = done ++ rest /\
         history (loop_exec inputs (running h0)) = h0 ++ done /\
         (exited (loop_exec inputs (running h0)) = Some 0 /\ rest = [] \/
          exited (loop_exec inputs (running h0)) = None /\ rest <> [])) /\
    (forall n,
       (5 <= n)%nat ->
       exited (loop_exec (Deliver sig :: repeat (Wake 0) n) (running h0)) = Some 0 /\
       history (loop_exec (Deliver sig :: repeat (Wake 0) n) (running h0)) =
         h0 ++ sequence).
Proof.
  intros Hstart. apply startServices_fresh in Hstart. destruct Hstart as [Hb Hf].
  destruct (run_teardown sig h0 Hf Hb) as (sequence & Hseq & Horderly).
  exists sequence. split; [exact Horderly |].
  split; [intros inputs; apply exec_before_signal |]. split.
  - intros inputs Hfirst.
    destruct (exec_after_signal h0 sig inputs Hfirst)
      as (done & o & rest & Hrun & _ & Hhist & Hcase).
    rewrite Hseq in Hrun. injection Hrun as <- ->.
    exists done, rest. split; [reflexivity |]. split; [exact Hhist |].
    destruct Hcase as [(Hex & t & _ & Hblocked & Hrest) | (_ & -> & Hex)].
    + right. split; [exact Hex |]. intros ->.
      pose proof (run_blocked t (h0 ++ done) Hblocked) as H1.
      rewrite Hrest in H1. cbn in H1. lia.
    + left. auto.
  - intros n Hn. cbn [exec fold_left].
    destruct (first_signal_stage h0 sig) as (done & Hp & H0).
    destruct (wakes_finish h0 sig n done _ Hp) as (done' & Hp' & Hpend).
    { rewrite Hseq. cbn [snd]. apply orderly_suspensions in Horderly. lia. }
    destruct Hp' as (o & rest & Hrun & _ & Hhist & Hcase).
    rewrite Hseq in Hrun. injection Hrun as <- ->.
    destruct Hcase as [(_ & t & Ht & _) | (_ & -> & Hex)]; [congruence |].
    rewrite app_nil_r. auto.
Qed.

End EventLoopFacts.

Section ShutdownExamples.
Import StartDev.

Lemma shutdown_tears_down_once_witness :
  let answer := scripted (fun _ => true) true SpawnError in
  let started := run answer (startServices Posix (fun _ => true)) [] in
  let sup := match fst started with
             | Returned s => s
             | _ => example_supervisor
             end in
  let h0 := snd started in
  started = (Returned sup, h0) /\
  exists sequence,
    orderly_teardown Posix sup SIGINT sequence /\
    (forall inputs,
       first_signal inputs = None ->
       exec Posix (fun _ => true) answer sup inputs (running h0) = running h0) /\
    (forall inputs,
       first_signal inputs = Some SIGINT ->
       exists done rest,
         sequence = done ++ rest /\
         history (exec Posix (fun _ => true) answer sup inputs (running h0)) = h0 ++ done /\
         (exited (exec Posix (fun _ => true) answer sup inputs (running h0)) = Some 0 /\
          rest = [] \/
          exited (exec Posix (fun _ => true) answer sup inputs (running h0)) = None /\
          rest <> [])) /\
    (forall n,
       (5 <= n)%nat ->
       exited (exec Posix (fun _ => true) answer sup
                 (Deliver SIGINT :: repeat (Wake 0) n) (running h0)) = Some 0 /\
       history (exec Posix (fun _ => true) answer sup
                  (Deliver SIGINT :: repeat (Wake 0) n) (running h0)) = h0 ++ sequence).
Proof.
  intros answer started sup h0.
  assert (Hstart : started = (Returned sup, h0)) by (vm_compute; reflexivity).
  split; [exact Hstart |].
  apply (shutdown_tears_down_once Posix (fun _ => true) answer sup h0 SIGINT Hstart).
Defined.

End ShutdownExamples.

(** ** Port allocation: probes and outcomes *)

Section AllocatorBehaviour.
Import FindFreePorts AllocatorFacts.

Variable answer : oracle.

Lemma only_scan_within (P : event -> Prop) (n : nat) (port : Z) (host msg : string) :
  (forall p fr, port <= p < port + Z.of_nat n -> P (EListen p host fr)) ->
  only P (scan n port host (Raise msg)).
Proof.
  revert port. induction n as [| n IH]; intros port HP; cbn [scan].
  - apply only_Raise.
  - apply only_bind.
    + apply only_call. intros fr. apply HP. lia.
    + intros [|]; [apply only_Ret |]. apply IH. intros p fr Hp. apply HP. lia.
Qed.

Lemma only_findFreePort_within (P : event -> Prop) (q : port_query) :
  (forall p fr, preferred q = Some p -> P (EListen p (default "127.0.0.1" (host q)) fr)) ->
  (forall p fr, default 3000 (rangeStart q) <= p <= default 3999 (rangeEnd q) ->
                P (EListen p (default "127.0.0.1" (host q)) fr)) ->
  only P (findFreePort q).
Proof.
  intros Hpref Hrange. unfold findFreePort.
  assert (Hscan : only P
            (scan (Z.to_nat (default 3999 (rangeEnd q) - default 3000 (rangeStart q) + 1))
               (default 3000 (rangeStart q)) (default "127.0.0.1" (host q))
               (Raise ("No free port found in range " +:+
                       str (default 3000 (rangeStart q)) +:+ "-" +:+
                       str (default 3999 (rangeEnd q)))))).
  { apply only_scan_within. intros p fr Hp. apply Hrange. lia. }
  destruct (preferred q) as [p |]; [| exact Hscan].
  destruct (p =? 0); [exact Hscan |].
  apply only_bind.
  - apply only_call. intros fr. apply Hpref. reflexivity.
  - intros [|]; [apply only_Ret | exact Hscan].
Qed.

(** X1: whatever the ports answer, [findFreePorts] does nothing but bind
    probes on the configured host, and only of the two preferred ports
    and of ports inside the two configured ranges. *)
Theorem findFreePorts_probes_configured_ports (o : options) (h : list event) :
  Forall (configured_probe o) (snd (run answer (findFreePorts o) h)).
Proof.
  apply only_run. unfold findFreePorts.
  apply only_bind; [| intros b; apply only_bind; [| intros f1]].
  - apply only_findFreePort_within; cbn [preferred host rangeStart rangeEnd default].
    + intros p fr [= <-]. exists (backend_preferred o), fr. auto.
    + intros p fr Hp. exists p, fr. auto.
  - apply only_findFreePort_within; cbn [preferred host rangeStart rangeEnd default].
    + intros p fr [= <-]. exists (frontend_preferred o), fr. auto.
    + intros p fr Hp. exists p, fr. auto 6.
  - destruct (f1 =? b); [| apply only_Ret].
    apply only_bind; [| intros f; apply only_Ret].
    apply only_findFreePort_within; cbn [preferred host rangeStart rangeEnd default].
    + discriminate.
    + intros p fr Hp. exists p, fr. split; [reflexivity |]. right. right. right. unfold id in Hp. lia.
Qed.

Lemma scan_probed_free (n : nat) (port : Z) (host msg : string) (h evs : list event)
    (p : Z) :
  run answer (scan n port host (Raise msg)) h = (Returned p, evs) ->
  In (EListen p host true) evs.
Proof.
  revert port h evs. induction n as [| n IH]; intros port h evs; [discriminate |].
  cbn [scan]. unfold isPortFree. rewrite run_bind, run_call.
  destruct (answer bool h (Listen port host)) eqn:Hfree.
  - cbn [run event_of fst snd app]. intros [= <- <-]. left. reflexivity.
  - destruct (run answer (scan n (port + 1) host (Raise msg)) _) as [o e2] eqn:Hrun.
    destruct o; try discriminate. intros [= <- <-].
    right. eapply IH, Hrun.
Qed.

Lemma findFreePort_probed_free (q : port_query) (h evs : list event) (p : Z) :
  run answer (findFreePort q) h = (Returned p, evs) ->
  In (EListen p (default "127.0.0.1" (host q)) true) evs.
Proof.
  unfold findFreePort.
  destruct (preferred q) as [p0 |]; [| apply scan_probed_free].
  destruct (p0 =? 0); [apply scan_probed_free |].
  unfold isPortFree. rewrite run_bind, run_call.
  destruct (answer bool h (Listen p0 _)) eqn:Hfree.
  - cbn [run event_of fst snd app]. intros [= <- <-]. left. reflexivity.
  - destruct (run answer (scan _ _ _ _) _) as [o e2] eqn:Hrun.
    destruct o; try discriminate. intros [= <- <-].
    right. eapply scan_probed_free, Hrun.
Qed.

(** X2: even when ports change status while the allocator runs, the two
    ports it returns differ, and each was probed on the configured host
    and found free at some point of the call. *)
Theorem findFreePorts_returns_probed_ports (o : options) (h evs : list event) (b f : Z) :
  run answer (findFreePorts o) h = (Returned (b, f), evs) ->
  b <> f /\
  In (EListen b (host_of o) true) evs /\
  In (EListen f (host_of o) true) evs.
Proof.
  intros Hrun. split; [eapply findFreePorts_distinct_any_status, Hrun |].
  revert Hrun. unfold findFreePorts. rewrite run_bind.
  destruct (run answer (findFreePort _) h) as [[b1 | c | m] e1] eqn:Hb; try discriminate.
  apply findFreePort_probed_free in Hb. cbn [host default from_option id] in Hb.
  rewrite run_bind.
  destruct (run answer (findFreePort _) (h ++ e1)) as [[f1 | c | m] e2] eqn:Hf;
    try discriminate.
  apply findFreePort_probed_free in Hf. cbn [host default from_option id] in Hf.
  destruct (f1 =? b1).
  - rewrite run_bind.
    destruct (run answer (findFreePort _) ((h ++ e1) ++ e2)) as [[f2 | c | m] e3] eqn:Hf2;
      try discriminate.
    apply findFreePort_probed_free in Hf2. cbn [host default from_option id] in Hf2.
    cbn [run fst snd app]. intros [= <- <- <-]. rewrite app_nil_r. split.
    + apply in_or_app. left. exact Hb.
    + apply in_or_app. right. apply in_or_app. right. exact Hf2.
  - cbn [run fst snd app]. intros [= <- <- <-]. rewrite app_nil_r. split.
    + apply in_or_app. left. exact Hb.
    + apply in_or_app. right. exact Hf.
Qed.

Variable free : Z -> bool.
Hypothesis Hfixed : fixed_ports answer free.

Lemma first_free_all_busy (n : nat) (port : Z) :
  (forall q, port <= q < port + Z.of_nat n -> free q = false) ->
  first_free free n port = None.
Proof.
  revert port. induction n as [| n IH]; intros port Hbusy; cbn [first_free]; [reflexivity |].
  rewrite (Hbusy port) by lia. apply IH. intros q Hq. apply Hbusy. lia.
Qed.

(** X3: under fixed port status, and for a query all of whose ports
    are valid ones (0..65535), [findFreePort] throws exactly when it
    falls back to its range and no port of the range is free (always so
    for an empty range), and the error names the range. *)
Theorem findFreePort_throws_iff (q : port_query) (h : list event) (msg : string) :
  valid_query q = true ->
  fst (run answer (findFreePort q) h) = Threw msg <->
  falls_back free q = true /\
  (forall port, default 3000 (rangeStart q) <= port <= default 3999 (rangeEnd q) ->
                free port = false) /\
  msg = no_free_port (default 3000 (rangeStart q)) (default 3999 (rangeEnd q)).
Proof.
  intros _. rewrite (run_findFreePort answer free Hfixed). unfold falls_back, no_free_port.
  assert (Hsearch : search_outcome free q = Threw msg <->
            (forall port, default 3000 (rangeStart q) <= port <= default 3999 (rangeEnd q) ->
                          free port = false) /\
            msg = "No free port found in range " +:+ str (default 3000 (rangeStart q)) +:+
                  "-" +:+ str (default 3999 (rangeEnd q))).
  { split.
    - intros Hthrow. split; [eapply search_throws; eauto |].
      unfold search_outcome in Hthrow. destruct (first_free _ _ _); congruence.
    - intros [Hbusy ->]. unfold search_outcome.
      rewrite first_free_all_busy; [reflexivity |]. intros p Hp. apply Hbusy. lia. }
  destruct (preferred q) as [p |].
  - destruct (unusable free p).
    + rewrite Hsearch. tauto.
    + split; [discriminate | intros [[=] _]].
  - rewrite Hsearch. tauto.
Qed.

(** X4: under fixed port status, two usable and distinct preferred ports
    are returned as they are, after one probe of each and nothing
    else. *)
Theorem findFreePorts_keeps_preferred (o : options) (h : list event) :
  unusable free (backend_preferred o) = false ->
  unusable free (frontend_preferred o) = false ->
  backend_preferred o <> frontend_preferred o ->
  run answer (findFreePorts o) h =
    (Returned (backend_preferred o, frontend_preferred o),
     [EListen (backend_preferred o) (host_of o) true;
      EListen (frontend_preferred o) (host_of o) true]).
Proof.
  unfold unusable. intros Hb Hf Hne.
  apply orb_false_elim in Hb, Hf. destruct Hb as [Hb0 Hbfree], Hf as [Hf0 Hffree].
  apply negb_false_iff in Hbfree, Hffree.
  unfold findFreePorts, findFreePort, isPortFree, call, mbind, mret, Async_bind, Async_ret.
  cbn [preferred host rangeStart rangeEnd default]. rewrite Hb0, Hf0.
  cbn [bind run event_of]. rewrite !Hfixed, Hbfree. cbn [bind run event_of].
  rewrite !Hfixed, Hffree. cbn [bind run event_of].
  assert (Hneq : (frontend_preferred o =? backend_preferred o) = false)
    by (apply Z.eqb_neq; congruence).
  rewrite Hneq. reflexivity.
Qed.

(** X5: under fixed port status, when both roles prefer the same usable
    port, a valid one, and the frontend range ends at a valid port, the
    backend keeps the preferred port and the frontend is given the
    lowest free port above it inside the frontend range (free ports of
    the range below it are passed over); the call throws, naming the
    range scanned, if there is none. *)
Theorem findFreePorts_shared_preference (o : options) (h : list event) :
  valid_port (backend_preferred o) = true ->
  valid_port (frontend_end o) = true ->
  unusable free (backend_preferred o) = false ->
  frontend_preferred o = backend_preferred o ->
  let lo := Z.max (frontend_start o) (backend_preferred o + 1) in
  fst (run answer (findFreePorts o) h) =
    match first_free free (Z.to_nat (frontend_end o - lo + 1)) lo with
    | Some f => Returned (backend_preferred o, f)
    | None => Threw (no_free_port lo (frontend_end o))
    end.
Proof.
  intros _ _ Hb Hsame lo. rewrite (run_findFreePorts answer free Hfixed).
  unfold allocation, pick. cbn [backend_query frontend_query rescan_query preferred].
  rewrite Hsame, Hb. cbn [through]. rewrite Z.eqb_refl.
  unfold search_outcome, rescan_query, no_free_port.
  cbn [rangeStart rangeEnd default from_option id]. fold lo.
  destruct (first_free free _ lo); reflexivity.
Qed.

End AllocatorBehaviour.

Section AllocatorBehaviourExamples.
Import FindFreePorts StartDev AllocatorFacts.

Lemma findFreePorts_returns_probed_ports_witness :
  run alternating (findFreePorts no_opts) [] =
    (Returned (3001, 3000),
     [EListen 3005 "127.0.0.1" false; EListen 3001 "127.0.0.1" true;
      EListen 3000 "127.0.0.1" false; EListen 3000 "127.0.0.1" true]) /\
  3001 <> 3000 /\
  In (EListen 3001 "127.0.0.1" true)
     [EListen 3005 "127.0.0.1" false; EListen 3001 "127.0.0.1" true;
      EListen 3000 "127.0.0.1" false; EListen 3000 "127.0.0.1" true] /\
  In (EListen 3000 "127.0.0.1" true)
     [EListen 3005 "127.0.0.1" false; EListen 3001 "127.0.0.1" true;
      EListen 3000 "127.0.0.1" false; EListen 3000 "127.0.0.1" true].
Proof.
  assert (Hrun : run alternating (findFreePorts no_opts) [] =
            (Returned (3001, 3000),
             [EListen 3005 "127.0.0.1" false; EListen 3001 "127.0.0.1" true;
              EListen 3000 "127.0.0.1" false; EListen 3000 "127.0.0.1" true]))
    by (vm_compute; reflexivity).
  split; [exact Hrun |].
  apply (findFreePorts_returns_probed_ports alternating no_opts [] _ 3001 3000 Hrun).
Defined.

Lemma findFreePort_throws_iff_witness :
  valid_query three_ports = true /\
  (fst (run (scripted (fun _ => false) true SpawnError) (findFreePort three_ports) []) =
    Threw "No free port found in range 3000-3002" <->
  falls_back (fun _ => false) three_ports = true /\
  (forall port, default 3000 (rangeStart three_ports) <= port
                <= default 3999 (rangeEnd three_ports) ->
                (fun _ : Z => false) port = false) /\
  "No free port found in range 3000-3002" =
    no_free_port (default 3000 (rangeStart three_ports))
                 (default 3999 (rangeEnd three_ports))).
Proof.
  split; [reflexivity |].
  apply (findFreePort_throws_iff (scripted (fun _ => false) true SpawnError)
           (fun _ => false) (fun _ _ _ => eq_refl) three_ports []).
  reflexivity.
Defined.

Lemma findFreePorts_keeps_preferred_witness :
  run (scripted (fun _ => true) true SpawnError) (findFreePorts no_opts) [] =
    (Returned (3005, 3000),
     [EListen 3005 "127.0.0.1" true; EListen 3000 "127.0.0.1" true]).
Proof.
  apply (findFreePorts_keeps_preferred (scripted (fun _ => true) true SpawnError)
           (fun _ => true) (fun _ _ _ => eq_refl) no_opts []).
  - reflexivity.
  - reflexivity.
  - vm_compute. discriminate.
Defined.

Lemma findFreePorts_shared_preference_witness :
  fst (run (scripted (fun _ => true) true SpawnError) (findFreePorts colliding_options) []) =
    Returned (3005, 3006).
Proof.
  apply (findFreePorts_shared_preference (scripted (fun _ => true) true SpawnError)
           (fun _ => true) (fun _ _ _ => eq_refl) colliding_options []).
  - reflexivity.
  - reflexivity.
  - reflexivity.
  - reflexivity.
Defined.

End AllocatorBehaviourExamples.

(** ** Startup traces and the kill decision *)

Section SupervisorBehaviour.
Import StartDev SupervisorFacts.

Variable platform : platform_t.
Variable isNaN : string -> bool.
Variable answer : oracle.

Lemma run_poll (url : string) (remaining : nat) (i : Z) (h : list event) :
  exists k,
    (k <= remaining)%nat /\
    ((k < remaining)%nat /\
     run answer (poll url remaining i) h =
       (Returned true,
        failed_attempts url k i ++
        [EGet (status_url url) true; ELog "STARTUP" "Backend is ready!" green]) \/
     k = remaining /\
     run answer (poll url remaining i) h =
       (Returned false,
        failed_attempts url remaining i ++
        [ELog "STARTUP" "Backend failed to start within 30 seconds" red])).
Proof.
  revert i h. induction remaining as [| n IH]; intros i h.
  - exists 0%nat. split; [lia |]. right. split; reflexivity.
  - cbn [poll]. unfold log, sleep, call, mbind, mret, Async_bind, Async_ret.
    cbn [bind run event_of].
    destruct (answer bool h (HttpGet (status_url url))) eqn:Hok.
    + exists 0%nat. split; [lia |]. left. split; [lia |].
      cbn [bind run event_of failed_attempts app]. reflexivity.
    + destruct (i =? 0) eqn:Hi; cbn [bind run event_of].
      * match goal with |- context [run answer (poll url n (i + 1)) ?h'] =>
          destruct (IH (i + 1) h') as (k & Hk & Hcase) end.
        exists (S k). split; [lia |]. cbn [failed_attempts]. rewrite Hi.
        destruct Hcase as [(Hlt & ->) | (-> & ->)].
        -- left. split; [lia | reflexivity].
        -- right. split; reflexivity.
      * match goal with |- context [run answer (poll url n (i + 1)) ?h'] =>
          destruct (IH (i + 1) h') as (k & Hk & Hcase) end.
        exists (S k). split; [lia |]. cbn [failed_attempts]. rewrite Hi.
        destruct Hcase as [(Hlt & ->) | (-> & ->)].
        -- left. split; [lia | reflexivity].
        -- right. split; reflexivity.
Qed.

(** X6: [waitForBackend] makes at most [maxRetries] requests, whatever the
    backend answers: it returns [true] at the first request that
    succeeds, having waited one second after each earlier failure and
    written the waiting notice once, after the first failure only; it
    returns [false] when all [maxRetries] requests failed. *)
Theorem waitForBackend_outcome (url : string) (maxRetries : nat) (h : list event) :
  exists failures,
    (failures <= maxRetries)%nat /\
    ((failures < maxRetries)%nat /\
     run answer (waitForBackend url maxRetries) h =
       (Returned true,
        failed_attempts url failures 0 ++
        [EGet (status_url url) true; ELog "STARTUP" "Backend is ready!" green]) \/
     failures = maxRetries /\
     run answer (waitForBackend url maxRetries) h =
       (Returned false,
        failed_attempts url maxRetries 0 ++
        [ELog "STARTUP" "Backend failed to start within 30 seconds" red])).
Proof. apply run_poll. Qed.

Lemma run_log_each (lines : list string) (c : color) (h : list event) :
  run answer (log_each lines c) h =
    (Returned tt, map (fun line => ELog "STARTUP" line c) lines).
Proof.
  revert h. induction lines as [| line rest IH]; intros h; [reflexivity |].
  cbn [log_each]. unfold log, call, mbind, Async_bind. cbn [bind run event_of map].
  rewrite IH. reflexivity.
Qed.

Lemma run_announce (b f : Z) (h : list event) :
  run answer (announce b f) h =
    (Returned tt, banner b f (external_ipv4 (answer _ h NetworkInterfaces))).
Proof.
  unfold announce, getNetworkIPs, banner, network_lines.
  unfold log, call, mbind, mret, Async_bind, Async_ret. cbn [bind run event_of].
  fold (external_ipv4 (answer _ h NetworkInterfaces)).
  set (ips := external_ipv4 _).
  rewrite (run_bind' answer (log_each _ green)), run_log_each. cbn [bind run event_of].
  rewrite (run_bind' answer (log_each _ blue)), run_log_each. cbn [bind run event_of].
  rewrite !map_map.
  repeat match goal with |- context [@Returned unit ?u] =>
    lazymatch u with tt => fail | _ => destruct u end end.
  cbn [app]. reflexivity.
Qed.

(** X7: [getNetworkIPs] returns an address exactly when some interface
    entry carries it with [internal] false and family ["IPv4"], so
    loopback and IPv6 addresses are never listed. *)
Theorem getNetworkIPs_external_ipv4 (h : list event) (ip : string) :
  exists ips,
    run answer getNetworkIPs h = (Returned ips, [ENetworkInterfaces]) /\
    (In ip ips <->
     exists name entries i,
       In (name, entries) (answer _ h NetworkInterfaces) /\ In i entries /\
       internal i = false /\ family i = "IPv4" /\ address i = ip).
Proof.
  eexists. split; [reflexivity |].
  rewrite in_flat_map. split.
  - intros ([name entries] & Hentry & Hin). cbn [snd] in Hin.
    apply in_flat_map in Hin. destruct Hin as (i & Hi & Hip).
    destruct (internal i) eqn:Hint; cbn [negb andb] in Hip; [contradiction |].
    destruct (String.eqb_spec (family i) "IPv4") as [Hfam | Hfam]; [| contradiction].
    destruct Hip as [<- | []]. exists name, entries, i. auto.
  - intros (name & entries & i & Hentry & Hi & Hint & Hfam & <-).
    exists (name, entries). split; [exact Hentry |]. cbn [snd].
    apply in_flat_map. exists i. split; [exact Hi |].
    rewrite Hint, Hfam. cbn. auto.
Qed.

Lemma exited_leaves_exit {A} (t : Async A) (h evs : list event) (code : Z) :
  run answer t h = (Exited code, evs) -> In (EExit code) evs.
Proof.
  revert h evs. induction t as [a | X r k IH | c | msg]; intros h evs; cbn [run].
  - discriminate.
  - destruct (run answer (k _) _) as [o evs'] eqn:Hrun.
    intros [= -> <-]. right. eapply IH, Hrun.
  - intros [= <- <-]. left. reflexivity.
  - discriminate.
Qed.

Lemma findFreePorts_never_exits (o : FindFreePorts.options) (h evs : list event) (code : Z) :
  run answer (FindFreePorts.findFreePorts o) h <> (Exited code, evs).
Proof.
  intros Hrun. pose proof (findFreePorts_preparatory answer o h) as Hp.
  rewrite Hrun in Hp. cbn [snd] in Hp. apply exited_leaves_exit in Hrun.
  rewrite forallb_forall in Hp. apply Hp in Hrun. discriminate Hrun.
Qed.

(** The events up to the spawn of the backend. *)
Lemma run_startServices_cases :
  (exists msg allocation,
     run answer (FindFreePorts.findFreePorts startup_options)
       [ELog "STARTUP" "Starting SnapTrade Admin Panel..." bright] = (Threw msg, allocation) /\
     run answer (startServices platform isNaN) [] =
       (Threw msg, ELog "STARTUP" "Starting SnapTrade Admin Panel..." bright :: allocation)) \/
  (exists b f allocation pre backendPid failures,
     run answer (FindFreePorts.findFreePorts startup_options)
       [ELog "STARTUP" "Starting SnapTrade Admin Panel..." bright] =
       (Returned (b, f), allocation) /\
     forallb preparatory pre = true /\
     (failures <= 30)%nat /\
     ((failures = 30%nat /\
       run answer (startServices platform isNaN) [] =
         (Exited 1,
          pre ++ ESpawn "npm" ["run"; "dev"] (backend_spawn_options b f) backendPid ::
          failed_attempts (backend_url b) 30 0 ++ abandon backendPid)) \/
      ((failures < 30)%nat /\
       exists frontendPid ips,
         run answer (startServices platform isNaN) [] =
           (Returned {| backend := {| pid := backendPid; killed := false |};
                        frontend := {| pid := frontendPid; killed := false |};
                        BACKEND_PORT := b; FRONTEND_PORT := f |},
            pre ++ ESpawn "npm" ["run"; "dev"] (backend_spawn_options b f) backendPid ::
            failed_attempts (backend_url b) failures 0 ++
            go_ahead b f frontendPid ++ banner b f ips)))).
Proof.
  unfold startServices.
  unfold log, call, mbind, mret, Async_bind, Async_ret.
  cbn [bind run event_of app]. rewrite run_bind'.
  destruct (run answer (FindFreePorts.findFreePorts startup_options) _)
    as [[[b f] | code | msg] allocation] eqn:Halloc.
  - right. cbn [fst snd bind run event_of].
    pose proof (findFreePorts_preparatory answer startup_options
                  [ELog "STARTUP" "Starting SnapTrade Admin Panel..." bright]) as HpA.
    rewrite Halloc in HpA. cbn [snd] in HpA.
    match goal with
    | |- context [run answer (bind (killProcessOnPort ?pl ?nan ?p) ?k) ?h] =>
        destruct (killProcessOnPort_preparatory pl nan answer p h) as (evsB & HB & HpB);
        rewrite (run_bind' answer (killProcessOnPort pl nan p) k h), HB
    end.
    match goal with
    | |- context [run answer (bind (killProcessOnPort ?pl ?nan ?p) ?k) ?h] =>
        destruct (killProcessOnPort_preparatory pl nan answer p h) as (evsF & HF & HpF);
        rewrite (run_bind' answer (killProcessOnPort pl nan p) k h), HF
    end.
    unfold spawn, waitForBackend, call, mbind, mret, Async_bind, Async_ret.
    cbn [bind run event_of pid].
    match goal with
    | |- context [ESpawn "npm" ["run"; "dev"] _ ?p] => set (backendPid := p)
    end.
    exists b, f, allocation,
      (ELog "STARTUP" "Starting SnapTrade Admin Panel..." bright :: allocation ++
       ELog "CLEANUP" "Checking for existing processes on ports..." cyan :: evsB ++
       evsF ++
       [ELog "CLEANUP" "Port cleanup complete" cyan;
        ELog "BACKEND" "Starting backend server..." blue]), backendPid.
    match goal with
    | |- context [run answer (bind (poll ?u ?n ?i) ?k) ?h] =>
        destruct (run_poll u n i h) as (failures & Hle & Hcase);
        rewrite (run_bind' answer (poll u n i) k h)
    end.
    exists failures. split; [reflexivity |].
    split; [simpl; rewrite forallb_app; simpl;
            rewrite !forallb_app, HpA, HpB, HpF; reflexivity |].
    split; [exact Hle |].
    destruct Hcase as [(Hlt & ->) | (-> & ->)].
    + right. split; [exact Hlt |].
      cbn [negb bind run event_of pid].
      match goal with
      | |- context [ESpawn "npm" ["start"] _ ?p] => set (frontendPid := p)
      end.
      match goal with
      | |- context [run answer (bind (announce ?b' ?f') ?k) ?h] =>
          rewrite (run_bind' answer (announce b' f') k h), (run_announce b' f' h)
      end.
      cbn [bind run event_of].
      match goal with
      | |- context [banner _ _ ?l] => set (ips := l)
      end.
      exists frontendPid, ips. f_equal. unfold go_ahead.
      cbn [app]. repeat (rewrite <- app_assoc; cbn [app]).
      rewrite app_nil_r. reflexivity.
    + left. split; [reflexivity |].
      cbn [negb bind run event_of pid]. f_equal. unfold abandon.
      cbn [app]. repeat (rewrite <- app_assoc; cbn [app]). reflexivity.
  - exfalso. eapply findFreePorts_never_exits, Halloc.
  - left. exists msg, allocation. split; reflexivity.
Qed.

Lemma gated_from_quiet (backend ready : bool) (evs : list event) :
  existsb is_frontend_spawn evs = false -> gated_from backend ready evs = true.
Proof.
  revert backend ready. induction evs as [| e evs IH]; intros backend ready; [reflexivity |].
  cbn [existsb gated_from]. intros H. apply orb_false_elim in H. destruct H as [-> Hevs].
  cbn [negb orb andb]. apply IH, Hevs.
Qed.

Lemma gated_from_app (backend ready : bool) (evs rest : list event) :
  existsb is_frontend_spawn evs = false ->
  gated_from backend ready (evs ++ rest) =
    gated_from (backend || existsb is_backend_spawn evs)
               (ready || existsb is_ready_probe evs) rest.
Proof.
  revert backend ready. induction evs as [| e evs IH]; intros backend ready.
  - intros _. cbn. rewrite !orb_false_r. reflexivity.
  - cbn [existsb gated_from app]. intros H. apply orb_false_elim in H.
    destruct H as [-> Hevs]. cbn [negb orb andb]. rewrite IH by exact Hevs.
    rewrite !orb_assoc. reflexivity.
Qed.

Lemma gated_from_spec (backend ready : bool) (evs before after : list event) (e : event) :
  gated_from backend ready evs = true ->
  evs = before ++ e :: after ->
  is_frontend_spawn e = true ->
  (backend || existsb is_backend_spawn before) &&
  (ready || existsb is_ready_probe before) = true.
Proof.
  revert backend ready evs. induction before as [| x before IH]; intros backend ready evs.
  - intros Hg -> He. cbn [app gated_from] in Hg. rewrite He in Hg.
    cbn [negb orb] in Hg. apply andb_prop in Hg. destruct Hg as [Hg _].
    cbn [existsb]. rewrite !orb_false_r. exact Hg.
  - intros Hg -> He. cbn [app gated_from] in Hg.
    apply andb_prop in Hg. destruct Hg as [_ Hg].
    specialize (IH _ _ _ Hg eq_refl He). cbn [existsb].
    rewrite !orb_assoc. exact IH.
Qed.

Lemma banner_quiet (b f : Z) (ips : list string) :
  existsb is_frontend_spawn (banner b f ips) = false.
Proof.
  unfold banner, network_lines. cbn [app existsb is_frontend_spawn orb].
  rewrite existsb_app. cbn [existsb is_frontend_spawn orb].
  rewrite existsb_app. cbn [existsb is_frontend_spawn orb].
  assert (Hmap : forall g : string -> string, forall c,
            existsb is_frontend_spawn (map (fun ip => ELog "STARTUP" (g ip) c) ips) = false).
  { intros g c. induction ips as [| ip rest IH]; [reflexivity | exact IH]. }
  rewrite (Hmap (fun ip => "  Network:  http://" +:+ ip +:+ ":" +:+ str f)).
  rewrite (Hmap (fun ip => "  Network:  http://" +:+ ip +:+ ":" +:+ str b)).
  reflexivity.
Qed.

Lemma main_gated : gated (snd (run answer (main platform isNaN) [])) = true.
Proof.
  unfold gated, main. rewrite run_catch.
  destruct run_startServices_cases
    as [(msg & allocation & Halloc & ->)
       | (b & f & allocation & pre & backendPid & failures & Halloc & Hpre & _ & Hcase)].
  - unfold log, call, mbind, mret, Async_bind, Async_ret.
    cbn [bind run event_of app snd]. apply gated_from_quiet.
    pose proof (findFreePorts_preparatory answer startup_options
                  [ELog "STARTUP" "Starting SnapTrade Admin Panel..." bright]) as HpA.
    rewrite Halloc in HpA. cbn [snd] in HpA.
    apply preparatory_quiet in HpA. destruct HpA as [_ HpA].
    cbn [existsb is_frontend_spawn orb]. rewrite existsb_app, HpA. reflexivity.
  - apply preparatory_quiet in Hpre. destruct Hpre as [_ Hpre].
    destruct Hcase as [(_ & ->) | (_ & frontendPid & ips & ->)]; cbn [snd].
    + apply gated_from_quiet. rewrite existsb_app, Hpre.
      cbn [existsb is_frontend_spawn orb andb String.eqb Ascii.eqb Bool.eqb].
      rewrite existsb_app, failed_attempts_quiet. reflexivity.
    + rewrite gated_from_app by exact Hpre.
      cbn [gated_from]. rewrite gated_from_app by apply failed_attempts_quiet.
      unfold go_ahead. cbn [app gated_from].
      rewrite gated_from_quiet by apply banner_quiet.
      cbn [is_ready_probe]. rewrite !orb_true_r. reflexivity.
Qed.

(** X8: when port allocation throws, the script logs the error and exits
    with status 1 without having cleaned a port or spawned anything. *)
Theorem allocation_failure_aborts (msg : string) (allocation : list event) :
  run answer (FindFreePorts.findFreePorts startup_options)
    [ELog "STARTUP" "Starting SnapTrade Admin Panel..." bright] = (Threw msg, allocation) ->
  run answer (main platform isNaN) [] =
    (Exited 1,
     ELog "STARTUP" "Starting SnapTrade Admin Panel..." bright :: allocation ++
     [ELog "STARTUP" ("Error: " +:+ msg) red; EExit 1]).
Proof.
  intros Halloc. unfold main. rewrite run_catch. unfold startServices.
  unfold log, call, mbind, mret, Async_bind, Async_ret.
  cbn [bind run event_of app]. rewrite run_bind', Halloc.
  cbn [bind run event_of app]. reflexivity.
Qed.


(** X10: the health gate.  Whatever the ports, the helper commands and
    the backend answer, a spawn of the frontend occurs in a run of the
    script only after the backend has been spawned and a health probe
    has succeeded. *)
Theorem frontend_spawn_is_gated (before after : list event) (e : event) :
  snd (run answer (main platform isNaN) []) = before ++ e :: after ->
  is_frontend_spawn e = true ->
  existsb is_backend_spawn before = true /\ existsb is_ready_probe before = true.
Proof.
  intros Hsplit He.
  pose proof (gated_from_spec false false _ before after e main_gated Hsplit He) as H.
  cbn [orb] in H. apply andb_prop in H. exact H.
Qed.

End SupervisorBehaviour.

Section ReclamationBehaviour.
Import StartDev SupervisorFacts.

Variable isNaN : string -> bool.
Variable answer : oracle.

Lemma run_kill_first_listener_find (port : Z) (lines : list string) (h : list event) :
  exists pid',
    run answer (kill_first_listener isNaN port lines) h =
      (Returned tt,
       match List.find (qualifies isNaN port) lines with
       | Some line => kill_events Win32 port (victim line) pid'
       | None => []
       end).
Proof.
  induction lines as [| line rest IH]; [exists 0; reflexivity |].
  cbn [kill_first_listener List.find]. unfold qualifies at 1.
  destruct (test_literal_space _ line && includes "LISTENING" line); [| exact IH].
  fold (victim line).
  destruct (nonempty (victim line) && negb (isNaN (victim line))); [| exact IH].
  cbn [andb].
  unfold cleanup_notice, log, spawn, sleep, call, mbind, mret, Async_bind, Async_ret.
  cbn [bind run event_of].
  eexists.
  repeat match goal with |- context [@Returned unit ?u] =>
    lazymatch u with tt => fail | _ => destruct u end end.
  reflexivity.
Qed.

(** X11: on win32 the exit code of [netstat] is ignored and at most one
    process is killed: the one named in the last column of the first
    output line that contains [:<port>] followed by white space and the
    word LISTENING and whose last column is numeric; the kill is
    announced and followed by a wait of one second.  Later matching
    lines are not acted upon, and with no such line nothing is killed or
    awaited. *)
Theorem win32_kills_first_listener (port : Z) (h : list event) :
  exists lookup report pid',
    run answer (killProcessOnPort Win32 isNaN port) h =
      (Returned tt,
       lookup_event Win32 port lookup :: EWait lookup report ::
       match report with
       | SpawnError => []
       | Closed _ chunks =>
           match List.find (qualifies isNaN port) (split_on newline (join chunks)) with
           | Some line => kill_events Win32 port (victim line) pid'
           | None => []
           end
       end).
Proof.
  unfold killProcessOnPort, spawn, call, mbind, mret, Async_bind, Async_ret.
  cbn [bind run event_of pid].
  set (lookup := answer Z h _). set (h1 := h ++ _).
  destruct (answer exit_report h1 (Wait lookup)) as [| code chunks] eqn:Hreport.
  - exists lookup, SpawnError, 0. cbn [lookup_event]. reflexivity.
  - destruct (run_kill_first_listener_find port (split_on newline (join chunks))
                (h1 ++ [EWait lookup (Closed code chunks)])) as (pid' & Hrun).
    exists lookup, (Closed code chunks), pid'. rewrite Hrun. reflexivity.
Qed.

(** X12: on POSIX a kill is issued exactly when [lsof] closed with exit
    code 0 and printed something other than white space; its single
    argument is the concatenation of the trimmed output chunks.  With a
    non-zero exit code nothing is killed, whatever was printed. *)
Theorem posix_kill_condition (port : Z) (h : list event) :
  exists lookup report pid',
    run answer (killProcessOnPort Posix isNaN port) h =
      (Returned tt,
       lookup_event Posix port lookup :: EWait lookup report ::
       match report with
       | SpawnError => []
       | Closed code chunks =>
           if (code =? 0) && nonempty (join (map trim chunks))
           then kill_events Posix port (join (map trim chunks)) pid'
           else []
       end).
Proof.
  unfold killProcessOnPort, spawn, call, mbind, mret, Async_bind, Async_ret.
  cbn [bind run event_of pid].
  set (lookup := answer Z h _). set (h1 := h ++ _).
  destruct (answer exit_report h1 (Wait lookup)) as [| code chunks] eqn:Hreport.
  - exists lookup, SpawnError, 0. reflexivity.
  - destruct ((code =? 0) && nonempty (join (map trim chunks))) eqn:Hfound.
    + unfold cleanup_notice, log, spawn, sleep, call, mbind, mret, Async_bind, Async_ret.
      cbn [bind run event_of].
      eexists lookup, (Closed code chunks), _. rewrite Hfound.
      repeat match goal with |- context [@Returned unit ?u] =>
        lazymatch u with tt => fail | _ => destruct u end end.
      reflexivity.
    + exists lookup, (Closed code chunks), 0. rewrite Hfound. reflexivity.
Qed.

End ReclamationBehaviour.

Section SupervisorBehaviourExamples.
Import StartDev SupervisorFacts.

Lemma allocation_failure_aborts_witness :
  run (scripted (fun _ => false) true SpawnError) (main Posix (fun _ => false)) [] =
    (Exited 1,
     ELog "STARTUP" "Starting SnapTrade Admin Panel..." bright ::
     snd (run (scripted (fun _ => false) true SpawnError)
            (FindFreePorts.findFreePorts startup_options)
            [ELog "STARTUP" "Starting SnapTrade Admin Panel..." bright]) ++
     [ELog "STARTUP" ("Error: " +:+ "No free port found in range 3001-3999") red; EExit 1]).
Proof.
  apply (allocation_failure_aborts Posix (fun _ => false)
           (scripted (fun _ => false) true SpawnError)
           "No free port found in range 3001-3999").
  vm_compute. reflexivity.
Defined.


Lemma frontend_spawn_is_gated_witness :
  existsb is_backend_spawn
    (firstn 14 (snd (run (scripted (fun _ => true) true SpawnError)
                       (main Posix (fun _ => false)) []))) = true /\
  existsb is_ready_probe
    (firstn 14 (snd (run (scripted (fun _ => true) true SpawnError)
                       (main Posix (fun _ => false)) []))) = true.
Proof.
  apply (frontend_spawn_is_gated Posix (fun _ => false)
           (scripted (fun _ => true) true SpawnError)
           (firstn 14 (snd (run (scripted (fun _ => true) true SpawnError)
                              (main Posix (fun _ => false)) [])))
           (skipn 15 (snd (run (scripted (fun _ => true) true SpawnError)
                             (main Posix (fun _ => false)) [])))
           (ESpawn "npm" ["start"] (frontend_spawn_options 3005 3000) 4014)).
  - vm_compute. reflexivity.
  - vm_compute. reflexivity.
Defined.

End SupervisorBehaviourExamples.

(** ** Extractors, table rows and re-normalisation *)

Section TrimFacts.

Lemma trim_start_fixed (c : ascii) (s : string) :
  is_space c = false -> trim_start (String c s) = String c s.
Proof. intros H. cbn [trim_start]. rewrite H. reflexivity. Qed.

Lemma trim_end_head (c : ascii) (s : string) :
  is_space c = false -> exists rest, trim_end (String c s) = String c rest.
Proof.
  intros H. cbn [trim_end]. destruct (trim_end s).
  - rewrite H. eexists. reflexivity.
  - eexists. reflexivity.
Qed.

Lemma trim_end_idempotent (s : string) : trim_end (trim_end s) = trim_end s.
Proof.
  induction s as [| c s IH]; [reflexivity |].
  cbn [trim_end]. destruct (trim_end s) as [| d kept] eqn:Hs.
  - destruct (is_space c) eqn:Hc; [reflexivity |].
    cbn [trim_end]. rewrite Hc. reflexivity.
  - cbn [trim_end]. cbn [trim_end] in IH.
    destruct (trim_end kept) as [| d' kept'] eqn:Hk.
    + destruct (is_space d) eqn:Hd; [discriminate |]. rewrite IH. reflexivity.
    + rewrite IH. reflexivity.
Qed.

Lemma trim_start_head (s : string) :
  trim_start s = "" \/ exists c rest, trim_start s = String c rest /\ is_space c = false.
Proof.
  induction s as [| c s IH]; [left; reflexivity |].
  cbn [trim_start]. destruct (is_space c) eqn:Hc; [exact IH |].
  right. exists c, s. split; [reflexivity | exact Hc].
Qed.

Lemma trim_idempotent (s : string) : trim (trim s) = trim s.
Proof.
  unfold trim. destruct (trim_start_head s) as [-> | (c & rest & -> & Hc)]; [reflexivity |].
  destruct (trim_end_head c rest Hc) as (kept & Hkept).
  rewrite Hkept, (trim_start_fixed c kept Hc), <- Hkept.
  apply trim_end_idempotent.
Qed.

End TrimFacts.

Section ExtractorBehaviour.
Import AdminPanel PanelRows.

Lemma usable_string_clean (v : value) (s : string) :
  usable_string v = Some s -> s <> "" /\ trim s = s.
Proof.
  destruct v; cbn [usable_string]; try discriminate.
  destruct (String.eqb (trim s0) "") eqn:He; [discriminate |].
  intros [= <-]. split; [| apply trim_idempotent].
  apply String.eqb_neq, He.
Qed.

Lemma nested_lookup_defined (c : value) :
  truthy c && typeof_object c = true -> exists v, nested_lookup c = Normal v.
Proof.
  intros H. apply andb_prop in H. destruct H as [Ht Ho].
  destruct c; cbn [typeof_object truthy] in Ht, Ho; try discriminate.
  - eexists. reflexivity.
  - unfold nested_lookup. cbn [get]. rewrite !or_else_normal.
    repeat match goal with
           | |- context [truthy ?v] => destruct (truthy v); [eexists; reflexivity |]
           end.
    eexists. reflexivity.
Qed.

Lemma firstString_clean (candidates : list value) :
  exists s, firstString candidates = Normal s /\ clean s.
Proof.
  induction candidates as [| c rest IH]; [exists ""; split; [reflexivity | left; reflexivity] |].
  cbn [firstString]. destruct (usable_string c) as [s |] eqn:Hc.
  - exists s. split; [reflexivity | right; eapply usable_string_clean, Hc].
  - destruct (truthy c && typeof_object c) eqn:Hobj; [| exact IH].
    destruct (nested_lookup_defined c Hobj) as (v & ->). cbn [Js.bind].
    destruct (usable_string v) as [s |] eqn:Hv; [| exact IH].
    exists s. split; [reflexivity | right; eapply usable_string_clean, Hv].
Qed.

Lemma ticker_candidates_defined (position : value) :
  exists cs, ticker_candidates position = Normal cs.
Proof.
  unfold ticker_candidates.
  destruct position; cbn; try (eexists; reflexivity).
  destruct (lookup_field "symbol" fields); cbn; eexists; reflexivity.
Qed.

(** X13: the two extractors of the holdings table never throw, whatever
    the position is (also [null], a number, an array), and each returns
    either the empty string or a non-empty string without white space at
    either end. *)
Theorem extractors_total_and_clean (position : value) :
  exists ticker title,
    formatTicker position = Normal ticker /\
    formatSecurityName position = Normal title /\
    clean ticker /\ clean title.
Proof.
  unfold formatTicker, formatSecurityName.
  destruct (ticker_candidates_defined position) as (cs & ->). cbn [Js.bind].
  destruct (firstString_clean cs) as (ticker & Ht & Hct).
  destruct (firstString_clean (name_candidates position)) as (title & Hn & Hcn).
  exists ticker, title. auto.
Qed.

(** X14: a position that is not an object (undefined, null, a boolean, a
    number, a string, an array) has no ticker and no name: both
    extractors return the empty string. *)
Theorem extractors_empty_on_non_object (position : value) :
  plain_object position = false ->
  formatTicker position = Normal "" /\ formatSecurityName position = Normal "".
Proof. intros Hno. destruct position; try discriminate; split; reflexivity. Qed.

(** X15: inside a structured candidate only the first truthy of [symbol],
    [ticker], [code], [name], [id] is looked at.  When that value is not
    a string (say [symbol] is itself an object), the candidate yields
    nothing, even if a later key such as [ticker] holds a usable string,
    and the search moves on to the next candidate. *)
Theorem nested_lookup_first_truthy_only (fields : list (string * value))
    (rest : list value) :
  truthy (lookup_field "symbol" fields) = true ->
  usable_string (lookup_field "symbol" fields) = None ->
  firstString (VObj fields :: rest) = firstString rest.
Proof.
  intros Ht Hs. cbn [firstString usable_string truthy typeof_object andb].
  unfold nested_lookup. cbn [get]. unfold or_else at 1. cbn [Js.bind].
  rewrite Ht. cbn [Js.bind]. rewrite Hs. reflexivity.
Qed.

Lemma coalesce_normal (a : value) (b : completion value) :
  Normal a <??> b = if nullish a then b else Normal a.
Proof. reflexivity. Qed.

(** X16: rendering a row throws exactly when the position is [null] or
    [undefined]: the extractors tolerate such an entry, the unguarded
    reads [p.quantity] and [p.price] do not.  Every other position,
    of whatever shape, gives a row. *)
Theorem render_row_defined_iff (p : value) :
  (exists r, render_row p = Normal r) <-> nullish p = false.
Proof.
  unfold render_row, formatTicker, formatSecurityName.
  destruct (ticker_candidates_defined p) as (cs & ->). cbn [Js.bind].
  destruct (firstString_clean cs) as (ticker & -> & _).
  destruct (firstString_clean (name_candidates p)) as (title & -> & _).
  cbn [Js.bind]. split.
  - intros (r & Hr). destruct p; try reflexivity; cbn in Hr; discriminate.
  - intros Hp.
    assert (Hget : forall k, get p k = Normal (p ?. k)).
    { intros k. destruct p; try discriminate; reflexivity. }
    rewrite !Hget.
    repeat first
      [ rewrite coalesce_normal
      | progress cbn [Js.bind]
      | match goal with |- context [nullish ?v] => destruct (nullish v) end ];
      eexists; reflexivity.
Qed.

Lemma extractors_empty_on_non_object_witness :
  formatTicker (VArr [VStr "TSLA"]) = Normal "" /\
  formatSecurityName (VArr [VStr "TSLA"]) = Normal "".
Proof. apply (extractors_empty_on_non_object (VArr [VStr "TSLA"])). reflexivity. Defined.

Lemma nested_lookup_first_truthy_only_witness :
  firstString [VObj shadowed_ticker; VStr " AAPL "] = firstString [VStr " AAPL "].
Proof.
  apply (nested_lookup_first_truthy_only shadowed_ticker [VStr " AAPL "]).
  - reflexivity.
  - reflexivity.
Defined.

End ExtractorBehaviour.

Section NormalizerBehaviour.
Import Holdings.

Lemma normalize_normalized (accounts positions raw : value) :
  truthy accounts = true -> isArray positions = true ->
  normalizeHoldingsResponse
    (VObj [("accounts", accounts); ("positions", positions); ("raw", raw)]) =
  Normal (VObj [("accounts", accounts); ("positions", positions);
                ("raw", VObj [("accounts", accounts); ("positions", positions);
                              ("raw", raw)])]).
Proof.
  intros Ha Hp. rewrite normalize_truthy by reflexivity.
  unfold positions_nested_first, as_sequence, nested_candidates, flat_candidates.
  cbn [opt_get lookup_field String.eqb Ascii.eqb Bool.eqb app first_truthy truthy].
  rewrite Ha. destruct positions; try discriminate. reflexivity.
Qed.

Lemma first_truthy_truthy (candidates : list value) (default : value) :
  truthy default = true -> truthy (first_truthy candidates default) = true.
Proof.
  intros Hd. induction candidates as [| c rest IH]; [exact Hd |].
  cbn [first_truthy]. destruct (truthy c) eqn:Hc; [exact Hc | exact IH].
Qed.

(** X17: normalising an already normalised response changes neither its
    accounts nor its positions; only [raw] then holds the first result. *)
Theorem normalize_idempotent (x result : value) :
  normalizeHoldingsResponse x = Normal result ->
  exists again,
    normalizeHoldingsResponse result = Normal again /\
    field "accounts" again = field "accounts" result /\
    field "positions" again = field "positions" result /\
    field "raw" again = result.
Proof.
  destruct (truthy x) eqn:Hx.
  - rewrite (normalize_truthy x Hx). intros [= <-].
    rewrite normalize_normalized;
      [| apply (first_truthy_truthy [x ?. "accounts"; x ?. "brokerageAccounts"]);
         reflexivity
       | apply as_sequence_isArray].
    eexists. split; [reflexivity |]. repeat split.
  - unfold normalizeHoldingsResponse. rewrite Hx. cbn [negb]. intros [= <-].
    eexists. split; [reflexivity |]. repeat split.
Qed.

(** X18: a truthy payload that is not an object has no accounts; a bare
    array is taken as the list of positions itself, and any other
    primitive (true, a non-zero number, a non-empty string) gives no
    positions. *)
Theorem normalize_non_object (data : value) :
  truthy data = true ->
  PanelRows.plain_object data = false ->
  normalizeHoldingsResponse data =
    Normal (VObj [("accounts", VArr []); ("positions", as_sequence data); ("raw", data)]).
Proof.
  intros Hd Hno. rewrite normalize_truthy by exact Hd.
  destruct data; try discriminate; try reflexivity;
    try (unfold positions_nested_first; cbn;
         match goal with |- context [if ?c then _ else _] => destruct c end;
         reflexivity).
Qed.

Lemma normalize_idempotent_witness :
  exists again,
    normalizeHoldingsResponse
      (VObj [("accounts", VArr []); ("positions", VArr [VStr "p1"]);
             ("raw", PanelRows.flat_payload)]) = Normal again /\
    field "accounts" again =
      field "accounts" (VObj [("accounts", VArr []); ("positions", VArr [VStr "p1"]);
                              ("raw", PanelRows.flat_payload)]) /\
    field "positions" again =
      field "positions" (VObj [("accounts", VArr []); ("positions", VArr [VStr "p1"]);
                               ("raw", PanelRows.flat_payload)]) /\
    field "raw" again =
      VObj [("accounts", VArr []); ("positions", VArr [VStr "p1"]);
            ("raw", PanelRows.flat_payload)].
Proof. apply (normalize_idempotent PanelRows.flat_payload). reflexivity. Defined.

Lemma normalize_non_object_witness :
  normalizeHoldingsResponse (VArr [VStr "p1"]) =
    Normal (VObj [("accounts", VArr []); ("positions", as_sequence (VArr [VStr "p1"]));
                  ("raw", VArr [VStr "p1"])]).
Proof.
  apply (normalize_non_object (VArr [VStr "p1"])).
  - reflexivity.
  - reflexivity.
Defined.

End NormalizerBehaviour.

(** ** Connected-brokerage state *)

Section ConnectionBehaviour.
Import Connections.

Lemma entries_ordinary (variable : string) (m : connected) (userId : string) :
  prototype_member userId = false ->
  entries variable m userId = Normal (listed_for m userId).
Proof.
  intros Hord. unfold entries, listed_for.
  destruct (m !! userId); [reflexivity |]. rewrite Hord. reflexivity.
Qed.

Lemma listed_for_insert (m : connected) (k user : string) (ids : list string) :
  listed_for (<[k := ids]> m) user = if String.eqb user k then ids else listed_for m user.
Proof.
  unfold listed_for. destruct (String.eqb user k) eqn:Hu.
  - apply String.eqb_eq in Hu. subst user. rewrite lookup_insert_eq. reflexivity.
  - apply String.eqb_neq in Hu. rewrite lookup_insert_ne by congruence. reflexivity.
Qed.

Lemma connectBrokerage_ordinary (overrideUserId userId accountId : string)
    (prev : connected) :
  prototype_member (getEffectiveUserId overrideUserId userId) = false ->
  connectBrokerage overrideUserId userId accountId prev =
    Normal
      (if existsb (String.eqb accountId)
            (listed_for prev (getEffectiveUserId overrideUserId userId))
       then prev
       else <[getEffectiveUserId overrideUserId userId :=
                listed_for prev (getEffectiveUserId overrideUserId userId) ++ [accountId]]>
              prev).
Proof.
  intros Hord. unfold connectBrokerage. cbv zeta.
  rewrite (entries_ordinary _ _ _ Hord). cbn [Js.bind].
  destruct (existsb _ _); reflexivity.
Qed.

(** The reads that the hypotheses of the theorems below exclude: for an
    id naming an inherited member that the state does not hold as an
    own property, both the test and the update throw. *)
Lemma inherited_member_throws (overrideUserId userId accountId : string)
    (prev : connected) :
  prototype_member (getEffectiveUserId overrideUserId userId) = true ->
  prev !! getEffectiveUserId overrideUserId userId = None ->
  isBrokerageConnected prev (getEffectiveUserId overrideUserId userId) accountId =
    Throw "arr.includes is not a function" /\
  connectBrokerage overrideUserId userId accountId prev =
    Throw "existing.includes is not a function".
Proof.
  intros Hproto Hown. unfold isBrokerageConnected, connectBrokerage, entries. cbv zeta.
  rewrite Hown, Hproto. split; reflexivity.
Qed.


(** X20: for an ASCII override and an effective user id that does not
    name a member of [Object.prototype], connecting the same account a
    second time returns the state of the first connection untouched,
    and if no stored list had a duplicate before the connection, none
    has one after it. *)
Theorem connectBrokerage_idempotent
    (overrideUserId userId accountId : string) (prev : connected) :
  ascii_only overrideUserId = true ->
  prototype_member (getEffectiveUserId overrideUserId userId) = false ->
  exists once,
    connectBrokerage overrideUserId userId accountId prev = Normal once /\
    connectBrokerage overrideUserId userId accountId once = Normal once /\
    ((forall user ids, prev !! user = Some ids -> NoDup ids) ->
     forall user ids, once !! user = Some ids -> NoDup ids).
Proof.
  intros _ Heff. rewrite !(connectBrokerage_ordinary _ _ _ _ Heff).
  set (eff := getEffectiveUserId overrideUserId userId).
  destruct (existsb (String.eqb accountId) (listed_for prev eff)) eqn:Hin.
  - exists prev. split; [reflexivity |]. split; [| auto].
    rewrite (connectBrokerage_ordinary _ _ _ _ Heff). fold eff. rewrite Hin. reflexivity.
  - eexists. split; [reflexivity |]. split.
    + rewrite (connectBrokerage_ordinary _ _ _ _ Heff). fold eff.
      rewrite listed_for_insert, String.eqb_refl, existsb_app. cbn [existsb].
      rewrite String.eqb_refl, orb_true_r. reflexivity.
    + intros Hnodup user ids. destruct (decide (eff = user)) as [<- | Hne].
      * rewrite lookup_insert_eq. intros [= <-].
        apply NoDup_app. split; [| split; [| apply NoDup_singleton]].
        -- unfold listed_for. destruct (prev !! eff) as [stored |] eqn:Hstored;
             [eapply Hnodup, Hstored | apply NoDup_nil_2].
        -- intros x Hx Hx'. apply list_elem_of_singleton in Hx'. subst x.
           assert (existsb (String.eqb accountId) (listed_for prev eff) = true);
             [| congruence].
           apply existsb_exists. exists accountId. split; [| apply String.eqb_refl].
           apply list_elem_of_In, Hx.
      * rewrite lookup_insert_ne by exact Hne. apply Hnodup.
Qed.


Lemma connectBrokerage_idempotent_witness :
  exists once,
    connectBrokerage "" "alice@example.com" "acct-1" ∅ = Normal once /\
    connectBrokerage "" "alice@example.com" "acct-1" once = Normal once /\
    ((forall user ids, (∅ : connected) !! user = Some ids -> NoDup ids) ->
     forall user ids, once !! user = Some ids -> NoDup ids).
Proof.
  apply (connectBrokerage_idempotent "" "alice@example.com" "acct-1" ∅).
  - reflexivity.
  - reflexivity.
Defined.

End ConnectionBehaviour.

(** ** Masking and the secret store across requests *)

Section MaskFacts.
Import ServerFacts.

Lemma length_drop (n : nat) (s : string) :
  String.length (drop n s) = (String.length s - n)%nat.
Proof.
  revert s. induction n as [| n IH]; intros s; [cbn; lia |].
  destruct s as [| c s]; [reflexivity |]. cbn. apply IH.
Qed.

Lemma drop_is_suffix (n : nat) (s : string) :
  exists hidden, s = hidden +:+ drop n s /\ String.length hidden = Nat.min n (String.length s).
Proof.
  revert s. induction n as [| n IH]; intros s.
  - exists "". split; reflexivity.
  - destruct s as [| c s]; [exists ""; split; reflexivity |].
    destruct (IH s) as (hidden & Hs & Hlen).
    exists (String c hidden). cbn [drop]. split.
    + change (String c hidden +:+ drop n s) with (String c (hidden +:+ drop n s)).
      rewrite <- Hs. reflexivity.
    + cbn [String.length]. rewrite Hlen. reflexivity.
Qed.

(** X21: for a secret [s] and a positive [keep], the mask has the length
    of [s] and is a run of asterisks followed by a suffix of [s]: the
    last [keep] characters when [s] is longer than [keep], and nothing
    at all when it is not, so that a short secret is masked entirely. *)
Theorem maskLast_hides_all_but_last (s : string) (keep : Z) :
  nonempty s = true -> 0 < keep ->
  exists hidden shown,
    s = hidden +:+ shown /\
    maskLast s keep = Some (stars (String.length hidden) +:+ shown) /\
    Z.of_nat (String.length shown) =
      (if Z.of_nat (String.length s) <=? keep then 0 else keep).
Proof.
  intros Hs Hkeep. unfold maskLast.
  change (truthy (VStr s)) with (nonempty s). rewrite Hs. cbn [negb].
  destruct (Z.of_nat (String.length s) <=? keep) eqn:Hle.
  - exists s, "". split; [| split].
    + clear. induction s as [| c s IH]; [reflexivity |].
      change (String c s +:+ "") with (String c (s +:+ "")). rewrite <- IH. reflexivity.
    + f_equal. clear. induction (String.length s) as [| n IH]; [reflexivity |].
      change (stars (S n) +:+ "") with (String "*" (stars n +:+ "")).
      rewrite <- IH. reflexivity.
    + reflexivity.
  - apply Z.leb_gt in Hle. unfold slice.
    replace (- keep <? 0) with true by (symmetry; apply Z.ltb_lt; lia).
    rewrite (Z.max_l (Z.of_nat (String.length s) + - keep) 0) by lia.
    destruct (drop_is_suffix (Z.to_nat (Z.of_nat (String.length s) + - keep)) s)
      as (hidden & Hsplit & Hlen).
    exists hidden, (drop (Z.to_nat (Z.of_nat (String.length s) + - keep)) s).
    split; [exact Hsplit |]. split.
    + rewrite Hlen.
      replace (Z.to_nat (Z.max 0 (Z.of_nat (String.length s) - keep)))
        with (Nat.min (Z.to_nat (Z.of_nat (String.length s) + - keep)) (String.length s))
        by lia.
      reflexivity.
    + rewrite length_drop. lia.
Qed.

(** X22: with [keep = 0] nothing is masked: the result is as many
    asterisks as the secret is long, followed by the whole secret,
    because [s.slice(-0)] is [s.slice(0)]. *)
Theorem maskLast_keep_zero_reveals (s : string) :
  nonempty s = true -> maskLast s 0 = Some (stars (String.length s) +:+ s).
Proof.
  intros Hs. unfold maskLast.
  change (truthy (VStr s)) with (nonempty s). rewrite Hs. cbn [negb].
  destruct (Z.of_nat (String.length s) <=? 0) eqn:Hle.
  - apply Z.leb_le in Hle. destruct s; [discriminate | cbn in Hle; lia].
  - unfold slice. change (- 0 <? 0) with false. cbv iota.
    rewrite Z.min_l by lia. rewrite Z.sub_0_r, Z.max_r by lia.
    rewrite Nat2Z.id. reflexivity.
Qed.

Lemma maskLast_hides_all_but_last_witness :
  exists hidden shown,
    "sk-live-12345678" = hidden +:+ shown /\
    maskLast "sk-live-12345678" 6 = Some (stars (String.length hidden) +:+ shown) /\
    Z.of_nat (String.length shown) =
      (if Z.of_nat (String.length "sk-live-12345678") <=? 6 then 0 else 6).
Proof.
  apply (maskLast_hides_all_but_last "sk-live-12345678" 6).
  - reflexivity.
  - reflexivity.
Defined.

Lemma maskLast_keep_zero_reveals_witness :
  maskLast "s3cr3t" 0 = Some (stars (String.length "s3cr3t") +:+ "s3cr3t").
Proof. apply (maskLast_keep_zero_reveals "s3cr3t"). reflexivity. Defined.

End MaskFacts.

Section StoreBehaviour.
Import Server ServerFacts.

Lemma handle_store (c : call) (st : state) :
  fst (handle c st) = st \/
  exists userId existing data secret,
    c = PostUsers userId existing (Resolved data) /\
    get data "userSecret" = Normal secret /\
    fst (handle c st) = {| userSecrets := <[userId := secret]> (userSecrets st) |} /\
    snd (handle c st) = {| status := VNum 200; body := data |}.
Proof.
  destruct c as [listing | userId existing registration | userId deletion]; cbn [handle].
  - left. destruct listing; reflexivity.
  - unfold post_users. destruct (negb (truthy (VStr userId))); [left; reflexivity |].
    destruct (match existing with
              | Resolved ids => includes_id userId ids
              | Rejected _ => false
              end); [left; reflexivity |].
    destruct registration as [data | e]; [| left; reflexivity].
    destruct (get data "userSecret") as [secret | msg] eqn:Hsec; [| left; reflexivity].
    right. exists userId, existing, data, secret. auto.
  - left. destruct deletion; reflexivity.
Qed.

(** X23: a request changes the stored secret of a user only when it is a
    registration of that very user that the upstream accepted and that
    was answered with 200; every other request, and every failed
    registration (400, 409, upstream error), leaves each stored secret
    as it was. *)
Theorem secret_changes_only_by_registration (c : call) (st : state) (u : string) :
  userSecrets (fst (handle c st)) !! u <> userSecrets st !! u ->
  exists existing data,
    c = PostUsers u existing (Resolved data) /\
    status (snd (handle c st)) = VNum 200 /\
    Some (data ?. "userSecret") = userSecrets (fst (handle c st)) !! u.
Proof.
  intros Hchanged.
  destruct (handle_store c st) as [Hsame | (userId & existing & data & secret & -> & Hsec & Hst & Hr)].
  - rewrite Hsame in Hchanged. congruence.
  - rewrite Hst in Hchanged |- *. rewrite Hr. cbn [userSecrets] in *.
    destruct (decide (userId = u)) as [-> | Hne].
    + exists existing, data. split; [reflexivity |]. split; [reflexivity |].
      rewrite lookup_insert_eq.
      destruct data; cbn in Hsec; try discriminate; injection Hsec as <-; reflexivity.
    + rewrite lookup_insert_ne in Hchanged by exact Hne. congruence.
Qed.

(** X24: no request removes a key of the store, and the value under
    a key changes only through a registration of its user.  After any
    sequence of requests, with whatever upstream outcomes, a user id
    that was a key of the store still is one; and when the sequence
    holds no [POST /api/users] for that user with a resolving
    registration, the store holds for the user exactly the value it
    held before.  (Such a registration, once accepted, overwrites the
    value with the [userSecret] of the upstream answer, be that
    [undefined].) *)
Theorem entry_survives_requests (calls : list call) (st : state) (u : string) :
  (is_Some (userSecrets st !! u) ->
   is_Some (userSecrets (fst (serve calls st)) !! u)) /\
  (forallb (fun c => negb (registers u c)) calls = true ->
   userSecrets (fst (serve calls st)) !! u = userSecrets st !! u).
Proof.
  revert st. induction calls as [| c rest IH]; intros st; [split; auto |].
  cbn [serve forallb]. destruct (handle c st) as [st1 r] eqn:Hc.
  destruct (serve rest st1) as [st2 rs] eqn:Hrest. cbn [fst].
  replace st2 with (fst (serve rest st1)) by (rewrite Hrest; reflexivity).
  destruct (IH st1) as [IHkey IHvalue].
  destruct (handle_store c st)
    as [Hsame | (userId & existing & data & secret & -> & _ & Hst & _)];
    rewrite Hc in *; cbn [fst] in *; subst st1.
  - split; [exact IHkey |].
    intros H. apply andb_prop in H. destruct H as [_ H]. apply IHvalue, H.
  - cbn [userSecrets] in *. split.
    + intros Hheld. apply IHkey.
      destruct (decide (userId = u)) as [-> | Hne].
      * rewrite lookup_insert_eq. eexists. reflexivity.
      * rewrite lookup_insert_ne by exact Hne. exact Hheld.
    + intros H. apply andb_prop in H. destruct H as [Hc' H].
      cbn [registers] in Hc'. apply negb_true_iff, String.eqb_neq in Hc'.
      rewrite (IHvalue H). apply lookup_insert_ne, Hc'.
Qed.

(** X25: registration followed by listing.  When [POST /api/users]
    registers [userId] and the upstream answers with a truthy
    [userSecret], a later [GET /api/users] whose upstream list contains
    [userId] shows that secret for it, and shows for every other listed
    user what it would have shown before the registration. *)
Theorem register_then_list (userId : string) (data secret : value)
    (existing : upstream (list string)) (st : state) (ids : list string) :
  truthy (VStr userId) = true ->
  (forall known, existing = Resolved known -> includes_id userId known = false) ->
  get data "userSecret" = Normal secret ->
  truthy secret = true ->
  let st' := fst (post_users userId existing (Resolved data) st) in
  listed (snd (get_users (Resolved ids) st')) =
    map (fun id => if String.eqb id userId
                   then VObj [("userId", VStr userId); ("userSecret", secret)]
                   else user_entry st id) ids.
Proof.
  intros Hid Hnew Hsec Htruthy st'. cbn [get_users snd listed body].
  assert (Hst : st' = {| userSecrets := <[userId := secret]> (userSecrets st) |}).
  { subst st'. unfold post_users. rewrite Hid. cbn [negb].
    assert (Hc : match existing with
                 | Resolved known => includes_id userId known
                 | Rejected _ => false
                 end = false).
    { destruct existing as [known | e]; [apply (Hnew known eq_refl) | reflexivity]. }
    rewrite Hc, Hsec. reflexivity. }
  rewrite Hst. apply map_ext. intros id.
  unfold user_entry, secret_or_null. cbn [userSecrets].
  destruct (String.eqb id userId) eqn:He.
  - apply String.eqb_eq in He. subst id. rewrite lookup_insert_eq.
    unfold js_or. rewrite Htruthy. reflexivity.
  - apply String.eqb_neq in He. rewrite lookup_insert_ne by congruence. reflexivity.
Qed.

Lemma secret_changes_only_by_registration_witness :
  exists existing data,
    PostUsers "alice" (Resolved []) (Resolved alice_registered) =
      PostUsers "alice" existing (Resolved data) /\
    status (snd (handle (PostUsers "alice" (Resolved []) (Resolved alice_registered))
                   {| userSecrets := ∅ |})) = VNum 200 /\
    Some (data ?. "userSecret") =
      userSecrets (fst (handle (PostUsers "alice" (Resolved []) (Resolved alice_registered))
                          {| userSecrets := ∅ |})) !! "alice".
Proof.
  apply (secret_changes_only_by_registration
           (PostUsers "alice" (Resolved []) (Resolved alice_registered))
           {| userSecrets := ∅ |} "alice").
  vm_compute. discriminate.
Defined.

Lemma entry_survives_requests_witness :
  is_Some (userSecrets (fst (serve quiet_day alice_store)) !! "alice") /\
  userSecrets (fst (serve quiet_day alice_store)) !! "alice" =
    userSecrets alice_store !! "alice".
Proof.
  destruct (entry_survives_requests quiet_day alice_store "alice") as [Hkey Hvalue].
  split.
  - apply Hkey. vm_compute. eexists. reflexivity.
  - apply Hvalue. reflexivity.
Defined.

Lemma register_then_list_witness :
  let st' := fst (post_users "alice" (Resolved ["bob"]) (Resolved alice_registered)
                    {| userSecrets := ∅ |}) in
  listed (snd (get_users (Resolved ["bob"; "alice"]) st')) =
    map (fun id => if String.eqb id "alice"
                   then VObj [("userId", VStr "alice"); ("userSecret", VStr "s3cr3t")]
                   else user_entry {| userSecrets := ∅ |} id) ["bob"; "alice"].
Proof.
  apply (register_then_list "alice" alice_registered (VStr "s3cr3t") (Resolved ["bob"])
           {| userSecrets := ∅ |} ["bob"; "alice"]).
  - reflexivity.
  - intros known [= <-]. reflexivity.
  - reflexivity.
  - reflexivity.
Defined.

End StoreBehaviour.
